(** * Prusa Connect SDK printer

    A shallow embedding of [prusa/connect/printer/__init__.py]: the identity
    properties of [Printer], the producers [event_cb] and [telemetry], the
    response parser [parse_command] and the dispatch [loop].

    Python objects become records, [self] and the module-level flags of
    [errors] are threaded through a state-and-exception monad, and the
    collaborators whose code lives in other modules ([command.Command],
    [clock.ClockWatcher], the HTTP session, the wall clock) are the fields
    of one interface class. *)

From Stdlib Require Import ZArith QArith Qround String List Bool Lia.
From Stdlib Require Import DecimalString DecimalZ.
From stdpp Require Import base gmap strings list.
Import ListNotations.
Open Scope string_scope.
Open Scope Z_scope.

(** ** Enumerations of [const]

    The members listed in [types.py], together with the members that
    [__init__.py] refers to ([State.PREPARED], [Event.DOWNLOAD_INFO]). *)
Module const.
Module State.
Inductive t :=
  READY | BUSY | PRINTING | PAUSED | FINISHED | ERROR | ATTENTION | PREPARED.
End State.
Module Event.
Inductive t :=
  ACCEPTED | REJECTED | FINISHED | INFO | STATE_CHANGED | MEDIUM_EJECTED
| MEDIUM_INSERTED | FILE_CHANGED | FILE_INFO | DOWNLOAD_INFO.
End Event.
Module Source.
Inductive t := CONNECT | GUI | WUI | SERIAL | GCODE | MARLIN | FIRMWARE | HW.
End Source.
End const.

(** ** Python values *)

(** The values that travel in keyword arguments and in JSON bodies. *)
#[local] Unset Elimination Schemes.
Inductive Value :=
| VNone
| VBool (b : bool)
| VInt (z : Z)
| VFloat (q : Q)
| VStr (s : string)
| VList (l : list Value)
| VDict (d : list (string * Value)).
#[local] Set Elimination Schemes.

(** [type(v).__name__], as it shows in an [AttributeError] message. *)
Definition py_type_name (v : Value) : string :=
  match v with
  | VNone => "NoneType"
  | VBool _ => "bool"
  | VInt _ => "int"
  | VFloat _ => "float"
  | VStr _ => "str"
  | VList _ => "list"
  | VDict _ => "dict"
  end.

(** Truth value of an optional string: [None] and [""] are false. *)
Definition truthy_str (o : option string) : bool :=
  match o with
  | Some s => negb (String.eqb s "")
  | None => false
  end.

(** Truth value of an optional float: [None] and [0.0] are false. *)
Definition truthy_float (o : option Q) : bool :=
  match o with
  | Some q => negb (Qeq_bool q 0)
  | None => false
  end.

(** [int(x)] on a float truncates toward zero. *)
Definition int_of_float (q : Q) : Z := Z.quot (Qnum q) (Zpos (Qden q)).

(** [a > b] for an integer [a] and a float [b]. *)
Definition int_gt_float (a : Z) (b : Q) : bool := negb (Qle_bool (inject_Z a) b).

(** ** Exceptions *)

(** The exception classes the loop tells apart. [ConnectionError] is a
    subclass of [RequestException]; everything is an [Exception]. *)
Inductive Exn :=
| Empty
| ConnectionError (msg : string)
| RequestException (msg : string)
| Exception (msg : string).

(** [str(e)] *)
Definition str_exn (e : Exn) : string :=
  match e with
  | Empty => ""
  | ConnectionError m | RequestException m | Exception m => m
  end.

(** ** Messages *)

Abbreviation Kwargs := (gmap string Value).

(** [models.Event] *)
Record Event := {
  event : const.Event.t;
  source : const.Source.t;
  ev_timestamp : Q;
  command_id : option Z;
  ev_kwargs : Kwargs
}.

(** [models.Telemetry] *)
Record Telemetry := {
  state : const.State.t;
  timestamp : Q;
  kwargs : Kwargs
}.

(** [class Register]: item for the get_token action. *)
Record Register := {
  code : string;
  timeout : Z
}.

Definition CODE_TIMEOUT : Z := 60 * 30.

(** What the queue holds: [Queue[Union[Event, Telemetry, Register]]]. *)
Inductive Item :=
| IEvent (e : Event)
| ITelemetry (t : Telemetry)
| IRegister (r : Register).

Definition is_register (i : Item) : bool :=
  match i with IRegister _ => true | _ => false end.

(** ** HTTP *)

(** The dict built by [make_headers], with the key [get_token] adds. *)
Record Headers := {
  h_Fingerprint : option string;
  h_Timestamp : Q;
  h_Token : option string;
  h_Clock_Adjusted : option string;
  h_Temporary_Code : option string
}.

Inductive Method := GET | POST.

Record Request := {
  method : Method;
  url : string;
  req_headers : Headers;
  json : option Item;
  req_timeout : Q
}.

(** A [requests.Response]. [headers] is a case-insensitive dict: the keys
    are stored lower-cased and every lookup lower-cases its key. [res_json]
    is what [res.json()] gives: the decoded body or the error it raises. *)
Record Response := {
  status_code : Z;
  headers : gmap string string;
  text : string;
  res_json : Exn + Value
}.

Definition lower_ascii (c : Ascii.ascii) : Ascii.ascii :=
  let n := Ascii.nat_of_ascii c in
  if ((65 <=? n)%nat && (n <=? 90)%nat)%bool then Ascii.ascii_of_nat (n + 32) else c.

Fixpoint lower (s : string) : string :=
  match s with
  | EmptyString => EmptyString
  | String c s' => String (lower_ascii c) (lower s')
  end.

(** [res.headers.get(key)] *)
Definition headers_get (key : string) (res : Response) : option string :=
  headers res !! lower key.

(** What one call on the session yields. *)
Inductive HttpResult :=
| Resp (r : Response)
| Raise (e : Exn).

(** ** Calls into collaborators *)

(** The arguments of one [event_cb(event, source, timestamp, command_id,
    **kwargs)] call. *)
Record EventArgs := {
  ea_event : const.Event.t;
  ea_source : const.Source.t;
  ea_timestamp : option Q;
  ea_command_id : option Z;
  ea_kwargs : Kwargs
}.

(** The arguments [parse_command] hands to [Command.accept]; [None] in
    [a_kwargs] or [a_force] is an argument left to its default. *)
Record AcceptArgs := {
  a_command_id : Z;
  a_command : Value;
  a_args : Value;
  a_kwargs : option Value;
  a_force : option bool
}.

(** What a method of the [Command] object does: the events it reports
    through the [event_cb] it was built with, its next state, and its
    return value or the exception it raises. *)
Record CmdResult (C A : Type) := {
  cr_events : list EventArgs;
  cr_cmd : C;
  cr_ret : Exn + A
}.
Arguments cr_events {C A} _.
Arguments cr_cmd {C A} _.
Arguments cr_ret {C A} _.

(** The code this module calls but does not contain. [wall_clock n] is the n-th
    reading of the wall clock and [conn n req] the outcome of the n-th
    request sent on the session; [py_int] is the builtin [int] on a string,
    [None] standing for [ValueError]; [float_mul] is the product of two
    floats as the machine computes it, rounded to a float. *)
Class Collaborators := {
  Cmd : Type;
  Command_check_state : Z -> Cmd -> CmdResult Cmd bool;
  Command_accept : AcceptArgs -> Cmd -> CmdResult Cmd unit;
  ClockWatcher : Type;
  clock_adjusted : ClockWatcher -> bool;
  reset : ClockWatcher -> ClockWatcher;
  wall_clock : nat -> Q;
  conn : nat -> Request -> HttpResult;
  py_int : string -> option Z;
  float_mul : Q -> Q -> Q;
  TIMESTAMP_PRECISION : Q;
  CONNECTION_TIMEOUT : Q;
  Command_GCODE_value : string
}.

(** The ghost record of the calls made: it changes no behaviour and lets
    a statement say which calls happened, in which order. *)
Inductive Call :=
| CParseCommand (res : Response)
| CResJson (res : Response)
| CCheckState (id : Z)
| CAccept (a : AcceptArgs)
| CEventCb (e : EventArgs)
| CRegisterHandler (tok : string)
| CSleep (secs : Z).

(** ** State *)

(** [const.PrinterType]: the value triple (type, version, subversion). *)
Definition PrinterType : Type := Z * Z * Z.

(** [download_mgr.current]: the figures [telemetry] reads from it. *)
Record Transfer := {
  progress : Value;
  time_remaining : Value;
  downloaded : Value
}.

Section WithCollaborators.
Context `{Collaborators}.

(** The attributes of [self] that the modelled methods read or write. *)
Record Printer := {
  __type : option PrinterType;
  __sn : option string;
  __fingerprint : option string;
  server : option string;
  token : option string;
  job_id : option Z;
  queue : list Item;
  command : Cmd;
  download_mgr_current : option Transfer;
  clock_watcher : ClockWatcher;
  register_handler : string -> option Exn
}.

(** Modelled from the spec: the health flags of module [errors], which is
    imported by the printer module and is not among the sources;
    "independently-settable boolean flags (transport, API-semantics,
    auth-token, internet-reachability)". Each field is the [ok] of one
    flag. *)
Record Errors := {
  HTTP : bool;
  API : bool;
  TOKEN : bool;
  INTERNET : bool
}.

(** Everything a method can touch: [self], the module-level flags, the
    number of clock readings so far, the HTTP exchanges so far (oldest
    first) and the ghost record of calls. *)
Record World := {
  self : Printer;
  errors : Errors;
  ticks : nat;
  exchanges : list (Request * HttpResult);
  calls : list Call
}.

(** *** Field updates *)

Definition set___type (v : option PrinterType) (p : Printer) : Printer :=
  let '(Build_Printer _ b c d e f g h i j k) := p in Build_Printer v b c d e f g h i j k.
Definition set___sn (v : option string) (p : Printer) : Printer :=
  let '(Build_Printer a _ c d e f g h i j k) := p in Build_Printer a v c d e f g h i j k.
Definition set___fingerprint (v : option string) (p : Printer) : Printer :=
  let '(Build_Printer a b _ d e f g h i j k) := p in Build_Printer a b v d e f g h i j k.
Definition set_token (v : option string) (p : Printer) : Printer :=
  let '(Build_Printer a b c d _ f g h i j k) := p in Build_Printer a b c d v f g h i j k.
Definition set_queue (v : list Item) (p : Printer) : Printer :=
  let '(Build_Printer a b c d e f _ h i j k) := p in Build_Printer a b c d e f v h i j k.
Definition set_command (v : Cmd) (p : Printer) : Printer :=
  let '(Build_Printer a b c d e f g _ i j k) := p in Build_Printer a b c d e f g v i j k.
Definition set_clock_watcher (v : ClockWatcher) (p : Printer) : Printer :=
  let '(Build_Printer a b c d e f g h i _ k) := p in Build_Printer a b c d e f g h i v k.

(** Modelled from the spec: the assignment [errors.HTTP.ok = v] of module
    [errors], which is not among the sources; "Flags are independent"
    (4.1), "independently mutated" (3): it sets the TRANSPORT flag and no
    other. *)
Definition set_HTTP (v : bool) (e : Errors) : Errors :=
  {| HTTP := v; API := API e; TOKEN := TOKEN e; INTERNET := INTERNET e |}.

(** Modelled from the spec: the assignment [errors.API.ok = v] of module
    [errors], which is not among the sources; "Flags are independent"
    (4.1): it sets the API flag and no other. *)
Definition set_API (v : bool) (e : Errors) : Errors :=
  {| HTTP := HTTP e; API := v; TOKEN := TOKEN e; INTERNET := INTERNET e |}.

(** Modelled from the spec: the assignment [errors.TOKEN.ok = v] of module
    [errors], which is not among the sources; "Flags are independent"
    (4.1): it sets the TOKEN flag and no other. *)
Definition set_TOKEN (v : bool) (e : Errors) : Errors :=
  {| HTTP := HTTP e; API := API e; TOKEN := v; INTERNET := INTERNET e |}.

(** Modelled from the spec: the assignment [errors.INTERNET.ok = v] of
    module [errors], which is not among the sources; "Flags are
    independent" (4.1): it sets the INTERNET flag and no other. *)
Definition set_INTERNET (v : bool) (e : Errors) : Errors :=
  {| HTTP := HTTP e; API := API e; TOKEN := TOKEN e; INTERNET := v |}.

Definition with_self (f : Printer -> Printer) (w : World) : World :=
  {| self := f (self w); errors := errors w; ticks := ticks w;
     exchanges := exchanges w; calls := calls w |}.
Definition with_errors (f : Errors -> Errors) (w : World) : World :=
  {| self := self w; errors := f (errors w); ticks := ticks w;
     exchanges := exchanges w; calls := calls w |}.

(** ** The monad of methods: state and exceptions *)

Definition M (A : Type) : Type := World -> (Exn + A) * World.

#[global] Instance M_ret : MRet M := fun A a w => (inr a, w).

#[global] Instance M_bind : MBind M := fun A B f m w =>
  match m w with
  | (inr a, w') => f a w'
  | (inl e, w') => (inl e, w')
  end.

Definition raise {A} (e : Exn) : M A := fun w => (inl e, w).

(** [try: m except Exception as e: h e] *)
Definition try_except {A} (m : M A) (h : Exn -> M A) : M A := fun w =>
  match m w with
  | (inl e, w') => h e w'
  | (inr a, w') => (inr a, w')
  end.

Definition lift {A} (r : Exn + A) : M A := fun w => (r, w).

Definition get_self : M Printer := fun w => (inr (self w), w).
Definition modify_self (f : Printer -> Printer) : M unit := fun w => (inr tt, with_self f w).
Definition modify_errors (f : Errors -> Errors) : M unit := fun w => (inr tt, with_errors f w).

Definition log (c : Call) : M unit := fun w =>
  (inr tt, {| self := self w; errors := errors w; ticks := ticks w;
              exchanges := exchanges w; calls := calls w ++ [c] |}).

(** [time()]: the next reading of the wall clock. *)
Definition time : M Q := fun w =>
  (inr (wall_clock (ticks w)),
   {| self := self w; errors := errors w; ticks := S (ticks w);
      exchanges := exchanges w; calls := calls w |}).

(** [sleep(secs)] *)
Definition sleep (secs : Z) : M unit := log (CSleep secs).

(** One request on [self.conn]: the session answers or raises, and the
    exchange is recorded. *)
Definition conn_request (req : Request) : M Response := fun w =>
  let out := conn (length (exchanges w)) req in
  let w' := {| self := self w; errors := errors w; ticks := ticks w;
               exchanges := exchanges w ++ [(req, out)]; calls := calls w |} in
  match out with
  | Resp r => (inr r, w')
  | Raise e => (inl e, w')
  end.

(** [self.conn.post(url, headers=headers, json=json, timeout=timeout)] *)
Definition conn_post (url : string) (headers : Headers) (json : Item) (timeout : Q)
  : M Response :=
  conn_request {| method := POST; url := url; req_headers := headers;
                  json := Some json; req_timeout := timeout |}.

(** [self.conn.get(url, headers=headers, timeout=timeout)] *)
Definition conn_get (url : string) (headers : Headers) (timeout : Q) : M Response :=
  conn_request {| method := GET; url := url; req_headers := headers;
                  json := None; req_timeout := timeout |}.

(** [self.queue.put(item)] *)
Definition queue_put (item : Item) : M unit :=
  modify_self (fun p => set_queue (queue p ++ [item]) p).

(** [self.queue.get(timeout=...)]: the oldest item, or [Empty]. *)
Definition queue_get : M Item :=
  p ← get_self;
  match queue p with
  | [] => raise Empty
  | item :: rest => modify_self (set_queue rest);; mret item
  end.

(** ** Constructors of the queue items *)

(** Modelled from the spec: the constructor of [models.Event], a class of
    module [models]; "timestamp defaults to creation time". *)
Definition Event_init (event : const.Event.t) (source : const.Source.t)
    (timestamp : option Q) (command_id : option Z) (kwargs : Kwargs) : M Event :=
  ts ← match timestamp with Some t => mret t | None => time end;
  mret {| event := event; source := source; ev_timestamp := ts;
          command_id := command_id; ev_kwargs := kwargs |}.

(** Modelled from the spec: the constructor of [models.Telemetry], a class
    of module [models]; the timestamp defaults as for an event. *)
Definition Telemetry_init (state : const.State.t) (timestamp : option Q)
    (kwargs : Kwargs) : M Telemetry :=
  ts ← match timestamp with Some t => mret t | None => time end;
  mret {| state := state; timestamp := ts; kwargs := kwargs |}.

(** [Register.__init__] *)
Definition Register_init (code : string) : M Register :=
  t ← time;
  mret {| code := code; timeout := int_of_float t + CODE_TIMEOUT |}.

(** [default_register_handler]: [assert token]. *)
Definition default_register_handler (token : string) : option Exn :=
  if String.eqb token "" then Some (Exception "") else None.

(** ** Identity *)

Definition NOT_INITIALISED_MSG : string := "Printer has not been initialized properly".

(** [@fingerprint.setter] *)
Definition fingerprint_setter (value : option string) : M unit :=
  p ← get_self;
  match __fingerprint p with
  | Some _ => raise (Exception "Fingerprint is already set.")
  | None => modify_self (set___fingerprint value)
  end.

(** [@sn.setter] *)
Definition sn_setter (value : option string) : M unit :=
  p ← get_self;
  match __sn p with
  | Some _ => raise (Exception "Serial number is already set.")
  | None => modify_self (set___sn value)
  end.

(** [@type.setter] *)
Definition type_setter (value : option PrinterType) : M unit :=
  p ← get_self;
  match __type p with
  | Some _ => raise (Exception "Printer type is already set.")
  | None => modify_self (set___type value)
  end.

Definition is_not_None {A} (o : option A) : bool :=
  match o with Some _ => true | None => false end.

(** [Printer.is_initialised] *)
Definition is_initialised : M bool :=
  p ← get_self;
  let initialised :=
    truthy_str (__sn p) && truthy_str (__fingerprint p) && is_not_None (__type p) in
  (if negb initialised then modify_errors (set_API false) else mret tt);;
  mret initialised.

(** ** Producers *)

(** [if self.job_id: kwargs['job_id'] = self.job_id] *)
Definition with_job_id (p : Printer) (kwargs : Kwargs) : Kwargs :=
  match job_id p with
  | Some j => if negb (j =? 0) then <["job_id" := VInt j]> kwargs else kwargs
  | None => kwargs
  end.

(** [Printer.event_cb] *)
Definition event_cb (ea : EventArgs) : M unit :=
  log (CEventCb ea);;
  p ← get_self;
  if negb (truthy_str (token p)) then mret tt
  else
    let kwargs := with_job_id p (ea_kwargs ea) in
    event_ ← Event_init (ea_event ea) (ea_source ea) (ea_timestamp ea)
                        (ea_command_id ea) kwargs;
    is_initialised;;
    queue_put (IEvent event_).

(** The three entries [telemetry] adds while a download is current. *)
Definition with_download (p : Printer) (kwargs : Kwargs) : Kwargs :=
  match download_mgr_current p with
  | Some download =>
      <["download_bytes" := downloaded download]>
        (<["download_time_remaining" := time_remaining download]>
           (<["download_progress" := progress download]> kwargs))
  | None => kwargs
  end.

(** [Printer.telemetry] *)
Definition telemetry (state : const.State.t) (timestamp : option Q)
    (kwargs : Kwargs) : M unit :=
  p ← get_self;
  if negb (truthy_str (token p)) then mret tt
  else
    let kwargs := with_job_id p kwargs in
    let kwargs := with_download p kwargs in
    initialised ← is_initialised;
    telemetry ← (if initialised : bool then Telemetry_init state timestamp kwargs
                 else Telemetry_init state timestamp ∅);
    queue_put (ITelemetry telemetry).

(** [int(time() * 10) * const.TIMESTAMP_PRECISION] for the clock reading
    [now]: both products are products of floats, and [int] of a float is
    an integer that is a float too. *)
Definition default_timestamp (now : Q) : Q :=
  float_mul (inject_Z (int_of_float (float_mul now 10))) TIMESTAMP_PRECISION.

(** [Printer.make_headers] *)
Definition make_headers (timestamp : option Q) : M Headers :=
  timestamp ← match timestamp with
              | Some t =>
                  if negb (Qeq_bool t 0) then mret t
                  else now ← time;
                       mret (default_timestamp now)
              | None =>
                  now ← time;
                  mret (default_timestamp now)
              end;
  p ← get_self;
  let headers :=
    {| h_Fingerprint := __fingerprint p; h_Timestamp := timestamp;
       h_Token := if truthy_str (token p) then token p else None;
       h_Clock_Adjusted := None; h_Temporary_Code := None |} in
  if clock_adjusted (clock_watcher p) then
    modify_self (set_clock_watcher (reset (clock_watcher p)));;
    mret {| h_Fingerprint := h_Fingerprint headers; h_Timestamp := h_Timestamp headers;
            h_Token := h_Token headers; h_Clock_Adjusted := Some "1";
            h_Temporary_Code := None |}
  else mret headers.

(** ** The command object *)

(** The events a [Command] method reports, each through [event_cb]. *)
Fixpoint emit_all (evs : list EventArgs) : M unit :=
  match evs with
  | [] => mret tt
  | ea :: evs' => event_cb ea;; emit_all evs'
  end.

(** A call on [self.command]: its new state is stored, its events are
    reported, and it returns or raises. *)
Definition run_command {A} (r : CmdResult Cmd A) : M A :=
  modify_self (set_command (cr_cmd r));;
  emit_all (cr_events r);;
  lift (cr_ret r).

(** [self.command.check_state(command_id)] *)
Definition check_state (command_id : Z) : M bool :=
  log (CCheckState command_id);;
  p ← get_self;
  run_command (Command_check_state command_id (command p)).

(** [self.command.accept(...)] *)
Definition accept (a : AcceptArgs) : M unit :=
  log (CAccept a);;
  p ← get_self;
  run_command (Command_accept a (command p)).

(** ** Parsing a response *)

(** Lookup in a decoded JSON object. *)
Fixpoint dict_get (d : list (string * Value)) (key : string) (default : Value) : Value :=
  match d with
  | [] => default
  | (k, v) :: d' => if String.eqb k key then v else dict_get d' key default
  end.

(** [data.get(key, default)]: only a dict has the method. *)
Definition data_get (data : Value) (key : string) (default : Value) : M Value :=
  match data with
  | VDict d => mret (dict_get d key default)
  | _ => raise (Exception ("'" +:+ py_type_name data +:+ "' object has no attribute 'get'"))
  end.

(** [res.json()] *)
Definition json_of (res : Response) : M Value :=
  log (CResJson res);;
  lift (res_json res).

(** [int(res.headers.get("Command-Id"))]; [None] for [TypeError] (header
    absent) and [ValueError]. *)
Definition command_id_of (res : Response) : option Z :=
  match headers_get "Command-Id" res with
  | Some s => py_int s
  | None => None
  end.

(** ["Force" in res.headers and res.headers["Force"] == "1"] *)
Definition force_of (res : Response) : bool :=
  match headers_get "Force" res with
  | Some v => String.eqb v "1"
  | None => false
  end.

Definition rejected (source : const.Source.t) (command_id : option Z) (reason : string)
  : EventArgs :=
  {| ea_event := const.Event.REJECTED; ea_source := source; ea_timestamp := None;
     ea_command_id := command_id; ea_kwargs := {[ "reason" := VStr reason ]} |}.

(** The [try] block of [parse_command]. *)
Definition dispatch (res : Response) (command_id : Z) : M unit :=
  match headers_get "content-type" res with
  | None => raise (Exception "'NoneType' object has no attribute 'startswith'")
  | Some content_type =>
      if String.prefix "application/json" content_type then
        data ← json_of res;
        ok ← check_state command_id;
        if ok : bool then
          command ← data_get data "command" (VStr "");
          args ← data_get data "args" VNone;
          kwargs ← data_get data "kwargs" VNone;
          accept {| a_command_id := command_id; a_command := command; a_args := args;
                    a_kwargs := Some kwargs; a_force := None |}
        else mret tt
      else if String.eqb content_type "text/x.gcode" then
        ok ← check_state command_id;
        if ok : bool then
          let force := force_of res in
          accept {| a_command_id := command_id; a_command := VStr Command_GCODE_value;
                    a_args := VList [VStr (text res)]; a_kwargs := None;
                    a_force := Some force |}
        else mret tt
      else raise (Exception "Invalid command content type")
  end.

(** [Printer.parse_command] *)
Definition parse_command (res : Response) : M Response :=
  log (CParseCommand res);;
  if status_code res =? 200 then
    match command_id_of res with
    | None =>
        event_cb (rejected const.Source.CONNECT None "Invalid Command-Id header");;
        mret res
    | Some command_id =>
        initialised ← is_initialised;
        if negb initialised then
          event_cb (rejected const.Source.WUI (Some command_id) NOT_INITIALISED_MSG);;
          mret res
        else
          try_except (dispatch res command_id)
            (fun e => event_cb (rejected const.Source.CONNECT (Some command_id) (str_exn e)));;
          mret res
    end
  else mret res.

(** ** Registration and the loop *)

(** [Printer.get_token] *)
Definition get_token (tmp_code : string) : M Response :=
  p ← get_self;
  match server p with
  | Some srv =>
      if String.eqb srv "" then raise (Exception "Server is not set")
      else
        headers ← make_headers None;
        let headers :=
          {| h_Fingerprint := h_Fingerprint headers; h_Timestamp := h_Timestamp headers;
             h_Token := h_Token headers; h_Clock_Adjusted := h_Clock_Adjusted headers;
             h_Temporary_Code := Some tmp_code |} in
        conn_get (srv +:+ "/p/register") headers CONNECTION_TIMEOUT
  | None => raise (Exception "Server is not set")
  end.

(** [self.register_handler(self.token)] *)
Definition call_register_handler (token : string) : M unit :=
  log (CRegisterHandler token);;
  p ← get_self;
  match register_handler p token with
  | Some e => raise e
  | None => mret tt
  end.

(** What the loop does with the answer to a registration poll. *)
Definition on_register_response (item : Register) (res : Response) : M unit :=
  if status_code res =? 200 then
    match headers_get "Token" res with
    | None => raise (Exception "'token'")
    | Some tok =>
        modify_self (set_token (Some tok));;
        modify_errors (set_TOKEN true);;
        call_register_handler tok
    end
  else if status_code res =? 202 then
    now ← time;
    if int_gt_float (timeout item) now then
      queue_put (IRegister item);; sleep 1
    else mret tt
  else mret tt.

(** The branch of the loop for one item: the response of the exchange it
    made, or [None] where the loop says [continue]. *)
Definition send (srv : string) (item : Item) : M (option Response) :=
  p ← get_self;
  match item with
  | ITelemetry t =>
      if truthy_str (token p) then
        headers ← make_headers (Some (timestamp t));
        res ← conn_post (srv +:+ "/p/telemetry") headers item CONNECTION_TIMEOUT;
        parse_command res;;
        mret (Some res)
      else mret None
  | IEvent e =>
      if truthy_str (token p) then
        headers ← make_headers (Some (ev_timestamp e));
        res ← conn_post (srv +:+ "/p/events") headers item CONNECTION_TIMEOUT;
        mret (Some res)
      else mret None
  | IRegister r =>
      res ← get_token (code r);
      on_register_response r res;;
      mret (Some res)
  end.

(** The flags set after an exchange. *)
Definition after_exchange (res : Response) : M unit :=
  modify_errors (set_API true);;
  if 400 <=? status_code res then
    modify_errors (set_API false);;
    if status_code res =? 401 then modify_errors (set_TOKEN false) else mret tt
  else mret tt.

(** The [try] block of one iteration of [Printer.loop]. *)
Definition loop_body : M unit :=
  item ← queue_get;
  p ← get_self;
  match server p with
  | Some srv =>
      if String.eqb srv "" then mret tt
      else
        sent ← send srv item;
        match sent with
        | Some res => after_exchange res
        | None => mret tt
        end
  | None => mret tt
  end.

(** One iteration of [Printer.loop], with its [except] clauses. *)
Definition loop_iter (w : World) : World :=
  match loop_body w with
  | (inr _, w') => w'
  | (inl Empty, w') => w'
  | (inl (ConnectionError _), w') => with_errors (set_HTTP false) w'
  | (inl (RequestException _), w') => with_errors (set_INTERNET false) w'
  | (inl (Exception _), w') => with_errors (set_INTERNET false) w'
  end.

(** Other threads putting items on the queue. *)
Definition put_all (items : list Item) (w : World) : World :=
  with_self (fun p => set_queue (queue p ++ items) p) w.

(** [Printer.loop], run for as many iterations as [arrivals] has entries:
    each entry holds the items that producers put on the queue before
    that iteration takes its item. *)
Fixpoint loop (arrivals : list (list Item)) (w : World) : World :=
  match arrivals with
  | [] => w
  | items :: arrivals' => loop arrivals' (loop_iter (put_all items w))
  end.

End WithCollaborators.

(** ** Formatting the server URL *)

(** [str(n)] for an integer: its decimal digits, with a minus sign when
    negative. *)
Definition str_int (n : Z) : string := NilEmpty.string_of_int (Z.to_int n).

(** [Printer.connect_url] *)
Definition connect_url (host : string) (tls : bool) (port : Z) : string :=
  let protocol := if tls then "https" else "http" in
  if negb (port =? 0) then protocol +:+ "://" +:+ host +:+ ":" +:+ str_int port
  else protocol +:+ "://" +:+ host.

(** * The camera driver base class

    A shallow embedding of [camera_driver.py]. A driver class is given by
    its class attributes and by the methods a driver overrides; the
    methods of the base class are functions of them. *)

Module camera_driver.

(** The exceptions the base class raises or lets through. *)
Inductive Error :=
| ValueError
| ConfigError
| AttributeError
| UnicodeEncodeError
| NotImplementedError
| Raised (msg : string).

Abbreviation Config := (gmap string string).

Definition bytes : Type := list Byte.byte.

(** The fields of a driver object that the modelled methods use. *)
Record CameraDriver := {
  _camera_id : string;
  _config : Config;
  _connected : bool;
  _last_photo : option bytes;
  _last_photo_timestamp : option Q
}.

(** A call of one of the two callbacks of a driver object. *)
Inductive Callback :=
| PhotoCb (photo : bytes)
| DisconnectedCb (d : CameraDriver).

(** A driver class. [name] is [None] for a class that does not define it;
    [ALWAYS_REQURIED] is the constant of [const]; [_scan] is what the
    driver's own [_scan()] returns, in the order of the dict; [digest] is
    the 9-byte BLAKE2b digest of the ASCII bytes in URL-safe base 64;
    [take_a_photo] is the driver's method, which returns a photo or
    raises; the two callbacks return ([None]) or raise. *)
Class DriverClass := {
  name : option string;
  REQUIRES_SETTINGS : gmap string string;
  ALWAYS_REQURIED : gset string;
  _scan : list (string * Config);
  digest : string -> string;
  take_a_photo : CameraDriver -> Error + bytes;
  photo_cb : bytes -> option Error;
  disconnected_cb : CameraDriver -> option Error
}.

Section Methods.
Context `{DriverClass}.

(** [str.encode("ascii")] succeeds on code points below 128 only. *)
Definition is_ascii (s : string) : bool :=
  forallb (fun c => (Ascii.nat_of_ascii c <? 128)%nat) (list_ascii_of_string s).

(** [CameraDriver.hash_id] *)
Definition hash_id (plaintext_id : string) : Error + string :=
  if is_ascii plaintext_id then inr (digest plaintext_id) else inl UnicodeEncodeError.

(** [CameraDriver.get_required_settings] *)
Definition get_required_settings : gset string :=
  ALWAYS_REQURIED ∪ dom REQUIRES_SETTINGS.

(** [CameraDriver.is_config_valid]; the warning it logs reads [cls.name]. *)
Definition is_config_valid (config : Config) : Error + bool :=
  let required := get_required_settings in
  let missing_settings := required ∖ dom config in
  if decide (missing_settings = ∅) then inr true
  else match name with
       | Some _ => inr false
       | None => inl AttributeError
       end.

(** The body of the loop of [scan], for the entries left. *)
Fixpoint scan_from (available : list (string * Config)) (valid : gmap string Config)
  : Error + gmap string Config :=
  match available with
  | [] => inr valid
  | (plaintext_id, config) :: rest =>
      match hash_id plaintext_id with
      | inl e => inl e
      | inr camera_id =>
          match (if decide ("driver" ∈ dom config) then inr config
                 else match name with
                      | Some n => inr (<["driver" := n]> config)
                      | None => inl AttributeError
                      end) with
          | inl e => inl e
          | inr config =>
              match is_config_valid config with
              | inl e => inl e
              | inr false => scan_from rest valid
              | inr true => scan_from rest (<[camera_id := config]> valid)
              end
          end
      end
  end.

(** [CameraDriver.scan] *)
Definition scan : Error + gmap string Config := scan_from _scan ∅.

(** [CameraDriver.__init__] *)
Definition init (camera_id : string) (config : Config) : Error + CameraDriver :=
  match name with
  | None => inl ValueError
  | Some _ =>
      match is_config_valid config with
      | inl e => inl e
      | inr false => inl ConfigError
      | inr true =>
          inr {| _camera_id := camera_id; _config := config; _connected := false;
                 _last_photo := None; _last_photo_timestamp := None |}
      end
  end.

(** [CameraDriver._set_connected] *)
Definition _set_connected (d : CameraDriver) : CameraDriver :=
  {| _camera_id := _camera_id d; _config := _config d; _connected := true;
     _last_photo := _last_photo d; _last_photo_timestamp := _last_photo_timestamp d |}.

(** [CameraDriver.disconnect]: the outcome, the driver and the callbacks
    called. *)
Definition disconnect (d : CameraDriver)
  : (Error + unit) * CameraDriver * list Callback :=
  let d' := {| _camera_id := _camera_id d; _config := _config d; _connected := false;
               _last_photo := _last_photo d;
               _last_photo_timestamp := _last_photo_timestamp d |} in
  (match disconnected_cb d' with Some e => inl e | None => inr tt end,
   d', [DisconnectedCb d']).

(** [CameraDriver.set_name] *)
Definition set_name (new_name : string) (d : CameraDriver) : CameraDriver :=
  {| _camera_id := _camera_id d; _config := <["name" := new_name]> (_config d);
     _connected := _connected d; _last_photo := _last_photo d;
     _last_photo_timestamp := _last_photo_timestamp d |}.

(** [CameraDriver._photo_taker]; [now] is what [get_timestamp()] returns
    when it is called. *)
Definition _photo_taker (now : Q) (d : CameraDriver)
  : (Error + unit) * CameraDriver * list Callback :=
  match take_a_photo d with
  | inl _ => disconnect d
  | inr photo =>
      let d' := {| _camera_id := _camera_id d; _config := _config d;
                   _connected := _connected d; _last_photo := Some photo;
                   _last_photo_timestamp := Some now |} in
      (match photo_cb photo with Some e => inl e | None => inr tt end,
       d', [PhotoCb photo])
  end.

(** The state of the loop of [scan]: every config kept so far is valid,
    names a driver, and comes from a scanned entry whose id hashes to its
    key, with at most the driver filled in. *)
Definition scanned_from (available : list (string * Config)) (valid : gmap string Config)
  : Prop :=
  forall id c, valid !! id = Some c ->
    is_config_valid c = inr true /\
    is_Some (c !! "driver") /\
    exists plaintext_id c0,
      In (plaintext_id, c0) available /\
      hash_id plaintext_id = inr id /\
      (forall k, k <> "driver" -> c !! k = c0 !! k) /\
      (c !! "driver" = match c0 !! "driver" with Some v => Some v | None => name end).

End Methods.
End camera_driver.

(** ** Vocabulary of the statements *)

Section Vocabulary.
Context `{Collaborators}.

(** The initialisation test of [is_initialised], without its side effect. *)
Definition initialised (p : Printer) : bool :=
  truthy_str (__sn p) && truthy_str (__fingerprint p) && is_not_None (__type p).


Definition is_parse_command (c : Call) : bool :=
  match c with CParseCommand _ => true | _ => false end.

Definition is_accept (c : Call) : bool :=
  match c with CAccept _ => true | _ => false end.

(** The event [event_cb] builds from its arguments at clock reading [now]. *)
Definition event_of (p : Printer) (ea : EventArgs) (now : Q) : Event :=
  {| event := ea_event ea; source := ea_source ea;
     ev_timestamp := match ea_timestamp ea with Some t => t | None => now end;
     command_id := ea_command_id ea;
     ev_kwargs := with_job_id p (ea_kwargs ea) |}.

(** "[check_state(command_id)] is true" in the state [w]. *)
Definition check_passes (command_id : Z) (w : World) : bool :=
  match cr_ret (Command_check_state command_id (command (self w))) with
  | inr true => true
  | _ => false
  end.

(** What reporting events and running the command object leave alone:
    the identity, the connection settings, the exchanges made and every
    flag but API. *)
Definition frame (w w' : World) : Prop :=
  __type (self w') = __type (self w) /\
  __sn (self w') = __sn (self w) /\
  __fingerprint (self w') = __fingerprint (self w) /\
  server (self w') = server (self w) /\
  token (self w') = token (self w) /\
  job_id (self w') = job_id (self w) /\
  download_mgr_current (self w') = download_mgr_current (self w) /\
  clock_watcher (self w') = clock_watcher (self w) /\
  register_handler (self w') = register_handler (self w) /\
  HTTP (errors w') = HTTP (errors w) /\
  TOKEN (errors w') = TOKEN (errors w) /\
  INTERNET (errors w') = INTERNET (errors w) /\
  exchanges w' = exchanges w.

(** What building the headers leaves alone: everything but the clock
    watcher and the count of clock readings. *)
Definition same_but_clock (w w' : World) : Prop :=
  __type (self w') = __type (self w) /\
  __sn (self w') = __sn (self w) /\
  __fingerprint (self w') = __fingerprint (self w) /\
  server (self w') = server (self w) /\
  token (self w') = token (self w) /\
  job_id (self w') = job_id (self w) /\
  queue (self w') = queue (self w) /\
  command (self w') = command (self w) /\
  download_mgr_current (self w') = download_mgr_current (self w) /\
  register_handler (self w') = register_handler (self w) /\
  errors w' = errors w /\
  exchanges w' = exchanges w /\
  calls w' = calls w.

(** [w'] comes from [w] by steps that respect [frame] and record the
    calls [l], none of them a call of [parse_command]. *)
Definition inner_steps (w w' : World) (l : list Call) : Prop :=
  frame w w' /\ calls w' = (calls w ++ l)%list /\
  Forall (fun c => is_parse_command c = false) l.

(** A method all of whose runs are such steps. *)
Definition inner {A} (m : M A) : Prop :=
  forall w, exists l, inner_steps w (snd (m w)) l.

(** A method that never raises. *)
Definition returns {A} (m : M A) : Prop :=
  forall w, exists a, fst (m w) = inr a.

End Vocabulary.

(** ** A concrete printer for the worked examples *)

Module Demo.

Fixpoint digits (s : string) (acc : Z) : option Z :=
  match s with
  | EmptyString => Some acc
  | String c s' =>
      let n := Z.of_nat (Ascii.nat_of_ascii c) in
      if (48 <=? n) && (n <=? 57) then digits s' (10 * acc + (n - 48)) else None
  end.

(** [int] on the strings made of decimal digits only. *)
Definition int (s : string) : option Z :=
  match s with
  | EmptyString => None
  | _ => digits s 0
  end.

(** Modelled from the spec: the command object of module [command], with
    one slot for the command in flight. [check_state] is "true if no
    command in flight, or id equals the in-flight id"; [accept] runs a
    handler that returns only a reporting source, reports the outcome
    "carrying the same id", and "frees the slot unconditionally". *)
Definition check_state (id : Z) (c : option Z) : CmdResult (option Z) bool :=
  {| cr_events := []; cr_cmd := c;
     cr_ret := inr (match c with None => true | Some i => i =? id end) |}.

Definition accept (a : AcceptArgs) (c : option Z) : CmdResult (option Z) unit :=
  {| cr_events := [ {| ea_event := const.Event.FINISHED;
                       ea_source := const.Source.CONNECT; ea_timestamp := None;
                       ea_command_id := Some (a_command_id a); ea_kwargs := ∅ |} ];
     cr_cmd := None; cr_ret := inr tt |}.

(** A session that gives the listed answers in turn and then fails to
    connect, under a clock that shows [clock]; the readings and products
    of the examples are whole numbers, which floats hold exactly. *)
Definition collaborators (clock : nat -> Q) (answers : list HttpResult) : Collaborators :=
  {| Cmd := option Z;
     Command_check_state := check_state;
     Command_accept := accept;
     ClockWatcher := bool;
     clock_adjusted := fun b => b;
     reset := fun _ => false;
     wall_clock := clock;
     conn := fun n _ => nth n answers (Raise (ConnectionError "unreachable"));
     py_int := int;
     float_mul := Qmult;
     TIMESTAMP_PRECISION := 1 # 10;
     CONNECTION_TIMEOUT := 30 # 1;
     Command_GCODE_value := "GCODE" |}.

Definition clock (n : nat) : Q := inject_Z (1000 + Z.of_nat n).

(** The collaborators of a printer that sends nothing. *)
Definition idle : Collaborators := collaborators clock [].

Definition printer `{Collaborators} (c : Cmd) (cw : ClockWatcher)
    (sn fingerprint server token : option string) (queue : list Item) : Printer :=
  {| __type := Some (1, 3, 0); __sn := sn; __fingerprint := fingerprint;
     server := server; token := token; job_id := None; queue := queue;
     command := c; download_mgr_current := None; clock_watcher := cw;
     register_handler := default_register_handler |}.

Definition world `{Collaborators} (p : Printer) (api : bool) : World :=
  {| self := p;
     errors := {| HTTP := true; API := api; TOKEN := true; INTERNET := true |};
     ticks := 0; exchanges := []; calls := [] |}.

Definition response (status : Z) (hs : list (string * string)) (body : string)
    (js : Exn + Value) : Response :=
  {| status_code := status; headers := list_to_map hs; text := body; res_json := js |}.

(** A printer on a session that gives [answers]: serial number and
    fingerprint as given, server set, token and queue as given. *)
Definition on (answers : list HttpResult) (sn fingerprint token : option string)
    (queue : list Item) (api : bool) : @World (collaborators clock answers) :=
  @world (collaborators clock answers)
    (@printer (collaborators clock answers) None false sn fingerprint
       (Some "http://connect") token queue) api.

(** The same printer with no server configured. *)
Definition offline (queue : list Item) : @World (collaborators clock []) :=
  @world (collaborators clock [])
    (@printer (collaborators clock []) None false (Some "SN1") (Some "FP1")
       None (Some "token") queue) true.

(** Initialised, with a token; and with the fingerprint never set. *)
Definition parsing : @World (collaborators clock []) :=
  on [] (Some "SN1") (Some "FP1") (Some "token") [] true.
Definition uninitialised : @World (collaborators clock []) :=
  on [] (Some "SN1") None (Some "token") [] true.

(** Every identity field set, the serial number to the empty string. *)
Definition blank_sn : @World (collaborators clock []) :=
  on [] (Some "") (Some "FP1") None [] true.

Definition sample : Telemetry :=
  {| state := const.State.READY; timestamp := 1000 # 1; kwargs := ∅ |}.

Definition changed : Event :=
  {| event := const.Event.STATE_CHANGED; source := const.Source.GUI;
     ev_timestamp := 1000 # 1; command_id := None; ev_kwargs := ∅ |}.

(** A poll created at clock reading 1000, and one whose deadline has
    passed at every reading of [clock]. *)
Definition poll : Register := {| code := "CODE"; timeout := 1000 + CODE_TIMEOUT |}.
Definition stale_poll : Register := {| code := "CODE"; timeout := 1000 |}.

Definition no_body : Exn + Value := inl (Exception "Expecting value").

Definition no_content : Response := response 204 [] "" no_body.
Definition unauthorized : Response := response 401 [] "" no_body.
Definition pending : Response := response 202 [] "" no_body.
Definition ok_without_token : Response := response 200 [] "" no_body.

Definition no_command_id : Response :=
  response 200 [("content-type", "application/json")] "{}" (inr (VDict [])).

Definition send_info : Response :=
  response 200 [("command-id", "7"); ("content-type", "application/json")]
    "{ command: SEND_INFO }" (inr (VDict [("command", VStr "SEND_INFO")])).

Definition json_list : Response :=
  response 200 [("command-id", "7"); ("content-type", "application/json")]
    "[]" (inr (VList [])).

Definition gcode : Response :=
  response 200 [("command-id", "8"); ("content-type", "text/x.gcode"); ("force", "1")]
    "G28" no_body.

Definition html : Response :=
  response 200 [("command-id", "9"); ("content-type", "text/html")] "" no_body.

(** One item on the queue of an initialised printer with a token, and
    the answer [r] to come. *)
Definition reporting (r : Response) (item : Item)
  : @World (collaborators clock [Resp r]) :=
  on [Resp r] (Some "SN1") (Some "FP1") (Some "token") [item] true.

(** A registration poll on the queue of a printer without a token, and
    the answer [r] to come. *)
Definition polling (r : Response) (reg : Register) (api : bool)
  : @World (collaborators clock [Resp r]) :=
  on [Resp r] (Some "SN1") (Some "FP1") None [IRegister reg] api.

(** An event and a sample on the queue of a printer without a token. *)
Definition tokenless : @World (collaborators clock [Resp no_content]) :=
  on [Resp no_content] (Some "SN1") (Some "FP1") None
     [IEvent changed; ITelemetry sample] true.

(** *** Inputs of the further examples *)

(** An initialised printer with a token, job 42 and a download under way,
    whose clock watcher reports an adjustment. *)
Definition busy : @World idle :=
  @world idle
    (@Build_Printer idle (Some (1, 3, 0)) (Some "SN1") (Some "FP1")
       (Some "http://connect") (Some "token") (Some 42) [] None
       (Some {| progress := VFloat (1 # 2); time_remaining := VInt 30;
                downloaded := VInt 1024 |})
       true default_register_handler)
    true.

(** A printer fresh from the constructor without arguments. *)
Definition fresh : @World idle :=
  @world idle
    (@Build_Printer idle None None None None None None [] None None false
       default_register_handler)
    true.

Definition info_args : EventArgs :=
  {| ea_event := const.Event.INFO; ea_source := const.Source.CONNECT;
     ea_timestamp := Some (1234 # 1); ea_command_id := Some 3;
     ea_kwargs := {[ "job_id" := VInt 9 ]} |}.

Definition finished : Event :=
  {| event := const.Event.FINISHED; source := const.Source.CONNECT;
     ev_timestamp := 1001 # 1; command_id := Some 7; ev_kwargs := ∅ |}.

Definition bare : Response := response 200 [("command-id", "7")] "" no_body.

Definition bad_json : Response :=
  response 200 [("command-id", "7"); ("content-type", "application/json")]
    "{" no_body.

Definition granted : Response := response 200 [("token", "NEWTOKEN")] "" no_body.
Definition granted_empty : Response := response 200 [("token", "")] "" no_body.

(** A sample on the queue, and a session that cannot connect. *)
Definition unreachable : @World idle :=
  on [] (Some "SN1") (Some "FP1") (Some "token") [ITelemetry sample] true.

(** Two events on the queue; the first is answered, the second is not. *)
Definition two_events : @World (collaborators clock [Resp no_content]) :=
  on [Resp no_content] (Some "SN1") (Some "FP1") (Some "token")
     [IEvent changed; IEvent finished] true.

(** A poll and then a sample on the queue of a printer without a token. *)
Definition registering : @World (collaborators clock [Resp granted]) :=
  on [Resp granted] (Some "SN1") (Some "FP1") None
     [IRegister poll; ITelemetry sample] true.

(** A driver class with two scanned devices, the second without a path,
    and a camera that works while it is connected. *)
Definition v4l2 : camera_driver.DriverClass :=
  {| camera_driver.name := Some "V4L2";
     camera_driver.REQUIRES_SETTINGS := {[ "path" := "Path to the device" ]};
     camera_driver.ALWAYS_REQURIED := {[ "name"; "driver" ]};
     camera_driver._scan :=
       [("video0", {[ "path" := "/dev/video0"; "name" := "Front" ]});
        ("video1", {[ "name" := "Back" ]})];
     camera_driver.digest := fun s => "id-" +:+ s;
     camera_driver.take_a_photo := fun d =>
       if camera_driver._connected d then inr [Byte.xff; Byte.xd8]
       else inl (camera_driver.Raised "no device");
     camera_driver.photo_cb := fun _ => None;
     camera_driver.disconnected_cb := fun _ => None |}.

(** The same class with a device whose id is not ASCII. *)
Definition v4l2_latin : camera_driver.DriverClass :=
  {| camera_driver.name := Some "V4L2";
     camera_driver.REQUIRES_SETTINGS := {[ "path" := "Path to the device" ]};
     camera_driver.ALWAYS_REQURIED := {[ "name"; "driver" ]};
     camera_driver._scan :=
       [("video0", {[ "path" := "/dev/video0"; "name" := "Front" ]});
        (String (Ascii.ascii_of_nat 233) "cam", {[ "name" := "Back" ]})];
     camera_driver.digest := fun s => "id-" +:+ s;
     camera_driver.take_a_photo := fun _ => inl camera_driver.NotImplementedError;
     camera_driver.photo_cb := fun _ => None;
     camera_driver.disconnected_cb := fun _ => None |}.

Definition front_config : gmap string string :=
  {[ "path" := "/dev/video0"; "name" := "Front"; "driver" := "V4L2" ]}.

Definition front (connected : bool) : camera_driver.CameraDriver :=
  {| camera_driver._camera_id := "id-video0"; camera_driver._config := front_config;
     camera_driver._connected := connected;
     camera_driver._last_photo := Some [Byte.x00];
     camera_driver._last_photo_timestamp := Some (999 # 1) |}.

End Demo.

(** ** Vocabulary of the further statements *)

Section Exchanges.
Context `{Collaborators}.

(** The timestamp an item hands to [make_headers]. *)
Definition timestamp_of (item : Item) : option Q :=
  match item with
  | ITelemetry t => Some (timestamp t)
  | IEvent e => Some (ev_timestamp e)
  | IRegister _ => None
  end.

(** The request the loop makes for an item, from the headers built. *)
Definition request_for (srv : string) (item : Item) (h : Headers) : Request :=
  match item with
  | ITelemetry _ =>
      {| method := POST; url := srv +:+ "/p/telemetry"; req_headers := h;
         json := Some item; req_timeout := CONNECTION_TIMEOUT |}
  | IEvent _ =>
      {| method := POST; url := srv +:+ "/p/events"; req_headers := h;
         json := Some item; req_timeout := CONNECTION_TIMEOUT |}
  | IRegister r =>
      {| method := GET; url := srv +:+ "/p/register";
         req_headers :=
           {| h_Fingerprint := h_Fingerprint h; h_Timestamp := h_Timestamp h;
              h_Token := h_Token h; h_Clock_Adjusted := h_Clock_Adjusted h;
              h_Temporary_Code := Some (code r) |};
         json := None; req_timeout := CONNECTION_TIMEOUT |}
  end.

(** What the loop does with the response to an item's request, before it
    sets the flags. *)
Definition handle (item : Item) (res : Response) : M unit :=
  match item with
  | ITelemetry _ => parse_command res;; mret tt
  | IEvent _ => mret tt
  | IRegister r => on_register_response r res
  end.

(** The world with one more exchange on record. *)
Definition with_exchange (x : Request * HttpResult) (w : World) : World :=
  {| self := self w; errors := errors w; ticks := ticks w;
     exchanges := exchanges w ++ [x]; calls := calls w |}.

End Exchanges.

(** * Properties *)

Section Properties.
Context `{Collaborators}.

(** Unfolds the monad so that a method applied to a world computes. *)
Ltac run :=
  repeat (progress unfold queue_get, queue_put, sleep, log, modify_errors,
            modify_self, get_self, try_except, lift, raise, mbind, M_bind,
            mret, M_ret in * );
  simpl in *.

Ltac destruct_world w :=
  let p := fresh "p" in
  let e := fresh "e" in
  destruct w as [p e ? ? ?]; destruct p; destruct e; simpl in *.

(** ** Frame lemmas *)

Lemma frame_refl (w : World) : frame w w.
Proof. unfold frame. repeat split. Qed.

Lemma frame_trans (w1 w2 w3 : World) : frame w1 w2 -> frame w2 w3 -> frame w1 w3.
Proof. unfold frame. intros H12 H23. intuition congruence. Qed.

Lemma inner_steps_nil (w : World) : inner_steps w w [].
Proof.
  split; [apply frame_refl|]. split; [symmetry; apply app_nil_r | constructor].
Qed.

Lemma inner_steps_trans (w1 w2 w3 : World) (l1 l2 : list Call) :
  inner_steps w1 w2 l1 -> inner_steps w2 w3 l2 -> inner_steps w1 w3 (l1 ++ l2).
Proof.
  intros (F1 & C1 & P1) (F2 & C2 & P2). split; [eapply frame_trans; eauto|].
  split; [rewrite C2, C1, app_assoc; reflexivity | apply Forall_app; auto].
Qed.

Lemma inner_ret {A} (a : A) : inner (mret a : M A).
Proof. intros w. exists []. apply inner_steps_nil. Qed.

Lemma inner_raise {A} (e : Exn) : inner (raise e : M A).
Proof. intros w. exists []. apply inner_steps_nil. Qed.

Lemma inner_lift {A} (r : Exn + A) : inner (lift r).
Proof. intros w. exists []. apply inner_steps_nil. Qed.

Lemma inner_bind {A B} (m : M A) (f : A -> M B) :
  inner m -> (forall a, inner (f a)) -> inner (m ≫= f).
Proof.
  intros Hm Hf w. destruct (Hm w) as [l1 H1].
  unfold mbind, M_bind. destruct (m w) as [[e|a] w1]; simpl in *.
  - exists l1. exact H1.
  - destruct (Hf a w1) as [l2 H2]. exists (l1 ++ l2)%list.
    eapply inner_steps_trans; eauto.
Qed.

Lemma inner_try_except {A} (m : M A) (h : Exn -> M A) :
  inner m -> (forall e, inner (h e)) -> inner (try_except m h).
Proof.
  intros Hm Hh w. destruct (Hm w) as [l1 H1].
  unfold try_except. destruct (m w) as [[e|a] w1]; simpl in *.
  - destruct (Hh e w1) as [l2 H2]. exists (l1 ++ l2)%list.
    eapply inner_steps_trans; eauto.
  - exists l1. exact H1.
Qed.

Lemma inner_log (c : Call) : is_parse_command c = false -> inner (log c).
Proof.
  intros Hc w. exists [c]. split; [unfold frame; repeat split|].
  split; [reflexivity|]. constructor; [exact Hc | constructor].
Qed.

Lemma inner_get_self : inner get_self.
Proof. intros w. exists []. apply inner_steps_nil. Qed.

Lemma inner_time : inner time.
Proof.
  intros w. exists []. split; [unfold frame; repeat split|].
  split; [symmetry; apply app_nil_r | constructor].
Qed.

Lemma inner_set_API (b : bool) : inner (modify_errors (set_API b)).
Proof.
  intros w. exists []. split; [unfold frame; repeat split|].
  split; [symmetry; apply app_nil_r | constructor].
Qed.

Lemma inner_queue_put (item : Item) : inner (queue_put item).
Proof.
  intros w. exists []. split.
  - destruct_world w. unfold frame. repeat split.
  - split; [symmetry; apply app_nil_r | constructor].
Qed.

Lemma inner_set_command (c : Cmd) : inner (modify_self (set_command c)).
Proof.
  intros w. exists []. split.
  - destruct_world w. unfold frame. repeat split.
  - split; [symmetry; apply app_nil_r | constructor].
Qed.

Create HintDb inner.

#[local] Hint Resolve inner_ret inner_raise inner_lift inner_log inner_get_self
  inner_time inner_set_API inner_queue_put inner_set_command : inner.

Ltac inner_auto :=
  repeat first
    [ solve [auto with inner]
    | match goal with |- inner (if ?b then _ else _) => destruct b end
    | match goal with |- inner (match ?o with Some _ => _ | None => _ end) =>
        destruct o end
    | apply inner_bind; [|intros ?]
    | apply inner_try_except; [|intros ?] ].

Lemma inner_is_initialised : inner is_initialised.
Proof. unfold is_initialised. inner_auto. Qed.
#[local] Hint Resolve inner_is_initialised : inner.

Lemma inner_event_cb (ea : EventArgs) : inner (event_cb ea).
Proof. unfold event_cb, Event_init. inner_auto. Qed.
#[local] Hint Resolve inner_event_cb : inner.

Lemma inner_emit_all (evs : list EventArgs) : inner (emit_all evs).
Proof.
  induction evs as [|ea evs IH]; simpl; [apply inner_ret|].
  apply inner_bind; [apply inner_event_cb | intros _; exact IH].
Qed.
#[local] Hint Resolve inner_emit_all : inner.

Lemma inner_run_command {A} (r : CmdResult Cmd A) : inner (run_command r).
Proof. unfold run_command. inner_auto. Qed.
#[local] Hint Resolve inner_run_command : inner.

Lemma inner_check_state (id : Z) : inner (check_state id).
Proof. unfold check_state. inner_auto. Qed.

Lemma inner_accept (a : AcceptArgs) : inner (accept a).
Proof. unfold accept. inner_auto. Qed.

Lemma inner_data_get (data : Value) (key : string) (default : Value) :
  inner (data_get data key default).
Proof. destruct data; simpl; auto with inner. Qed.
#[local] Hint Resolve inner_check_state inner_accept inner_data_get : inner.

Lemma inner_dispatch (res : Response) (id : Z) : inner (dispatch res id).
Proof. unfold dispatch, json_of. inner_auto. Qed.
#[local] Hint Resolve inner_dispatch : inner.

(** ** What the calls record *)

Lemma event_cb_run (ea : EventArgs) (w : World) :
  exists w',
    event_cb ea w = (inr tt, w') /\
    calls w' = (calls w ++ [CEventCb ea])%list /\
    command (self w') = command (self w) /\
    queue (self w') =
      (queue (self w) ++
       if truthy_str (token (self w))
       then [IEvent (event_of (self w) ea (wall_clock (ticks w)))] else [])%list.
Proof.
  unfold event_cb, Event_init, is_initialised, time, event_of. run.
  destruct_world w. destruct (truthy_str token0); simpl.
  - destruct (ea_timestamp ea); simpl;
      match goal with |- context [negb ?b] => destruct b end; simpl;
      eexists; repeat split.
  - eexists; repeat split. simpl. rewrite app_nil_r. reflexivity.
Qed.

Lemma emit_all_run (evs : list EventArgs) (w : World) :
  exists w',
    emit_all evs w = (inr tt, w') /\
    calls w' = (calls w ++ map CEventCb evs)%list /\
    command (self w') = command (self w).
Proof.
  revert w. induction evs as [|ea evs IH]; intros w; simpl.
  - exists w. rewrite app_nil_r. repeat split.
  - destruct (event_cb_run ea w) as (w1 & E1 & C1 & K1 & _).
    destruct (IH w1) as (w2 & E2 & C2 & K2).
    exists w2. unfold mbind, M_bind. rewrite E1, E2. repeat split.
    + rewrite C2, C1, <- app_assoc. reflexivity.
    + congruence.
Qed.

Lemma run_command_run {A} (r : CmdResult Cmd A) (w : World) :
  exists w',
    run_command r w = (cr_ret r, w') /\
    calls w' = (calls w ++ map CEventCb (cr_events r))%list /\
    command (self w') = cr_cmd r.
Proof.
  unfold run_command.
  destruct (emit_all_run (cr_events r) (with_self (set_command (cr_cmd r)) w))
    as (w1 & E1 & C1 & K1).
  exists w1. run. rewrite E1. repeat split.
  - rewrite C1. reflexivity.
  - rewrite K1. destruct_world w. reflexivity.
Qed.

Lemma check_state_run (id : Z) (w : World) :
  exists w',
    check_state id w = (cr_ret (Command_check_state id (command (self w))), w') /\
    calls w' =
      (calls w ++ CCheckState id ::
         map CEventCb (cr_events (Command_check_state id (command (self w)))))%list /\
    command (self w') = cr_cmd (Command_check_state id (command (self w))).
Proof.
  unfold check_state. run.
  match goal with |- context [run_command ?r ?w0] =>
    destruct (run_command_run r w0) as (w1 & E1 & C1 & K1) end.
  exists w1. rewrite E1. repeat split; [|exact K1].
  rewrite C1. simpl. rewrite <- app_assoc. reflexivity.
Qed.

Lemma accept_run (a : AcceptArgs) (w : World) :
  exists w',
    accept a w = (cr_ret (Command_accept a (command (self w))), w') /\
    calls w' =
      (calls w ++ CAccept a ::
         map CEventCb (cr_events (Command_accept a (command (self w)))))%list /\
    command (self w') = cr_cmd (Command_accept a (command (self w))).
Proof.
  unfold accept. run.
  match goal with |- context [run_command ?r ?w0] =>
    destruct (run_command_run r w0) as (w1 & E1 & C1 & K1) end.
  exists w1. rewrite E1. repeat split; [|exact K1].
  rewrite C1. simpl. rewrite <- app_assoc. reflexivity.
Qed.

Lemma filter_accept_events (evs : list EventArgs) :
  List.filter is_accept (map CEventCb evs) = [].
Proof. induction evs; simpl; auto. Qed.

(** ** Identity *)

(** C6: each identity field (serial number, fingerprint, printer type) is
    write-once. Setting a field that is not [None] raises and leaves the
    whole state, the stored value included, as it was; setting a field
    that is [None] returns normally and stores the new value. *)
Theorem identity_fields_write_once (w : World) :
  (forall value old, __fingerprint (self w) = Some old ->
     fingerprint_setter value w = (inl (Exception "Fingerprint is already set."), w)) /\
  (forall value, __fingerprint (self w) = None ->
     exists w', fingerprint_setter value w = (inr tt, w') /\
                __fingerprint (self w') = value) /\
  (forall value old, __sn (self w) = Some old ->
     sn_setter value w = (inl (Exception "Serial number is already set."), w)) /\
  (forall value, __sn (self w) = None ->
     exists w', sn_setter value w = (inr tt, w') /\ __sn (self w') = value) /\
  (forall value old, __type (self w) = Some old ->
     type_setter value w = (inl (Exception "Printer type is already set."), w)) /\
  (forall value, __type (self w) = None ->
     exists w', type_setter value w = (inr tt, w') /\ __type (self w') = value).
Proof.
  unfold fingerprint_setter, sn_setter, type_setter.
  repeat split; intros; run; destruct_world w; subst; eauto.
Qed.

(** [initialised] holds exactly when the serial number and the fingerprint
    are non-empty strings and the printer type is not [None]. *)
Lemma initialised_true (p : Printer) :
  initialised p = true <->
  (exists s, __sn p = Some s /\ s <> "") /\
  (exists f, __fingerprint p = Some f /\ f <> "") /\
  (exists t, __type p = Some t).
Proof.
  unfold initialised, truthy_str, is_not_None. split.
  - intros Hi. apply andb_prop in Hi as [Hi Ht]. apply andb_prop in Hi as [Hs Hf].
    destruct (__sn p) as [s|]; [|discriminate].
    destruct (__fingerprint p) as [f|]; [|discriminate].
    destruct (__type p) as [t|]; [|discriminate].
    destruct (String.eqb_spec s ""); [discriminate|].
    destruct (String.eqb_spec f ""); [discriminate|].
    eauto 10.
  - intros ([s [-> Hs]] & [f [-> Hf]] & [t ->]).
    destruct (String.eqb_spec s ""); [contradiction|].
    destruct (String.eqb_spec f ""); [contradiction|].
    reflexivity.
Qed.

(** C9, as the code has it: [is_initialised] returns [True] and changes
    nothing when the serial number and the fingerprint are non-empty
    strings and the printer type is not [None]; otherwise (a field is
    [None], or the serial number or fingerprint is the empty string) it
    returns [False] and, as a side effect, sets the API flag to false,
    leaving [self] and the other flags alone. *)
Theorem is_initialised_effect (w : World) :
  ((exists s, __sn (self w) = Some s /\ s <> "") /\
   (exists f, __fingerprint (self w) = Some f /\ f <> "") /\
   (exists t, __type (self w) = Some t) ->
   is_initialised w = (inr true, w)) /\
  (__sn (self w) = None \/ __sn (self w) = Some "" \/
   __fingerprint (self w) = None \/ __fingerprint (self w) = Some "" \/
   __type (self w) = None ->
   exists w', is_initialised w = (inr false, w') /\
              API (errors w') = false /\
              w' = with_errors (set_API false) w).
Proof.
  split.
  - intros Hi. apply initialised_true in Hi. unfold initialised in Hi.
    unfold is_initialised. run. rewrite Hi. simpl. reflexivity.
  - intros Hm.
    assert (Hi : initialised (self w) = false).
    { unfold initialised, truthy_str, is_not_None.
      destruct Hm as [-> | [-> | [-> | [-> | ->]]]]; simpl;
        rewrite ?andb_false_r; reflexivity. }
    unfold initialised in Hi. unfold is_initialised. run. rewrite Hi. simpl.
    eexists; repeat split.
Qed.

(** ** Producers *)

(** C10: with a token set and the printer not initialised, [telemetry]
    still puts a sample on the queue, built from the state and the
    timestamp alone: its extra fields are empty, whatever the caller's
    keyword arguments, the job id and the current download. *)
Theorem telemetry_not_initialised_drops_fields
    (w : World) (st : const.State.t) (ts : option Q) (kw : Kwargs) :
  truthy_str (token (self w)) = true ->
  initialised (self w) = false ->
  exists w',
    telemetry st ts kw w = (inr tt, w') /\
    queue (self w') =
      (queue (self w) ++
       [ITelemetry {| state := st;
                      timestamp := match ts with
                                   | Some t => t
                                   | None => wall_clock (ticks w)
                                   end;
                      kwargs := ∅ |}])%list.
Proof.
  intros Htok Hi. unfold initialised in Hi.
  unfold telemetry, is_initialised, Telemetry_init, time. run.
  rewrite Htok. simpl. rewrite Hi. simpl.
  destruct ts; simpl; eexists; split; try reflexivity;
    destruct_world w; reflexivity.
Qed.

(** ** The loop without a server *)

Lemma loop_body_no_server (w : World) (item : Item) (rest : list Item) :
  queue (self w) = item :: rest ->
  truthy_str (server (self w)) = false ->
  loop_body w = (inr tt, with_self (set_queue rest) w).
Proof.
  intros Hq Hs. unfold loop_body. run. rewrite Hq. simpl.
  destruct_world w. unfold truthy_str in Hs.
  destruct server0 as [srv|]; [|reflexivity].
  destruct (srv =? "")%string; [reflexivity | discriminate].
Qed.

(** C8: when no server is configured, one iteration of the loop takes the
    item at the head of the queue, whatever its kind, and does nothing
    else: no HTTP call, no call to [event_cb] or to any collaborator, no
    change of a flag, and the item is not put back. The iteration ends
    normally, so the loop goes on with the next one. *)
Theorem loop_without_server_drops_item (w : World) (item : Item) (rest : list Item) :
  queue (self w) = item :: rest ->
  truthy_str (server (self w)) = false ->
  loop_body w = (inr tt, with_self (set_queue rest) w) /\
  loop_iter w = with_self (set_queue rest) w /\
  queue (self (loop_iter w)) = rest /\
  exchanges (loop_iter w) = exchanges w /\
  calls (loop_iter w) = calls w /\
  errors (loop_iter w) = errors w /\
  (forall arrivals, loop ([] :: arrivals) w = loop arrivals (with_self (set_queue rest) w)).
Proof.
  intros Hq Hs.
  pose proof (loop_body_no_server w item rest Hq Hs) as Hb.
  assert (Hi : loop_iter w = with_self (set_queue rest) w).
  { unfold loop_iter. rewrite Hb. reflexivity. }
  split; [exact Hb|]. rewrite Hi. repeat split; try reflexivity.
  - destruct_world w. reflexivity.
  - intros arrivals. simpl.
    assert (Hp : put_all [] w = w).
    { destruct_world w. unfold put_all, with_self. simpl.
      rewrite app_nil_r. reflexivity. }
    rewrite Hp, Hi. reflexivity.
Qed.

(** ** Parsing a response *)

Lemma command_id_of_invalid (res : Response) :
  headers_get "Command-Id" res = None \/
  (exists s, headers_get "Command-Id" res = Some s /\ py_int s = None) ->
  command_id_of res = None.
Proof.
  unfold command_id_of. intros [-> | (s & -> & Hs)]; [reflexivity | exact Hs].
Qed.

(** C2: for a response with status 200, [parse_command] stops at the first
    failed check. If the [Command-Id] header is absent or [int] cannot
    read it, the only call made is [event_cb] with a REJECTED event from
    CONNECT, no command id and the reason "Invalid Command-Id header".
    Otherwise, if the printer is not initialised, the only call made is
    [event_cb] with a REJECTED event from WUI that carries the command id
    and the reason [NOT_INITIALISED_MSG]. In both cases the body is not
    decoded, the command object is neither asked nor changed, the
    response is returned, and with a token set the event is the one item
    added to the queue. *)
Theorem parse_command_rejects_before_parsing (w : World) (res : Response) :
  status_code res = 200 ->
  (headers_get "Command-Id" res = None \/
   (exists s, headers_get "Command-Id" res = Some s /\ py_int s = None) ->
   exists w',
     parse_command res w = (inr res, w') /\
     calls w' =
       (calls w ++
        [CParseCommand res;
         CEventCb (rejected const.Source.CONNECT None "Invalid Command-Id header")])%list /\
     command (self w') = command (self w) /\
     (truthy_str (token (self w)) = true ->
      queue (self w') =
        (queue (self w) ++
         [IEvent {| event := const.Event.REJECTED; source := const.Source.CONNECT;
                    ev_timestamp := wall_clock (ticks w); command_id := None;
                    ev_kwargs :=
                      with_job_id (self w)
                        {[ "reason" := VStr "Invalid Command-Id header" ]} |}])%list)) /\
  (forall s id,
     headers_get "Command-Id" res = Some s -> py_int s = Some id ->
     initialised (self w) = false ->
     exists w',
       parse_command res w = (inr res, w') /\
       calls w' =
         (calls w ++
          [CParseCommand res;
           CEventCb (rejected const.Source.WUI (Some id) NOT_INITIALISED_MSG)])%list /\
       command (self w') = command (self w) /\
       (truthy_str (token (self w)) = true ->
        queue (self w') =
          (queue (self w) ++
           [IEvent {| event := const.Event.REJECTED; source := const.Source.WUI;
                      ev_timestamp := wall_clock (ticks w); command_id := Some id;
                      ev_kwargs :=
                        with_job_id (self w)
                          {[ "reason" := VStr NOT_INITIALISED_MSG ]} |}])%list)).
Proof.
  intros H200. split.
  - intros Hbad. apply command_id_of_invalid in Hbad.
    unfold parse_command. run. rewrite H200, Hbad. simpl.
    match goal with |- context [event_cb ?ea ?w0] =>
      destruct (event_cb_run ea w0) as (w1 & E1 & C1 & K1 & Q1) end.
    exists w1. rewrite E1. simpl in *. repeat split.
    + rewrite C1, <- app_assoc. reflexivity.
    + exact K1.
    + intros Htok. rewrite Q1, Htok. reflexivity.
  - intros s id Hs Hid Hinit.
    assert (Hc : command_id_of res = Some id).
    { unfold command_id_of. rewrite Hs. exact Hid. }
    unfold initialised in Hinit.
    unfold parse_command, is_initialised. run. rewrite H200, Hc. simpl.
    rewrite Hinit. simpl.
    match goal with |- context [event_cb ?ea ?w0] =>
      destruct (event_cb_run ea w0) as (w1 & E1 & C1 & K1 & Q1) end.
    exists w1. rewrite E1. simpl in *. repeat split.
    + rewrite C1, <- app_assoc. reflexivity.
    + exact K1.
    + intros Htok. rewrite Q1, Htok. reflexivity.
Qed.

Lemma force_of_spec (res : Response) :
  force_of res = bool_decide (headers_get "Force" res = Some "1").
Proof.
  unfold force_of. destruct (headers_get "Force" res) as [v|].
  - destruct (String.eqb_spec v "1") as [->|Hne].
    + rewrite bool_decide_eq_true_2; reflexivity.
    + rewrite bool_decide_eq_false_2; [reflexivity | congruence].
  - rewrite bool_decide_eq_false_2; [reflexivity | discriminate].
Qed.

(** The [try] block of [parse_command], branch by branch: its outcome,
    the calls it records and, among them, the calls of [accept]. *)
Lemma dispatch_run (w : World) (res : Response) (id : Z) (ct : string) :
  headers_get "content-type" res = Some ct ->
  exists r w' l,
    dispatch res id w = (r, w') /\
    calls w' = (calls w ++ l)%list /\
    (String.prefix "application/json" ct = true ->
     (forall d, res_json res = inr (VDict d) ->
        List.filter is_accept l =
          if check_passes id w
          then [CAccept {| a_command_id := id;
                           a_command := dict_get d "command" (VStr "");
                           a_args := dict_get d "args" VNone;
                           a_kwargs := Some (dict_get d "kwargs" VNone);
                           a_force := None |}]
          else []) /\
     ((forall d, res_json res <> inr (VDict d)) -> List.filter is_accept l = [])) /\
    (ct = "text/x.gcode" ->
     List.filter is_accept l =
       if check_passes id w
       then [CAccept {| a_command_id := id;
                        a_command := VStr Command_GCODE_value;
                        a_args := VList [VStr (text res)];
                        a_kwargs := None;
                        a_force := Some (force_of res) |}]
       else []) /\
    (String.prefix "application/json" ct = false -> ct <> "text/x.gcode" ->
     r = inl (Exception "Invalid command content type") /\ w' = w /\ l = []).
Proof.
  intros Hct. unfold dispatch. rewrite Hct.
  destruct (String.prefix "application/json" ct) eqn:Hjson.
  - (* application/json *)
    assert (Hg : ct <> "text/x.gcode") by (intros ->; discriminate).
    unfold json_of. run. destruct (res_json res) as [e|data] eqn:Hdata.
    + do 2 eexists. exists [CResJson res]. simpl.
      repeat split; try reflexivity; try discriminate; try contradiction.
    + match goal with |- context [check_state id ?w0] =>
        destruct (check_state_run id w0) as (w1 & E1 & C1 & K1) end.
      simpl in *. rewrite E1. unfold check_passes.
      destruct (cr_ret (Command_check_state id (command (self w)))) as [e|[|]].
      * do 2 eexists.
        exists ([CResJson res] ++ CCheckState id ::
                  map CEventCb (cr_events (Command_check_state id (command (self w)))))%list.
        split; [reflexivity|]. split; [rewrite C1, <- app_assoc; reflexivity|].
        simpl. rewrite filter_accept_events.
        repeat split; try reflexivity; try discriminate; try contradiction.
      * destruct data as [| | | | | |d]; simpl;
          try (do 2 eexists;
               exists ([CResJson res] ++ CCheckState id ::
                  map CEventCb (cr_events (Command_check_state id (command (self w)))))%list;
               split; [reflexivity|]; split; [rewrite C1, <- app_assoc; reflexivity|];
               simpl; rewrite filter_accept_events;
               repeat split; try reflexivity; try discriminate; try contradiction).
        match goal with |- context [accept ?a ?w0] =>
          destruct (accept_run a w0) as (w2 & E2 & C2 & K2) end.
        rewrite E2. do 2 eexists.
        match type of C2 with _ = (_ ++ ?l2)%list =>
          exists (([CResJson res] ++ CCheckState id ::
                  map CEventCb (cr_events (Command_check_state id (command (self w)))))
                  ++ l2)%list end.
        split; [reflexivity|].
        split; [rewrite C2, C1, <- !app_assoc; reflexivity|].
        rewrite !List.filter_app. simpl. rewrite !filter_accept_events. simpl.
        repeat split; try reflexivity; try discriminate; try contradiction.
        -- intros d' [= <-]. reflexivity.
        -- intros Hno. exfalso. eapply Hno. reflexivity.
      * do 2 eexists.
        exists ([CResJson res] ++ CCheckState id ::
                  map CEventCb (cr_events (Command_check_state id (command (self w)))))%list.
        split; [reflexivity|]. split; [rewrite C1, <- app_assoc; reflexivity|].
        simpl. rewrite filter_accept_events.
        repeat split; try reflexivity; try discriminate; try contradiction.
  - destruct (String.eqb_spec ct "text/x.gcode") as [->|Hne].
    + (* text/x.gcode *)
      run.
      destruct (check_state_run id w) as (w1 & E1 & C1 & K1).
      rewrite E1. unfold check_passes.
      destruct (cr_ret (Command_check_state id (command (self w)))) as [e|[|]].
      * do 3 eexists. split; [reflexivity|]. split; [exact C1|].
        simpl. rewrite filter_accept_events.
        repeat split; try reflexivity; try discriminate; try contradiction.
      * match goal with |- context [accept ?a ?w0] =>
          destruct (accept_run a w0) as (w2 & E2 & C2 & K2) end.
        rewrite E2. do 2 eexists.
        match type of C2 with _ = (_ ++ ?l2)%list =>
          exists ((CCheckState id ::
                  map CEventCb (cr_events (Command_check_state id (command (self w)))))
                  ++ l2)%list end.
        split; [reflexivity|].
        split; [rewrite C2, C1, <- !app_assoc; reflexivity|].
        rewrite !List.filter_app. simpl. rewrite !filter_accept_events. simpl.
        repeat split; try reflexivity; try discriminate; try contradiction.
      * do 3 eexists. split; [reflexivity|]. split; [exact C1|].
        simpl. rewrite filter_accept_events.
        repeat split; try reflexivity; try discriminate; try contradiction.
    + (* any other content type *)
      run. exists (inl (Exception "Invalid command content type")), w, [].
      rewrite app_nil_r.
      repeat split; try reflexivity; try discriminate; try contradiction.
Qed.

(** The dispatch of a response that has a [content-type] header. *)
Lemma parse_command_dispatch_typed (w : World) (res : Response) (id : Z) (ct : string) :
  status_code res = 200 ->
  command_id_of res = Some id ->
  initialised (self w) = true ->
  headers_get "content-type" res = Some ct ->
  exists w' l,
    parse_command res w = (inr res, w') /\
    calls w' = (calls w ++ CParseCommand res :: l)%list /\
    (String.prefix "application/json" ct = true ->
     (forall d, res_json res = inr (VDict d) ->
        List.filter is_accept l =
          if check_passes id w
          then [CAccept {| a_command_id := id;
                           a_command := dict_get d "command" (VStr "");
                           a_args := dict_get d "args" VNone;
                           a_kwargs := Some (dict_get d "kwargs" VNone);
                           a_force := None |}]
          else []) /\
     ((forall d, res_json res <> inr (VDict d)) -> List.filter is_accept l = [])) /\
    (ct = "text/x.gcode" ->
     List.filter is_accept l =
       if check_passes id w
       then [CAccept {| a_command_id := id;
                        a_command := VStr Command_GCODE_value;
                        a_args := VList [VStr (text res)];
                        a_kwargs := None;
                        a_force :=
                          Some (bool_decide (headers_get "Force" res = Some "1")) |}]
       else []) /\
    (String.prefix "application/json" ct = false -> ct <> "text/x.gcode" ->
     l = [CEventCb (rejected const.Source.CONNECT (Some id)
                      "Invalid command content type")] /\
     command (self w') = command (self w) /\
     (truthy_str (token (self w)) = true ->
      queue (self w') =
        (queue (self w) ++
         [IEvent {| event := const.Event.REJECTED; source := const.Source.CONNECT;
                    ev_timestamp := wall_clock (ticks w); command_id := Some id;
                    ev_kwargs :=
                      with_job_id (self w)
                        {[ "reason" := VStr "Invalid command content type" ]} |}])%list)).
Proof.
  intros H200 Hc Hinit Hct. unfold initialised in Hinit.
  unfold parse_command, is_initialised. run. rewrite H200, Hc. simpl.
  rewrite Hinit. simpl.
  match goal with |- context [dispatch res id ?w0] =>
    destruct (dispatch_run w0 res id ct Hct) as (r & w1 & l1 & E1 & C1 & Hj & Hg & Ho) end.
  rewrite E1. simpl in *. rewrite <- force_of_spec. destruct r as [e|[]].
  - match goal with |- context [event_cb ?ea ?w0] =>
      destruct (event_cb_run ea w0) as (w2 & E2 & C2 & K2 & Q2) end.
    rewrite E2. exists w2. eexists (l1 ++ [_])%list.
    split; [reflexivity|].
    split; [rewrite C2, C1, <- !app_assoc; reflexivity|].
    rewrite !List.filter_app. simpl. rewrite app_nil_r.
    split; [exact Hj|]. split; [exact Hg|].
    intros Hnj Hng. destruct (Ho Hnj Hng) as ([= ->] & -> & ->).
    simpl in *. repeat split; [exact K2|].
    intros Htok. rewrite Q2, Htok. reflexivity.
  - exists w1, l1. split; [reflexivity|].
    split; [rewrite C1, <- app_assoc; reflexivity|].
    split; [exact Hj|]. split; [exact Hg|].
    intros Hnj Hng. destruct (Ho Hnj Hng) as (Hr & _). discriminate.
Qed.

(** C3, as the code has it: for every response with status 200 and a valid
    [Command-Id], reaching an initialised printer, [parse_command]
    dispatches on the content type. If it starts with [application/json]
    and the body decodes to a JSON object, [accept] is called exactly when
    [check_state(command_id)] returns true, once, with the object's
    [command] (default [""]), [args] and [kwargs]; if the body does not
    decode to an object, [accept] is not called. If it is [text/x.gcode],
    [accept] is called exactly when [check_state] returns true, once, with
    the GCODE command name, the body text as the single argument and
    [force] telling whether the [Force] header equals ["1"]. For any other
    content type the one call made is [event_cb] with a REJECTED event
    carrying the command id and the reason "Invalid command content type",
    and the command object is not touched. When the response has no
    [content-type] header at all, the one call made is [event_cb] with a
    REJECTED event carrying the command id and the text of the error
    raised on the missing header; [accept] is not called and the command
    object is not touched. *)
Theorem parse_command_dispatch (w : World) (res : Response) (id : Z) :
  status_code res = 200 ->
  command_id_of res = Some id ->
  initialised (self w) = true ->
  exists w' l,
    parse_command res w = (inr res, w') /\
    calls w' = (calls w ++ CParseCommand res :: l)%list /\
    (forall ct, headers_get "content-type" res = Some ct ->
       (String.prefix "application/json" ct = true ->
        (forall d, res_json res = inr (VDict d) ->
           List.filter is_accept l =
             if check_passes id w
             then [CAccept {| a_command_id := id;
                              a_command := dict_get d "command" (VStr "");
                              a_args := dict_get d "args" VNone;
                              a_kwargs := Some (dict_get d "kwargs" VNone);
                              a_force := None |}]
             else []) /\
        ((forall d, res_json res <> inr (VDict d)) -> List.filter is_accept l = [])) /\
       (ct = "text/x.gcode" ->
        List.filter is_accept l =
          if check_passes id w
          then [CAccept {| a_command_id := id;
                           a_command := VStr Command_GCODE_value;
                           a_args := VList [VStr (text res)];
                           a_kwargs := None;
                           a_force :=
                             Some (bool_decide (headers_get "Force" res = Some "1")) |}]
          else []) /\
       (String.prefix "application/json" ct = false -> ct <> "text/x.gcode" ->
        l = [CEventCb (rejected const.Source.CONNECT (Some id)
                         "Invalid command content type")] /\
        command (self w') = command (self w) /\
        (truthy_str (token (self w)) = true ->
         queue (self w') =
           (queue (self w) ++
            [IEvent {| event := const.Event.REJECTED; source := const.Source.CONNECT;
                       ev_timestamp := wall_clock (ticks w); command_id := Some id;
                       ev_kwargs :=
                         with_job_id (self w)
                           {[ "reason" := VStr "Invalid command content type" ]} |}])%list))) /\
    (headers_get "content-type" res = None ->
     l = [CEventCb (rejected const.Source.CONNECT (Some id)
                      "'NoneType' object has no attribute 'startswith'")] /\
     List.filter is_accept l = [] /\
     command (self w') = command (self w)).
Proof.
  intros H200 Hc Hinit.
  destruct (headers_get "content-type" res) as [ct|] eqn:Hct.
  - destruct (parse_command_dispatch_typed w res id ct H200 Hc Hinit Hct)
      as (w' & l & E & C & Hj & Hg & Ho).
    exists w', l. split; [exact E|]. split; [exact C|].
    split; [|intros Hnone; discriminate Hnone].
    intros ct' Hct'. injection Hct' as <-.
    split; [exact Hj|]. split; [exact Hg | exact Ho].
  - unfold initialised in Hinit.
    unfold parse_command, is_initialised, dispatch. run. rewrite H200, Hc. simpl.
    rewrite Hinit. simpl. rewrite Hct. simpl.
    match goal with |- context [event_cb ?ea ?w0] =>
      destruct (event_cb_run ea w0) as (w1 & E1 & C1 & K1 & _) end.
    exists w1. eexists. rewrite E1. simpl in *.
    split; [reflexivity|].
    split; [rewrite C1, <- app_assoc; reflexivity|].
    split; [intros ct Hsome; discriminate Hsome|].
    intros _. repeat split. exact K1.
Qed.

(** ** Steps of the loop *)

Lemma make_headers_run (ts : option Q) (w : World) :
  exists h w',
    make_headers ts w = (inr h, w') /\
    same_but_clock w w' /\
    ticks w' = (if truthy_float ts then ticks w else S (ticks w)).
Proof.
  unfold make_headers, time, truthy_float. run. destruct_world w.
  destruct ts as [t|]; simpl; [destruct (Qeq_bool t 0); simpl|];
    destruct (clock_adjusted clock_watcher0); simpl;
    do 2 eexists; (split; [reflexivity|]); split; try reflexivity;
    unfold same_but_clock; simpl; repeat split.
Qed.

Lemma parse_command_run (res : Response) (w : World) :
  exists w' l,
    parse_command res w = (inr res, w') /\
    frame w w' /\
    calls w' = (calls w ++ CParseCommand res :: l)%list /\
    Forall (fun c => is_parse_command c = false) l.
Proof.
  unfold parse_command.
  match goal with |- context [mbind ?f (log ?c)] =>
    set (tail := f tt);
    assert (Hin : inner tail) by (subst tail; cbv beta; inner_auto);
    assert (Hret : forall w0, fst (tail w0) = inr res)
  end.
  { intros w0. subst tail. cbv beta.
    destruct (status_code res =? 200); [|reflexivity].
    destruct (command_id_of res) as [id|].
    - unfold is_initialised. run.
      match goal with |- context [negb ?b] => destruct b end; simpl.
      + match goal with |- context [dispatch res id ?w1] =>
          destruct (dispatch res id w1) as [[e|[]] w2] end; [|reflexivity].
        match goal with |- context [event_cb ?ea ?w1] =>
          destruct (event_cb_run ea w1) as (w3 & E3 & _) end.
        rewrite E3. reflexivity.
      + match goal with |- context [event_cb ?ea ?w1] =>
          destruct (event_cb_run ea w1) as (w3 & E3 & _) end.
        rewrite E3. reflexivity.
    - run.
      match goal with |- context [event_cb ?ea ?w1] =>
        destruct (event_cb_run ea w1) as (w3 & E3 & _) end.
      rewrite E3. reflexivity. }
  run.
  match goal with |- context [tail ?w0] =>
    destruct (Hin w0) as (l & F & C & P); specialize (Hret w0);
    destruct (tail w0) as [out w1] end.
  simpl in *. subst out. exists w1, l. repeat split; try apply F; try exact P.
  rewrite C, <- app_assoc. reflexivity.
Qed.

Lemma after_exchange_run (res : Response) (w : World) :
  exists w',
    after_exchange res w = (inr tt, w') /\
    self w' = self w /\ ticks w' = ticks w /\
    exchanges w' = exchanges w /\ calls w' = calls w /\
    API (errors w') = (status_code res <? 400) /\
    TOKEN (errors w') = (if status_code res =? 401 then false else TOKEN (errors w)) /\
    HTTP (errors w') = HTTP (errors w) /\
    INTERNET (errors w') = INTERNET (errors w).
Proof.
  unfold after_exchange. run. destruct_world w.
  destruct (Z.leb_spec 400 (status_code res)), (Z.ltb_spec (status_code res) 400),
    (Z.eqb_spec (status_code res) 401); try lia; simpl;
    eexists; repeat split.
Qed.

(** One iteration on a telemetry sample, with a server and a token. *)
Lemma loop_body_telemetry (w : World) (t : Telemetry) (rest : list Item) (srv : string) :
  queue (self w) = ITelemetry t :: rest ->
  server (self w) = Some srv -> srv <> "" ->
  truthy_str (token (self w)) = true ->
  exists req,
    method req = POST /\ url req = srv +:+ "/p/telemetry" /\
    json req = Some (ITelemetry t) /\
    match conn (length (exchanges w)) req with
    | Resp r =>
        exists w' l,
          loop_body w = (inr tt, w') /\
          exchanges w' = (exchanges w ++ [(req, Resp r)])%list /\
          calls w' = (calls w ++ CParseCommand r :: l)%list /\
          Forall (fun c => is_parse_command c = false) l /\
          API (errors w') = (status_code r <? 400) /\
          TOKEN (errors w') =
            (if status_code r =? 401 then false else TOKEN (errors w)) /\
          HTTP (errors w') = HTTP (errors w)
    | Raise e =>
        exists w',
          loop_body w = (inl e, w') /\
          exchanges w' = (exchanges w ++ [(req, Raise e)])%list /\
          calls w' = calls w /\ errors w' = errors w
    end.
Proof.
  intros Hq Hs Hne Htok. apply String.eqb_neq in Hne.
  destruct (make_headers_run (Some (timestamp t)) (with_self (set_queue rest) w))
    as (h & w1 & E1 & S1 & _).
  set (req := {| method := POST; url := srv +:+ "/p/telemetry"; req_headers := h;
                 json := Some (ITelemetry t); req_timeout := CONNECTION_TIMEOUT |}).
  exists req. do 3 (split; [reflexivity|]).
  assert (Hs' : server (self (with_self (set_queue rest) w)) = Some srv)
    by (destruct_world w; assumption).
  assert (Htok' : truthy_str (token (self (with_self (set_queue rest) w))) = true)
    by (destruct_world w; assumption).
  destruct S1 as (_ & _ & _ & _ & _ & _ & _ & _ & _ & _ & Se & Sx & Sc).
  simpl in Se, Sx, Sc.
  destruct (conn (length (exchanges w)) req) as [r|e] eqn:Hconn.
  - destruct (parse_command_run r
                {| self := self w1; errors := errors w1; ticks := ticks w1;
                   exchanges := exchanges w1 ++ [(req, Resp r)]; calls := calls w1 |})
      as (w2 & l & E2 & F2 & C2 & P2).
    destruct (after_exchange_run r w2) as (w3 & E3 & _ & _ & Ax & Ac & Aa & At & Ah & _).
    destruct F2 as (_ & _ & _ & _ & _ & _ & _ & _ & _ & Fh & Ft & _ & Fx).
    simpl in *.
    exists w3, l. split.
    { unfold loop_body, send. run. rewrite Hq. simpl. rewrite Hs'. simpl. rewrite Hne. simpl.
      rewrite Htok', E1.
      unfold conn_post, conn_request. rewrite Sx. fold req. rewrite Hconn. simpl. rewrite Sx in E2.
      rewrite E2. simpl. rewrite E3. reflexivity. }
    repeat split; try exact P2; try congruence.
    rewrite At, Ft, Se. reflexivity.
  - exists {| self := self w1; errors := errors w1; ticks := ticks w1;
              exchanges := exchanges w1 ++ [(req, Raise e)]; calls := calls w1 |}.
    split.
    { unfold loop_body, send. run. rewrite Hq. simpl. rewrite Hs'. simpl. rewrite Hne. simpl.
      rewrite Htok', E1.
      unfold conn_post, conn_request. rewrite Sx. fold req. rewrite Hconn.
      reflexivity. }
    simpl. repeat split; congruence.
Qed.

(** One iteration on an event, with a server and a token. *)
Lemma loop_body_event (w : World) (ev : Event) (rest : list Item) (srv : string) :
  queue (self w) = IEvent ev :: rest ->
  server (self w) = Some srv -> srv <> "" ->
  truthy_str (token (self w)) = true ->
  exists req,
    method req = POST /\ url req = srv +:+ "/p/events" /\
    json req = Some (IEvent ev) /\
    match conn (length (exchanges w)) req with
    | Resp r =>
        exists w',
          loop_body w = (inr tt, w') /\
          exchanges w' = (exchanges w ++ [(req, Resp r)])%list /\
          calls w' = calls w /\
          command (self w') = command (self w) /\
          queue (self w') = rest /\
          API (errors w') = (status_code r <? 400) /\
          TOKEN (errors w') =
            (if status_code r =? 401 then false else TOKEN (errors w)) /\
          HTTP (errors w') = HTTP (errors w)
    | Raise e =>
        exists w',
          loop_body w = (inl e, w') /\
          exchanges w' = (exchanges w ++ [(req, Raise e)])%list /\
          calls w' = calls w /\ errors w' = errors w /\
          command (self w') = command (self w)
    end.
Proof.
  intros Hq Hs Hne Htok. apply String.eqb_neq in Hne.
  destruct (make_headers_run (Some (ev_timestamp ev)) (with_self (set_queue rest) w))
    as (h & w1 & E1 & S1 & _).
  set (req := {| method := POST; url := srv +:+ "/p/events"; req_headers := h;
                 json := Some (IEvent ev); req_timeout := CONNECTION_TIMEOUT |}).
  exists req. do 3 (split; [reflexivity|]).
  assert (Hs' : server (self (with_self (set_queue rest) w)) = Some srv)
    by (destruct_world w; assumption).
  assert (Htok' : truthy_str (token (self (with_self (set_queue rest) w))) = true)
    by (destruct_world w; assumption).
  assert (Hq' : queue (self (with_self (set_queue rest) w)) = rest)
    by (destruct_world w; reflexivity).
  assert (Hk' : command (self (with_self (set_queue rest) w)) = command (self w))
    by (destruct_world w; reflexivity).
  destruct S1 as (_ & _ & _ & _ & _ & _ & Sq & Sk & _ & _ & Se & Sx & Sc).
  rewrite Hq' in Sq. rewrite Hk' in Sk. simpl in Se, Sx, Sc.
  destruct (conn (length (exchanges w)) req) as [r|e] eqn:Hconn.
  - destruct (after_exchange_run r
                {| self := self w1; errors := errors w1; ticks := ticks w1;
                   exchanges := exchanges w ++ [(req, Resp r)]; calls := calls w1 |})
      as (w3 & E3 & As & _ & Ax & Ac & Aa & At & Ah & _).
    simpl in *. exists w3. split.
    { unfold loop_body, send. run. rewrite Hq. simpl. rewrite Hs'. simpl.
      rewrite Hne. simpl. rewrite Htok', E1.
      unfold conn_post, conn_request. rewrite Sx. fold req. rewrite Hconn. simpl.
      rewrite E3. reflexivity. }
    rewrite As. repeat split; try congruence.
    rewrite At, Se. reflexivity.
  - exists {| self := self w1; errors := errors w1; ticks := ticks w1;
              exchanges := exchanges w ++ [(req, Raise e)]; calls := calls w1 |}.
    split.
    { unfold loop_body, send. run. rewrite Hq. simpl. rewrite Hs'. simpl.
      rewrite Hne. simpl. rewrite Htok', E1.
      unfold conn_post, conn_request. rewrite Sx. fold req. rewrite Hconn.
      reflexivity. }
    simpl. repeat split; congruence.
Qed.

(** One iteration on a registration poll, with a server: the request
    made and, when it is answered, the state in which the answer is
    handled. *)
Lemma loop_body_register (w : World) (reg : Register) (rest : list Item) (srv : string) :
  queue (self w) = IRegister reg :: rest ->
  server (self w) = Some srv -> srv <> "" ->
  exists req,
    method req = GET /\ url req = srv +:+ "/p/register" /\
    h_Temporary_Code (req_headers req) = Some (code reg) /\
    match conn (length (exchanges w)) req with
    | Resp r =>
        exists w1,
          loop_body w
          = (on_register_response reg r ≫= fun _ => after_exchange r) w1 /\
          exchanges w1 = (exchanges w ++ [(req, Resp r)])%list /\
          ticks w1 = S (ticks w) /\
          queue (self w1) = rest /\
          register_handler (self w1) = register_handler (self w) /\
          command (self w1) = command (self w) /\
          errors w1 = errors w /\ calls w1 = calls w
    | Raise e =>
        exists w',
          loop_body w = (inl e, w') /\
          exchanges w' = (exchanges w ++ [(req, Raise e)])%list /\
          calls w' = calls w /\ errors w' = errors w
    end.
Proof.
  intros Hq Hs Hne. apply String.eqb_neq in Hne.
  destruct (make_headers_run None (with_self (set_queue rest) w))
    as (h & w1 & E1 & S1 & T1).
  set (req := {| method := GET; url := srv +:+ "/p/register";
                 req_headers :=
                   {| h_Fingerprint := h_Fingerprint h; h_Timestamp := h_Timestamp h;
                      h_Token := h_Token h; h_Clock_Adjusted := h_Clock_Adjusted h;
                      h_Temporary_Code := Some (code reg) |};
                 json := None; req_timeout := CONNECTION_TIMEOUT |}).
  exists req. do 3 (split; [reflexivity|]).
  assert (Hs' : server (self (with_self (set_queue rest) w)) = Some srv)
    by (destruct_world w; assumption).
  assert (Hq' : queue (self (with_self (set_queue rest) w)) = rest)
    by (destruct_world w; reflexivity).
  assert (Hk' : command (self (with_self (set_queue rest) w)) = command (self w))
    by (destruct_world w; reflexivity).
  assert (Hr' : register_handler (self (with_self (set_queue rest) w))
                = register_handler (self w))
    by (destruct_world w; reflexivity).
  destruct S1 as (_ & _ & _ & _ & _ & _ & Sq & Sk & _ & Sr & Se & Sx & Sc).
  rewrite Hq' in Sq. rewrite Hk' in Sk. rewrite Hr' in Sr. simpl in Se, Sx, Sc, T1.
  destruct (conn (length (exchanges w)) req) as [r|e] eqn:Hconn.
  - exists {| self := self w1; errors := errors w1; ticks := ticks w1;
              exchanges := exchanges w ++ [(req, Resp r)]; calls := calls w1 |}.
    split.
    { unfold loop_body, send, get_token. run. rewrite Hq. simpl. rewrite Hs'. simpl.
      rewrite Hne. simpl. rewrite Hs'. simpl. rewrite Hne. simpl. rewrite E1.
      unfold conn_get, conn_request. rewrite Sx. fold req. rewrite Hconn. simpl.
      destruct (on_register_response reg r _) as [[e|[]] w2]; reflexivity. }
    simpl. repeat split; congruence.
  - exists {| self := self w1; errors := errors w1; ticks := ticks w1;
              exchanges := exchanges w ++ [(req, Raise e)]; calls := calls w1 |}.
    split.
    { unfold loop_body, send, get_token. run. rewrite Hq. simpl. rewrite Hs'. simpl.
      rewrite Hne. simpl. rewrite Hs'. simpl. rewrite Hne. simpl. rewrite E1.
      unfold conn_get, conn_request. rewrite Sx. fold req. rewrite Hconn.
      reflexivity. }
    simpl. repeat split; congruence.
Qed.

(** The [except] clauses change flags only. *)
Lemma loop_iter_body (w w' : World) (out : Exn + unit) :
  loop_body w = (out, w') ->
  self (loop_iter w) = self w' /\
  exchanges (loop_iter w) = exchanges w' /\
  calls (loop_iter w) = calls w' /\
  ticks (loop_iter w) = ticks w' /\
  API (errors (loop_iter w)) = API (errors w') /\
  TOKEN (errors (loop_iter w)) = TOKEN (errors w') /\
  (forall u, out = inr u -> loop_iter w = w').
Proof.
  intros Hb. unfold loop_iter. rewrite Hb.
  destruct out as [[| | |]|[]]; simpl; repeat split; intros; congruence.
Qed.

Lemma loop_body_empty (w : World) :
  queue (self w) = [] -> loop_body w = (inl Empty, w).
Proof. intros Hq. unfold loop_body. run. rewrite Hq. reflexivity. Qed.

(** Without a token an event or a telemetry sample is taken off the
    queue and nothing else happens. *)
Lemma loop_body_no_token (w : World) (item : Item) (rest : list Item) :
  queue (self w) = item :: rest ->
  truthy_str (token (self w)) = false ->
  is_register item = false ->
  loop_body w = (inr tt, with_self (set_queue rest) w).
Proof.
  intros Hq Htok Hreg. unfold loop_body, send. run. rewrite Hq. simpl.
  destruct_world w. subst. destruct server0 as [srv|]; [|reflexivity].
  destruct (srv =? "")%string; [reflexivity|].
  destruct item; try discriminate; simpl; rewrite Htok; reflexivity.
Qed.

(** Handling the answer to a registration poll. *)
Lemma on_register_response_run (reg : Register) (r : Response) (w : World) :
  exists out w',
    on_register_response reg r w = (out, w') /\
    exchanges w' = exchanges w /\
    HTTP (errors w') = HTTP (errors w) /\
    ((status_code r = 200 ->
      exists tok, headers_get "Token" r = Some tok /\
                  register_handler (self w) tok = None) ->
     out = inr tt) /\
    (status_code r = 202 ->
     out = inr tt /\
     queue (self w') =
       (queue (self w) ++
        if int_gt_float (timeout reg) (wall_clock (ticks w))
        then [IRegister reg] else [])%list /\
     calls w' =
       (calls w ++
        if int_gt_float (timeout reg) (wall_clock (ticks w))
        then [CSleep 1] else [])%list).
Proof.
  unfold on_register_response, call_register_handler, time. run.
  destruct (Z.eqb_spec (status_code r) 200) as [H200|H200].
  - destruct (headers_get "Token" r) as [tok|] eqn:Htok.
    + destruct_world w.
      destruct (register_handler0 tok) as [e|] eqn:Hh; simpl;
        do 2 eexists; (split; [reflexivity|]); simpl;
        repeat split; try lia.
      intros Hok. destruct (Hok H200) as (tok' & [= <-] & Hnone). congruence.
    + do 2 eexists. split; [reflexivity|]. repeat split; try lia.
      intros Hok. destruct (Hok H200) as (tok' & [=] & _).
  - destruct (Z.eqb_spec (status_code r) 202) as [H202|H202].
    + destruct_world w.
      destruct (int_gt_float (timeout reg) (wall_clock ticks0)); simpl;
        do 2 eexists; (split; [reflexivity|]); simpl;
        repeat split; rewrite ?app_nil_r; reflexivity.
    + do 2 eexists. split; [reflexivity|]. repeat split; try lia.
Qed.

Lemma app_tail_neq {A} (l : list A) (x : A) : l <> (l ++ [x])%list.
Proof.
  intros Heq. apply (f_equal (@length A)) in Heq.
  rewrite length_app in Heq. simpl in Heq. lia.
Qed.

(** ** The dispatch loop *)


(** A registration poll whose exchange was answered: the state in which
    the answer is handled. *)
Lemma loop_body_register_answered
    (w : World) (reg : Register) (rest : list Item) (srv : string)
    (req : Request) (r : Response) :
  queue (self w) = IRegister reg :: rest ->
  server (self w) = Some srv -> srv <> "" ->
  exchanges (loop_iter w) = (exchanges w ++ [(req, Resp r)])%list ->
  exists w1,
    loop_body w = (on_register_response reg r ≫= fun _ => after_exchange r) w1 /\
    ticks w1 = S (ticks w) /\
    queue (self w1) = rest /\
    register_handler (self w1) = register_handler (self w) /\
    errors w1 = errors w /\ calls w1 = calls w.
Proof.
  intros Hq Hs Hne Hx.
  destruct (loop_body_register w reg rest srv Hq Hs Hne) as (req0 & _ & _ & _ & Hcase).
  destruct (conn (length (exchanges w)) req0) as [r0|e].
  - destruct Hcase as (w1 & Hb & Hx1 & Ht & Hq1 & Hr1 & _ & He1 & Hc1).
    assert (Hxx : exchanges (loop_iter w) = exchanges w1).
    { destruct ((on_register_response reg r0 ≫= fun _ => after_exchange r0) w1)
        as [out w3] eqn:Hm.
      destruct (loop_iter_body _ _ _ Hb) as (_ & Ix & _).
      rewrite Ix. unfold mbind, M_bind in Hm.
      destruct (on_register_response_run reg r0 w1) as (o & w2 & E2 & X2 & _).
      rewrite E2 in Hm. destruct o as [e|[]].
      - injection Hm as _ <-. exact X2.
      - destruct (after_exchange_run r0 w2) as (w4 & E4 & _ & _ & X4 & _).
        rewrite E4 in Hm. injection Hm as _ <-. congruence. }
    rewrite Hxx, Hx1 in Hx. apply app_inj_tail in Hx as [_ [= <- <-]].
    exists w1. repeat split; assumption.
  - destruct Hcase as (w' & Hb & Hx' & _).
    destruct (loop_iter_body _ _ _ Hb) as (_ & Ix & _).
    rewrite Ix, Hx' in Hx. apply app_inj_tail in Hx as [_ [=]].
Qed.

(** C5, as the code has it: after an HTTP exchange of the loop that got
    a response, and unless handling the response raised (which only the
    answer 200 to a registration poll can do, when it has no [Token]
    header or the registration handler raises), the API flag is true
    exactly when the status is below 400 and a status 401 leaves the
    TOKEN flag false. The status handling assigns [errors.API.ok] and
    [errors.TOKEN.ok] only, so that, the flags being independent as the
    spec has them, the TRANSPORT flag [errors.HTTP] is what it was. *)
Theorem loop_flags_after_exchange (w : World) (req : Request) (r : Response) :
  exchanges (loop_iter w) = (exchanges w ++ [(req, Resp r)])%list ->
  (forall reg rest,
     queue (self w) = IRegister reg :: rest -> status_code r = 200 ->
     exists tok, headers_get "Token" r = Some tok /\
                 register_handler (self w) tok = None) ->
  API (errors (loop_iter w)) = (status_code r <? 400) /\
  (status_code r = 401 -> TOKEN (errors (loop_iter w)) = false) /\
  HTTP (errors (loop_iter w)) = HTTP (errors w).
Proof.
  intros Hx Hreg.
  assert (Hquiet : forall w', loop_body w = (inr tt, w') -> exchanges w' = exchanges w ->
                              False).
  { intros w' Hb Hx'. destruct (loop_iter_body _ _ _ Hb) as (_ & Ix & _).
    rewrite Ix, Hx' in Hx. exact (app_tail_neq _ _ Hx). }
  destruct (queue (self w)) as [|item rest] eqn:Hq.
  { pose proof (loop_body_empty w Hq) as Hb.
    destruct (loop_iter_body _ _ _ Hb) as (_ & Ix & _).
    rewrite Ix in Hx. destruct (app_tail_neq _ _ Hx). }
  destruct (truthy_str (server (self w))) eqn:Hsrv.
  2:{ exfalso. eapply Hquiet; [apply (loop_body_no_server w item rest Hq Hsrv)|].
      reflexivity. }
  unfold truthy_str in Hsrv. destruct (server (self w)) as [srv|] eqn:Hs; [|discriminate].
  assert (Hne : srv <> "").
  { intros ->. discriminate. }
  assert (Hpost : forall w' l0 req0 r0,
            loop_body w = (inr tt, w') ->
            exchanges w' = (exchanges w ++ [(req0, Resp r0)])%list ->
            API (errors w') = (status_code r0 <? 400) ->
            TOKEN (errors w') = (if status_code r0 =? 401 then false else l0) ->
            HTTP (errors w') = HTTP (errors w) ->
            API (errors (loop_iter w)) = (status_code r <? 400) /\
            (status_code r = 401 -> TOKEN (errors (loop_iter w)) = false) /\
            HTTP (errors (loop_iter w)) = HTTP (errors w)).
  { intros w' l0 req0 r0 Hb Hx' Ha Ht Hh.
    destruct (loop_iter_body _ _ _ Hb) as (_ & Ix & _ & _ & _ & _ & Iw).
    rewrite (Iw tt eq_refl) in *. rewrite Hx' in Hx.
    apply app_inj_tail in Hx as [_ [= <- <-]].
    repeat split; try assumption.
    intros H401. rewrite Ht, H401. reflexivity. }
  assert (Hfail : forall w' e req0,
            loop_body w = (inl e, w') ->
            exchanges w' = (exchanges w ++ [(req0, Raise e)])%list -> False).
  { intros w' e req0 Hb Hx'. destruct (loop_iter_body _ _ _ Hb) as (_ & Ix & _).
    rewrite Ix, Hx' in Hx. apply app_inj_tail in Hx as [_ [=]]. }
  destruct item as [ev|t|reg].
  - destruct (truthy_str (token (self w))) eqn:Htok.
    + destruct (loop_body_event w ev rest srv Hq Hs Hne Htok) as (req0 & _ & _ & _ & Hcase).
      destruct (conn (length (exchanges w)) req0) as [r0|e].
      * destruct Hcase as (w' & Hb & Hx' & _ & _ & _ & Ha & Ht & Hh). eauto.
      * destruct Hcase as (w' & Hb & Hx' & _). destruct (Hfail _ _ _ Hb Hx').
    + exfalso. eapply Hquiet; [apply (loop_body_no_token w _ rest Hq Htok eq_refl)|].
      reflexivity.
  - destruct (truthy_str (token (self w))) eqn:Htok.
    + destruct (loop_body_telemetry w t rest srv Hq Hs Hne Htok)
        as (req0 & _ & _ & _ & Hcase).
      destruct (conn (length (exchanges w)) req0) as [r0|e].
      * destruct Hcase as (w' & l & Hb & Hx' & _ & _ & Ha & Ht & Hh). eauto.
      * destruct Hcase as (w' & Hb & Hx' & _). destruct (Hfail _ _ _ Hb Hx').
    + exfalso. eapply Hquiet; [apply (loop_body_no_token w _ rest Hq Htok eq_refl)|].
      reflexivity.
  - destruct (loop_body_register_answered w reg rest srv req r Hq Hs Hne Hx)
      as (w1 & Hb & _ & _ & Hr1 & He1 & _).
    destruct (on_register_response_run reg r w1) as (out & w2 & E2 & X2 & H2 & Hok & _).
    rewrite Hr1 in Hok. rewrite (Hok (Hreg reg rest eq_refl)) in E2.
    destruct (after_exchange_run r w2) as (w3 & E3 & _ & _ & X3 & _ & Ha & Ht & Hh & _).
    unfold mbind, M_bind in Hb. rewrite E2, E3 in Hb.
    destruct (loop_iter_body _ _ _ Hb) as (_ & _ & _ & _ & _ & _ & Iw).
    rewrite (Iw tt eq_refl). repeat split.
    + exact Ha.
    + intros H401. rewrite Ht, H401. reflexivity.
    + congruence.
Qed.

Lemma int_gt_float_true (a : Z) (b : Q) :
  int_gt_float a b = true <-> (b < inject_Z a)%Q.
Proof.
  unfold int_gt_float. rewrite negb_true_iff. split.
  - intros Hle. apply Qnot_le_lt. intros Hc. apply Qle_bool_iff in Hc. congruence.
  - intros Hlt. destruct (Qle_bool (inject_Z a) b) eqn:Hle; [|reflexivity].
    apply Qle_bool_iff in Hle. exfalso. exact (Qlt_not_le _ _ Hlt Hle).
Qed.

(** For a clock reading that is not negative, [int] is the floor: the
    whole seconds of the reading. *)
Lemma int_of_float_floor (t : Q) :
  (0 <= t)%Q ->
  (inject_Z (int_of_float t) <= t)%Q /\ (t < inject_Z (int_of_float t + 1))%Q.
Proof.
  intros Hpos.
  assert (Hf : int_of_float t = Qfloor t).
  { unfold int_of_float. destruct t as [n d]. simpl.
    unfold Qle in Hpos. simpl in Hpos.
    apply Z.quot_div_nonneg; lia. }
  rewrite Hf. split; [apply Qfloor_le | apply Qlt_floor].
Qed.

(** C4: a registration poll item is created with a deadline that is its
    creation time, in whole seconds, plus 30 minutes; and when an
    iteration of the loop gets the pending answer 202 to the poll, the
    item is put back on the queue exactly once, at its end, if the clock
    then reads less than the deadline, and is gone from the queue if the
    clock has reached the deadline. *)
Theorem register_poll_deadline (w : World) :
  (forall c,
     exists w',
       Register_init c w =
         (inr {| code := c; timeout := int_of_float (wall_clock (ticks w)) + 1800 |}, w') /\
       ((0 <= wall_clock (ticks w))%Q ->
        (wall_clock (ticks w) + 1799 <
           inject_Z (int_of_float (wall_clock (ticks w)) + 1800))%Q /\
        (inject_Z (int_of_float (wall_clock (ticks w)) + 1800) <=
           wall_clock (ticks w) + 1800)%Q)) /\
  (forall reg rest srv req r,
     queue (self w) = IRegister reg :: rest ->
     server (self w) = Some srv -> srv <> "" ->
     exchanges (loop_iter w) = (exchanges w ++ [(req, Resp r)])%list ->
     status_code r = 202 ->
     ((wall_clock (S (ticks w)) < inject_Z (timeout reg))%Q ->
      queue (self (loop_iter w)) = (rest ++ [IRegister reg])%list) /\
     ((inject_Z (timeout reg) <= wall_clock (S (ticks w)))%Q ->
      queue (self (loop_iter w)) = rest)).
Proof.
  split.
  - intros c. unfold Register_init, time. run. eexists. split; [reflexivity|].
    intros Hpos. destruct (int_of_float_floor _ Hpos) as [Hlo Hhi].
    rewrite !inject_Z_plus in *. simpl in *. split.
    + apply Qlt_le_trans with (inject_Z (int_of_float (wall_clock (ticks w))) + 1 + 1799)%Q.
      * apply Qplus_lt_l. exact Hhi.
      * rewrite <- Qplus_assoc. apply Qplus_le_r. discriminate.
    + apply Qplus_le_l. exact Hlo.
  - intros reg rest srv req r Hq Hs Hne Hx H202.
    destruct (loop_body_register_answered w reg rest srv req r Hq Hs Hne Hx)
      as (w1 & Hb & Ht1 & Hq1 & _).
    destruct (on_register_response_run reg r w1) as (out & w2 & E2 & _ & _ & _ & Hp).
    destruct (Hp H202) as (-> & Hq2 & _).
    destruct (after_exchange_run r w2) as (w3 & E3 & Hs3 & _).
    unfold mbind, M_bind in Hb. rewrite E2, E3 in Hb.
    destruct (loop_iter_body _ _ _ Hb) as (_ & _ & _ & _ & _ & _ & Iw).
    rewrite (Iw tt eq_refl), Hs3, Hq2, Hq1, Ht1. split.
    + intros Hlt. apply int_gt_float_true in Hlt. rewrite Hlt. reflexivity.
    + intros Hle.
      destruct (int_gt_float (timeout reg) (wall_clock (S (ticks w)))) eqn:Hgt.
      * apply int_gt_float_true in Hgt. destruct (Qlt_not_le _ _ Hgt Hle).
      * apply app_nil_r.
Qed.


(** ** One iteration, in two phases *)

(** An iteration that sends its item (a server is set, and the item is a
    registration poll or a token is set) builds the headers, makes one
    request and, when it is answered, handles the response and sets the
    flags. *)
Lemma loop_body_exchange (w : World) (item : Item) (rest : list Item) (srv : string) :
  queue (self w) = item :: rest ->
  server (self w) = Some srv -> srv <> "" ->
  is_register item = true \/ truthy_str (token (self w)) = true ->
  exists h w1,
    make_headers (timestamp_of item) (with_self (set_queue rest) w) = (inr h, w1) /\
    loop_body w =
      match conn (length (exchanges w)) (request_for srv item h) with
      | Raise e => (inl e, with_exchange (request_for srv item h, Raise e) w1)
      | Resp r =>
          (handle item r ≫= fun _ => after_exchange r)
            (with_exchange (request_for srv item h, Resp r) w1)
      end.
Proof.
  intros Hq Hs Hne Hsend. apply String.eqb_neq in Hne.
  destruct (make_headers_run (timestamp_of item) (with_self (set_queue rest) w))
    as (h & w1 & E1 & S1 & _).
  exists h, w1. split; [exact E1|].
  assert (Hs' : server (self (with_self (set_queue rest) w)) = Some srv)
    by (destruct_world w; assumption).
  assert (Htok' : token (self (with_self (set_queue rest) w)) = token (self w))
    by (destruct_world w; reflexivity).
  destruct S1 as (_ & _ & _ & _ & _ & _ & _ & _ & _ & _ & _ & Sx & _).
  simpl in Sx.
  unfold loop_body, send, get_token. run. rewrite Hq. simpl. rewrite Hs'. simpl.
  rewrite Hne. simpl. rewrite Htok'.
  destruct item as [ev|t|reg]; unfold handle; run.
  - destruct Hsend as [Hsend|Hsend]; [discriminate|]. rewrite Hsend, E1.
    unfold conn_post, conn_request, with_exchange. rewrite Sx.
    destruct (conn _ _) as [r|e]; simpl; [|reflexivity].
    destruct (after_exchange r _) as [[e|[]] w2]; reflexivity.
  - destruct Hsend as [Hsend|Hsend]; [discriminate|]. rewrite Hsend, E1.
    unfold conn_post, conn_request, with_exchange. rewrite Sx.
    destruct (conn _ _) as [r|e]; simpl; [|reflexivity].
    destruct (parse_command r _) as [[e|r'] w2]; simpl; [reflexivity|].
    destruct (after_exchange r w2) as [[e|[]] w3]; reflexivity.
  - rewrite Hs'. simpl. rewrite Hne. simpl. rewrite E1.
    unfold conn_get, conn_request, with_exchange. rewrite Sx.
    destruct (conn _ _) as [r|e]; simpl; [|reflexivity].
    destruct (on_register_response reg r _) as [[e|[]] w2]; simpl; [reflexivity|].
    destruct (after_exchange r w2) as [[e|[]] w3]; reflexivity.
Qed.

Lemma make_headers_inv (ts : option Q) (w w1 : World) (h : Headers) :
  make_headers ts w = (inr h, w1) ->
  same_but_clock w w1 /\
  h_Fingerprint h = __fingerprint (self w) /\
  h_Token h = (if truthy_str (token (self w)) then token (self w) else None) /\
  h_Temporary_Code h = None /\
  (truthy_float ts = true -> Some (h_Timestamp h) = ts).
Proof.
  unfold make_headers, time, truthy_float. run. destruct_world w.
  destruct ts as [t|]; simpl; [destruct (Qeq_bool t 0); simpl|];
    destruct (clock_adjusted clock_watcher0); simpl;
    intros [= <- <-]; simpl; unfold same_but_clock; simpl;
    repeat split; intros; try discriminate; reflexivity.
Qed.

Lemma handle_run (item : Item) (r : Response) (w : World) :
  exists out w',
    handle item r w = (out, w') /\
    exchanges w' = exchanges w /\ HTTP (errors w') = HTTP (errors w).
Proof.
  destruct item as [ev|t|reg]; unfold handle.
  - exists (inr tt), w. repeat split.
  - destruct (parse_command_run r w) as (w' & l & E & F & _).
    exists (inr tt), w'. unfold mbind, M_bind. rewrite E.
    unfold frame in F. intuition.
  - destruct (on_register_response_run reg r w) as (out & w' & E & X & Hh & _).
    exists out, w'. auto.
Qed.

(** An iteration that put an exchange on record sent the item at the head
    of its queue, in the two phases above. *)
Lemma loop_iter_sent (w : World) (req : Request) (out : HttpResult) :
  exchanges (loop_iter w) = (exchanges w ++ [(req, out)])%list ->
  exists item rest srv h w1,
    queue (self w) = item :: rest /\
    server (self w) = Some srv /\ srv <> "" /\
    (is_register item = true \/ truthy_str (token (self w)) = true) /\
    make_headers (timestamp_of item) (with_self (set_queue rest) w) = (inr h, w1) /\
    req = request_for srv item h /\
    out = conn (length (exchanges w)) req /\
    loop_body w =
      match out with
      | Raise e => (inl e, with_exchange (req, Raise e) w1)
      | Resp r =>
          (handle item r ≫= fun _ => after_exchange r) (with_exchange (req, Resp r) w1)
      end.
Proof.
  intros Hx.
  assert (Hquiet : forall o w', loop_body w = (o, w') -> exchanges w' = exchanges w ->
                                False).
  { intros o w' Hb Hx'. destruct (loop_iter_body _ _ _ Hb) as (_ & Ix & _).
    rewrite Ix, Hx' in Hx. exact (app_tail_neq _ _ Hx). }
  destruct (queue (self w)) as [|item rest] eqn:Hq.
  { destruct (Hquiet _ _ (loop_body_empty w Hq) eq_refl). }
  destruct (truthy_str (server (self w))) eqn:Hsrv.
  2:{ destruct (Hquiet _ _ (loop_body_no_server w item rest Hq Hsrv) eq_refl). }
  unfold truthy_str in Hsrv. destruct (server (self w)) as [srv|] eqn:Hs; [|discriminate].
  assert (Hne : srv <> "") by (intros ->; discriminate).
  assert (Hsend : is_register item = true \/ truthy_str (token (self w)) = true).
  { destruct (is_register item) eqn:Hreg; [left; reflexivity|].
    destruct (truthy_str (token (self w))) eqn:Htok; [right; reflexivity|].
    destruct (Hquiet _ _ (loop_body_no_token w item rest Hq Htok Hreg) eq_refl). }
  destruct (loop_body_exchange w item rest srv Hq Hs Hne Hsend) as (h & w1 & E1 & Hb).
  destruct (make_headers_inv _ _ _ _ E1) as (S1 & _).
  destruct S1 as (_ & _ & _ & _ & _ & _ & _ & _ & _ & _ & _ & Sx & _). simpl in Sx.
  exists item, rest, srv, h, w1.
  do 5 (split; [first [reflexivity | assumption]|]).
  destruct (conn (length (exchanges w)) (request_for srv item h)) as [r|e] eqn:Hconn.
  - assert (Hxx : exchanges (loop_iter w)
                  = (exchanges w ++ [(request_for srv item h, Resp r)])%list).
    { destruct ((handle item r ≫= fun _ => after_exchange r)
                  (with_exchange (request_for srv item h, Resp r) w1))
        as [o w3] eqn:Hm.
      destruct (loop_iter_body _ _ _ Hb) as (_ & Ix & _). rewrite Ix.
      unfold mbind, M_bind in Hm.
      destruct (handle_run item r (with_exchange (request_for srv item h, Resp r) w1))
        as (o2 & w2 & E2 & X2 & _).
      rewrite E2 in Hm. simpl in X2. rewrite Sx in X2.
      destruct o2 as [e|[]].
      - injection Hm as _ <-. exact X2.
      - destruct (after_exchange_run r w2) as (w4 & E4 & _ & _ & X4 & _).
        rewrite E4 in Hm. injection Hm as _ <-. congruence. }
    rewrite Hxx in Hx. apply app_inj_tail in Hx as [_ [= <- <-]].
    rewrite Hconn. repeat split. exact Hb.
  - destruct (loop_iter_body _ _ _ Hb) as (_ & Ix & _).
    rewrite Ix in Hx. simpl in Hx. rewrite Sx in Hx.
    apply app_inj_tail in Hx as [_ [= <- <-]].
    rewrite Hconn. repeat split. exact Hb.
Qed.

Lemma on_register_response_200 (reg : Register) (r : Response) (w : World) :
  status_code r = 200 ->
  on_register_response reg r w =
    match headers_get "Token" r with
    | None => (inl (Exception "'token'"), w)
    | Some tok =>
        (match register_handler (self w) tok with
         | Some e => inl e
         | None => inr tt
         end,
         {| self := set_token (Some tok) (self w);
            errors := set_TOKEN true (errors w); ticks := ticks w;
            exchanges := exchanges w;
            calls := calls w ++ [CRegisterHandler tok] |})
    end.
Proof.
  intros H200. unfold on_register_response, call_register_handler. run.
  rewrite H200. simpl. destruct (headers_get "Token" r) as [tok|]; [|reflexivity].
  destruct_world w. destruct (register_handler0 tok); reflexivity.
Qed.

(** * Further properties of the printer *)

(** ** Producers *)

(** Without a token [event_cb] drops the event: nothing is put on the
    queue, the clock is not read and no flag changes, not even the API
    flag of a printer that is not initialised. *)
Theorem event_cb_without_token (ea : EventArgs) (w : World) :
  truthy_str (token (self w)) = false ->
  exists w',
    event_cb ea w = (inr tt, w') /\
    self w' = self w /\ errors w' = errors w /\
    ticks w' = ticks w /\ exchanges w' = exchanges w.
Proof.
  intros Htok. unfold event_cb. run. rewrite Htok. simpl.
  eexists. repeat split.
Qed.

(** With a token [event_cb] never raises and puts exactly one event at
    the end of the queue, initialised or not. The event has the kind,
    source and command id given and the caller's extra fields, except
    that a job id of the printer that is not [None] or [0] replaces the
    caller's ["job_id"].
    The API flag ends false when the printer is not initialised and is
    untouched otherwise; the other flags are untouched. *)
Theorem event_cb_with_token (ea : EventArgs) (w : World) :
  truthy_str (token (self w)) = true ->
  exists w' e,
    event_cb ea w = (inr tt, w') /\
    queue (self w') = (queue (self w) ++ [IEvent e])%list /\
    event e = ea_event ea /\ source e = ea_source ea /\
    command_id e = ea_command_id ea /\
    ev_kwargs e !! "job_id" =
      match job_id (self w) with
      | Some j => if j =? 0 then ea_kwargs ea !! "job_id" else Some (VInt j)
      | None => ea_kwargs ea !! "job_id"
      end /\
    (forall k, k <> "job_id" -> ev_kwargs e !! k = ea_kwargs ea !! k) /\
    API (errors w') = API (errors w) && initialised (self w) /\
    HTTP (errors w') = HTTP (errors w) /\
    TOKEN (errors w') = TOKEN (errors w) /\
    INTERNET (errors w') = INTERNET (errors w).
Proof.
  intros Htok.
  unfold event_cb, Event_init, is_initialised, time, initialised. run.
  rewrite Htok. simpl. destruct_world w.
  assert (Hj : forall kw : Kwargs,
             with_job_id
               {| __type := __type0; __sn := __sn0; __fingerprint := __fingerprint0;
                  server := server0; token := token0; job_id := job_id0;
                  queue := queue0; command := command0;
                  download_mgr_current := download_mgr_current0;
                  clock_watcher := clock_watcher0;
                  register_handler := register_handler0 |} kw !! "job_id"
             = match job_id0 with
               | Some j => if j =? 0 then kw !! "job_id" else Some (VInt j)
               | None => kw !! "job_id"
               end /\
             forall k, k <> "job_id" ->
               with_job_id
                 {| __type := __type0; __sn := __sn0; __fingerprint := __fingerprint0;
                    server := server0; token := token0; job_id := job_id0;
                    queue := queue0; command := command0;
                    download_mgr_current := download_mgr_current0;
                    clock_watcher := clock_watcher0;
                    register_handler := register_handler0 |} kw !! k = kw !! k).
  { intros kw. unfold with_job_id. simpl. destruct job_id0 as [j|]; [|split; reflexivity].
    destruct (j =? 0); simpl; [split; reflexivity|]. split.
    - apply lookup_insert_eq.
    - intros k Hk. apply lookup_insert_ne. congruence. }
  destruct (Hj (ea_kwargs ea)) as [Hj1 Hj2].
  destruct (ea_timestamp ea); simpl;
    match goal with |- context [negb ?b] => destruct b eqn:Hb end; simpl;
    do 2 eexists; (split; [reflexivity|]); simpl;
    repeat split; try exact Hj1; try exact Hj2;
    destruct API0; reflexivity.
Qed.

(** Without a token [telemetry] does nothing at all: the sample is not
    built, the queue, the flags and the clock are as before. *)
Theorem telemetry_without_token
    (st : const.State.t) (ts : option Q) (kw : Kwargs) (w : World) :
  truthy_str (token (self w)) = false ->
  telemetry st ts kw w = (inr tt, w).
Proof.
  intros Htok. unfold telemetry. run. rewrite Htok. reflexivity.
Qed.

Lemma with_job_id_lookup (p : Printer) (kw : Kwargs) :
  with_job_id p kw !! "job_id"
  = match job_id p with
    | Some j => if j =? 0 then kw !! "job_id" else Some (VInt j)
    | None => kw !! "job_id"
    end /\
  forall k, k <> "job_id" -> with_job_id p kw !! k = kw !! k.
Proof.
  unfold with_job_id. destruct (job_id p) as [j|]; [|split; reflexivity].
  destruct (j =? 0); simpl; [split; reflexivity|]. split.
  - apply lookup_insert_eq.
  - intros k Hk. apply lookup_insert_ne. congruence.
Qed.

(** With a token and an initialised printer [telemetry] puts one sample at
    the end of the queue and changes no flag. The sample has the state
    given and the caller's fields, except that the printer's job id (when
    not [None] or [0])
    replaces ["job_id"] and, while a download is current, its progress,
    remaining time and byte count replace the three [download_] fields. *)
Theorem telemetry_initialised_fields
    (st : const.State.t) (ts : option Q) (kw : Kwargs) (w : World) :
  truthy_str (token (self w)) = true ->
  initialised (self w) = true ->
  exists w' t,
    telemetry st ts kw w = (inr tt, w') /\
    queue (self w') = (queue (self w) ++ [ITelemetry t])%list /\
    errors w' = errors w /\
    state t = st /\
    kwargs t !! "job_id" =
      match job_id (self w) with
      | Some j => if j =? 0 then kw !! "job_id" else Some (VInt j)
      | None => kw !! "job_id"
      end /\
    match download_mgr_current (self w) with
    | Some d =>
        kwargs t !! "download_progress" = Some (progress d) /\
        kwargs t !! "download_time_remaining" = Some (time_remaining d) /\
        kwargs t !! "download_bytes" = Some (downloaded d) /\
        forall k, k <> "job_id" -> k <> "download_progress" ->
                  k <> "download_time_remaining" -> k <> "download_bytes" ->
                  kwargs t !! k = kw !! k
    | None => forall k, k <> "job_id" -> kwargs t !! k = kw !! k
    end.
Proof.
  intros Htok Hi. unfold initialised in Hi.
  destruct (with_job_id_lookup (self w) kw) as [Hj1 Hj2].
  unfold telemetry, is_initialised, Telemetry_init, time. run.
  rewrite Htok. simpl. rewrite Hi. simpl.
  assert (Hd : match download_mgr_current (self w) with
               | Some d =>
                   with_download (self w) (with_job_id (self w) kw) !! "download_progress"
                   = Some (progress d) /\
                   with_download (self w) (with_job_id (self w) kw)
                     !! "download_time_remaining" = Some (time_remaining d) /\
                   with_download (self w) (with_job_id (self w) kw) !! "download_bytes"
                   = Some (downloaded d) /\
                   with_download (self w) (with_job_id (self w) kw) !! "job_id"
                   = with_job_id (self w) kw !! "job_id" /\
                   forall k, k <> "job_id" -> k <> "download_progress" ->
                             k <> "download_time_remaining" -> k <> "download_bytes" ->
                             with_download (self w) (with_job_id (self w) kw) !! k = kw !! k
               | None =>
                   with_download (self w) (with_job_id (self w) kw)
                   = with_job_id (self w) kw
               end).
  { unfold with_download. destruct (download_mgr_current (self w)) as [d|]; [|reflexivity].
    repeat split.
    - rewrite lookup_insert_ne by discriminate.
      rewrite lookup_insert_ne by discriminate. apply lookup_insert_eq.
    - rewrite lookup_insert_ne by discriminate. apply lookup_insert_eq.
    - apply lookup_insert_eq.
    - rewrite !lookup_insert_ne by discriminate. reflexivity.
    - intros k H1 H2 H3 H4. rewrite !lookup_insert_ne by congruence. auto. }
  set (kws := with_download (self w) (with_job_id (self w) kw)) in *.
  assert (Hk : kws !! "job_id" =
               match job_id (self w) with
               | Some j => if j =? 0 then kw !! "job_id" else Some (VInt j)
               | None => kw !! "job_id"
               end).
  { destruct (download_mgr_current (self w)) as [d|].
    - destruct Hd as (_ & _ & _ & D4 & _). rewrite D4. exact Hj1.
    - rewrite Hd. exact Hj1. }
  assert (Hrest : match download_mgr_current (self w) with
                  | Some d =>
                      kws !! "download_progress" = Some (progress d) /\
                      kws !! "download_time_remaining" = Some (time_remaining d) /\
                      kws !! "download_bytes" = Some (downloaded d) /\
                      forall k, k <> "job_id" -> k <> "download_progress" ->
                                k <> "download_time_remaining" -> k <> "download_bytes" ->
                                kws !! k = kw !! k
                  | None => forall k, k <> "job_id" -> kws !! k = kw !! k
                  end).
  { destruct (download_mgr_current (self w)) as [d|].
    - destruct Hd as (D1 & D2 & D3 & _ & D5). auto.
    - rewrite Hd. exact Hj2. }
  clearbody kws. clear Hd Hj1 Hj2.
  destruct w as [[] ? ? ? ?]; simpl in *.
  destruct ts as [x|]; simpl; do 2 eexists; (split; [reflexivity|]); simpl;
    repeat split; try reflexivity; try assumption.
Qed.

(** ** Request headers *)

(** [make_headers] never raises. The headers carry the fingerprint as it
    is, a [Token] only when the token is a non-empty string, and no
    [Temporary-Code]. A timestamp that is given and not zero is sent as it
    is, without reading the clock; a timestamp that is missing or zero is
    replaced by [int(time() * 10) * TIMESTAMP_PRECISION] for one reading
    of the clock, both products being those of the machine's floats. *)
Theorem make_headers_fields (ts : option Q) (w : World) :
  exists h w',
    make_headers ts w = (inr h, w') /\
    h_Fingerprint h = __fingerprint (self w) /\
    h_Token h = (if truthy_str (token (self w)) then token (self w) else None) /\
    h_Temporary_Code h = None /\
    (truthy_float ts = true ->
     ticks w' = ticks w /\ Some (h_Timestamp h) = ts) /\
    (truthy_float ts = false ->
     ticks w' = S (ticks w) /\
     h_Timestamp h =
       float_mul (inject_Z (int_of_float (float_mul (wall_clock (ticks w)) 10)))
                 TIMESTAMP_PRECISION).
Proof.
  unfold make_headers, time, truthy_float. run. destruct_world w.
  destruct ts as [t|]; simpl; [destruct (Qeq_bool t 0); simpl|];
    destruct (clock_adjusted clock_watcher0); simpl;
    do 2 eexists; (split; [reflexivity|]); simpl;
    repeat split; intros; try discriminate; reflexivity.
Qed.

(** The [Clock-Adjusted] marker is sent once per detected adjustment: when
    the watcher reports one, the headers carry ["1"] and the watcher is
    reset, so that, for a watcher whose [reset] clears the report, the
    next headers built carry no marker. When the watcher reports nothing
    there is no marker and the watcher is left alone. *)
Theorem make_headers_clock_adjusted_once (ts ts' : option Q) (w : World) :
  exists h w',
    make_headers ts w = (inr h, w') /\
    (clock_adjusted (clock_watcher (self w)) = true ->
     h_Clock_Adjusted h = Some "1" /\
     clock_watcher (self w') = reset (clock_watcher (self w)) /\
     (clock_adjusted (reset (clock_watcher (self w))) = false ->
      exists h' w'',
        make_headers ts' w' = (inr h', w'') /\ h_Clock_Adjusted h' = None)) /\
    (clock_adjusted (clock_watcher (self w)) = false ->
     h_Clock_Adjusted h = None /\
     clock_watcher (self w') = clock_watcher (self w)).
Proof.
  destruct (make_headers_run ts w) as (h & w1 & E1 & _ & _).
  exists h, w1. split; [exact E1|].
  unfold make_headers, time in E1. run. destruct_world w.
  destruct (clock_adjusted clock_watcher0) eqn:Hadj.
  - split; [|discriminate]. intros _.
    assert (Hh : h_Clock_Adjusted h = Some "1" /\
                 clock_watcher (self w1) = reset clock_watcher0).
    { destruct ts as [t|]; simpl in E1; [destruct (Qeq_bool t 0); simpl in E1|];
        rewrite ?Hadj in E1; simpl in E1; injection E1 as <- <-; split; reflexivity. }
    destruct Hh as [Hh1 Hh2]. do 2 (split; [assumption|]).
    intros Hreset.
    destruct (make_headers_run ts' w1) as (h' & w2 & E2 & _ & _).
    exists h', w2. split; [exact E2|].
    unfold make_headers, time in E2. run.
    destruct ts' as [t'|]; simpl in E2; [destruct (Qeq_bool t' 0); simpl in E2|];
      rewrite Hh2, Hreset in E2; simpl in E2; injection E2 as <- _; reflexivity.
  - split; [discriminate|]. intros _.
    destruct ts as [t|]; simpl in E1; [destruct (Qeq_bool t 0); simpl in E1|];
      rewrite ?Hadj in E1; simpl in E1; injection E1 as <- <-; split; reflexivity.
Qed.

(** ** More on parsing a response *)

(** A response whose status is not 200 (204 or any other) is a no-op for
    [parse_command]: it is returned, no event is emitted and the command
    object is not consulted. *)
Theorem parse_command_other_status (res : Response) (w : World) :
  status_code res <> 200 ->
  exists w',
    parse_command res w = (inr res, w') /\
    self w' = self w /\ errors w' = errors w /\ ticks w' = ticks w /\
    exchanges w' = exchanges w /\
    calls w' = (calls w ++ [CParseCommand res])%list.
Proof.
  intros Hs. apply Z.eqb_neq in Hs. unfold parse_command. run. rewrite Hs.
  eexists. repeat split.
Qed.

(** [parse_command] never raises, whatever the response and whatever the
    command object does (its exceptions included): it returns the response,
    makes no HTTP call, and leaves the token, the server, the identity and
    the TRANSPORT, TOKEN and INTERNET flags as they were. *)
Theorem parse_command_never_raises (res : Response) (w : World) :
  exists w',
    parse_command res w = (inr res, w') /\
    exchanges w' = exchanges w /\
    token (self w') = token (self w) /\
    server (self w') = server (self w) /\
    __sn (self w') = __sn (self w) /\
    __fingerprint (self w') = __fingerprint (self w) /\
    __type (self w') = __type (self w) /\
    HTTP (errors w') = HTTP (errors w) /\
    TOKEN (errors w') = TOKEN (errors w) /\
    INTERNET (errors w') = INTERNET (errors w).
Proof.
  destruct (parse_command_run res w) as (w' & l & E & F & _).
  unfold frame in F. exists w'. intuition.
Qed.

(** A 200 response with a valid [Command-Id] but no [content-type] header,
    reaching an initialised printer, is answered by one REJECTED event
    that carries the command id and the text of the [AttributeError]; the
    body is not decoded and the command object is not consulted. *)
Theorem parse_command_missing_content_type (res : Response) (id : Z) (w : World) :
  status_code res = 200 ->
  command_id_of res = Some id ->
  initialised (self w) = true ->
  headers_get "content-type" res = None ->
  exists w',
    parse_command res w = (inr res, w') /\
    calls w' =
      (calls w ++
       [CParseCommand res;
        CEventCb (rejected const.Source.CONNECT (Some id)
                    "'NoneType' object has no attribute 'startswith'")])%list /\
    command (self w') = command (self w).
Proof.
  intros H200 Hc Hi Hct. unfold initialised in Hi.
  unfold parse_command, is_initialised, dispatch. run. rewrite H200, Hc. simpl.
  rewrite Hi. simpl. rewrite Hct. simpl.
  match goal with |- context [event_cb ?ea ?w0] =>
    destruct (event_cb_run ea w0) as (w1 & E1 & C1 & K1 & _) end.
  exists w1. rewrite E1. simpl in *. repeat split; [|exact K1].
  rewrite C1, <- app_assoc. reflexivity.
Qed.

(** A 200 response announced as JSON whose body does not decode is
    answered by one REJECTED event that carries the command id and the
    text of the decoding error; [check_state] is not asked and the command
    object is left as it was. *)
Theorem parse_command_json_decode_error
    (res : Response) (id : Z) (ct : string) (e : Exn) (w : World) :
  status_code res = 200 ->
  command_id_of res = Some id ->
  initialised (self w) = true ->
  headers_get "content-type" res = Some ct ->
  String.prefix "application/json" ct = true ->
  res_json res = inl e ->
  exists w',
    parse_command res w = (inr res, w') /\
    calls w' =
      (calls w ++
       [CParseCommand res; CResJson res;
        CEventCb (rejected const.Source.CONNECT (Some id) (str_exn e))])%list /\
    command (self w') = command (self w).
Proof.
  intros H200 Hc Hi Hct Hp He. unfold initialised in Hi.
  unfold parse_command, is_initialised, dispatch, json_of. run. rewrite H200, Hc. simpl.
  rewrite Hi. simpl. rewrite Hct, Hp, He. simpl.
  match goal with |- context [event_cb ?ea ?w0] =>
    destruct (event_cb_run ea w0) as (w1 & E1 & C1 & K1 & _) end.
  exists w1. rewrite E1. simpl in *. repeat split; [|exact K1].
  rewrite C1, <- !app_assoc. reflexivity.
Qed.

Ltac list_eq :=
  repeat rewrite <- app_assoc; simpl; repeat rewrite <- app_assoc; simpl;
  rewrite ?app_nil_r; reflexivity.

(** The full course of a G-code command: [check_state] is asked once and
    its events are reported; if it raises, the error becomes a REJECTED
    event; if it returns true, [accept] is called once with the body as
    the single argument, its events are reported and, if it raises, its
    error becomes a REJECTED event with the command id; if it returns
    false nothing more happens. The command object ends in the state left
    by the last of the two methods that ran. *)
Theorem parse_command_gcode_course (res : Response) (id : Z) (w : World) :
  status_code res = 200 ->
  command_id_of res = Some id ->
  initialised (self w) = true ->
  headers_get "content-type" res = Some "text/x.gcode" ->
  let checked := Command_check_state id (command (self w)) in
  let a := {| a_command_id := id; a_command := VStr Command_GCODE_value;
              a_args := VList [VStr (text res)]; a_kwargs := None;
              a_force := Some (force_of res) |} in
  let accepted := Command_accept a (cr_cmd checked) in
  let reject e := [CEventCb (rejected const.Source.CONNECT (Some id) (str_exn e))] in
  exists w',
    parse_command res w = (inr res, w') /\
    calls w' =
      (calls w ++
       CParseCommand res :: CCheckState id :: map CEventCb (cr_events checked) ++
       match cr_ret checked with
       | inl e => reject e
       | inr false => []
       | inr true =>
           CAccept a :: map CEventCb (cr_events accepted) ++
           match cr_ret accepted with
           | inl e => reject e
           | inr _ => []
           end
       end)%list /\
    command (self w') =
      match cr_ret checked with
      | inr true => cr_cmd accepted
      | _ => cr_cmd checked
      end.
Proof.
  intros H200 Hc Hi Hct checked a accepted reject. unfold initialised in Hi.
  unfold parse_command, is_initialised, dispatch. run. rewrite H200, Hc. simpl.
  rewrite Hi. simpl. rewrite Hct. simpl.
  match goal with |- context [check_state id ?w0] =>
    destruct (check_state_run id w0) as (w1 & E1 & C1 & K1) end.
  simpl in *. fold checked in E1, C1, K1. rewrite E1.
  destruct (cr_ret checked) as [e|[|]] eqn:Hret.
  - match goal with |- context [event_cb ?ea ?w0] =>
      destruct (event_cb_run ea w0) as (w2 & E2 & C2 & K2 & _) end.
    rewrite E2. exists w2. split; [reflexivity|]. split; [|congruence].
    rewrite C2, C1. unfold reject. list_eq.
  - destruct (accept_run a w1) as (w2 & E2 & C2 & K2).
    rewrite K1 in E2, C2, K2. fold accepted in E2, C2, K2.
    fold a. rewrite E2.
    destruct (cr_ret accepted) as [e|[]] eqn:Hacc.
    + match goal with |- context [event_cb ?ea ?w0] =>
        destruct (event_cb_run ea w0) as (w3 & E3 & C3 & K3 & _) end.
      rewrite E3. exists w3. split; [reflexivity|]. split; [|congruence].
      rewrite C3, C2, C1. unfold reject. list_eq.
    + exists w2. split; [reflexivity|]. split; [|congruence].
      rewrite C2, C1. list_eq.
  - exists w1. split; [reflexivity|]. split; [|exact K1].
    rewrite C1. list_eq.
Qed.

(** ** More on the dispatch loop *)

Lemma popped_self (w : World) (rest : list Item) :
  queue (self (with_self (set_queue rest) w)) = rest /\
  token (self (with_self (set_queue rest) w)) = token (self w) /\
  server (self (with_self (set_queue rest) w)) = server (self w) /\
  __fingerprint (self (with_self (set_queue rest) w)) = __fingerprint (self w) /\
  register_handler (self (with_self (set_queue rest) w)) = register_handler (self w) /\
  errors (with_self (set_queue rest) w) = errors w /\
  calls (with_self (set_queue rest) w) = calls w.
Proof. destruct_world w. repeat split. Qed.

(** When the request of an iteration fails, the item is lost: it is off
    the queue and is not put back, nothing is called and the token stays.
    The flag that the [except] clause writes ends false: TRANSPORT for a
    [ConnectionError], INTERNET for any other request failure or
    exception; for [queue.Empty] no flag is written. *)
Theorem loop_exchange_failure
    (w : World) (req : Request) (e : Exn) (item : Item) (rest : list Item) :
  queue (self w) = item :: rest ->
  exchanges (loop_iter w) = (exchanges w ++ [(req, Raise e)])%list ->
  queue (self (loop_iter w)) = rest /\
  token (self (loop_iter w)) = token (self w) /\
  calls (loop_iter w) = calls w /\
  match e with
  | Empty => errors (loop_iter w) = errors w
  | ConnectionError _ => HTTP (errors (loop_iter w)) = false
  | RequestException _ | Exception _ => INTERNET (errors (loop_iter w)) = false
  end.
Proof.
  intros Hq Hx.
  destruct (loop_iter_sent w req (Raise e) Hx)
    as (item' & rest' & srv & h & w1 & Hq' & _ & _ & _ & E1 & _ & _ & Hb).
  rewrite Hq in Hq'. injection Hq' as <- <-.
  destruct (make_headers_inv _ _ _ _ E1) as (S1 & _).
  destruct S1 as (_ & _ & _ & _ & St & _ & Sq & _ & _ & _ & Se & _ & Sc).
  destruct (popped_self w rest) as (Pq & Pt & _ & _ & _ & Pe & Pc).
  rewrite Pq in Sq. rewrite Pt in St. rewrite Pe in Se. rewrite Pc in Sc.
  unfold loop_iter. rewrite Hb.
  destruct e; simpl; repeat split; try assumption; reflexivity.
Qed.

Lemma loop_registration_success_aux
    (w : World) (req : Request) (r : Response) (reg : Register) (rest : list Item)
    (tok : string) :
  queue (self w) = IRegister reg :: rest ->
  exchanges (loop_iter w) = (exchanges w ++ [(req, Resp r)])%list ->
  status_code r = 200 ->
  headers_get "Token" r = Some tok ->
  register_handler (self w) tok = None ->
  token (self (loop_iter w)) = Some tok /\
  queue (self (loop_iter w)) = rest /\
  server (self (loop_iter w)) = server (self w).
Proof.
  intros Hq Hx H200 Htok Hh.
  destruct (loop_iter_sent w req (Resp r) Hx)
    as (item' & rest' & srv & h & w1 & Hq' & _ & _ & _ & E1 & _ & _ & Hb).
  rewrite Hq in Hq'. injection Hq' as <- <-.
  destruct (make_headers_inv _ _ _ _ E1) as (S1 & _).
  destruct S1 as (_ & _ & _ & Ss & _ & _ & Sq & _ & _ & Sr & _).
  destruct (popped_self w rest) as (Pq & _ & Ps & _ & Pr & _).
  rewrite Pq in Sq. rewrite Pr in Sr. rewrite Ps in Ss.
  unfold handle, mbind, M_bind in Hb.
  rewrite (on_register_response_200 reg r _ H200), Htok in Hb. simpl in Hb.
  rewrite Sr, Hh in Hb.
  match type of Hb with context [after_exchange r ?w0] =>
    destruct (after_exchange_run r w0) as (w3 & E3 & As & _) end.
  rewrite E3 in Hb. simpl in *.
  destruct (loop_iter_body _ _ _ Hb) as (_ & _ & _ & _ & _ & _ & Iw).
  rewrite (Iw tt eq_refl), As.
  destruct w1 as [[] ? ? ? ?]. simpl in *. repeat split; assumption.
Qed.

(** A registration poll answered 200 with a [Token] header, under a
    handler that returns: the token is stored, the handler is called once
    with it, the TOKEN and API flags end true and the poll is not put back
    on the queue. *)
Theorem loop_registration_success
    (w : World) (req : Request) (r : Response) (reg : Register) (rest : list Item)
    (tok : string) :
  queue (self w) = IRegister reg :: rest ->
  exchanges (loop_iter w) = (exchanges w ++ [(req, Resp r)])%list ->
  status_code r = 200 ->
  headers_get "Token" r = Some tok ->
  register_handler (self w) tok = None ->
  token (self (loop_iter w)) = Some tok /\
  queue (self (loop_iter w)) = rest /\
  calls (loop_iter w) = (calls w ++ [CRegisterHandler tok])%list /\
  TOKEN (errors (loop_iter w)) = true /\
  API (errors (loop_iter w)) = true.
Proof.
  intros Hq Hx H200 Htok Hh.
  destruct (loop_iter_sent w req (Resp r) Hx)
    as (item' & rest' & srv & h & w1 & Hq' & _ & _ & _ & E1 & _ & _ & Hb).
  rewrite Hq in Hq'. injection Hq' as <- <-.
  destruct (make_headers_inv _ _ _ _ E1) as (S1 & _).
  destruct S1 as (_ & _ & _ & _ & _ & _ & Sq & _ & _ & Sr & Se & _ & Sc).
  destruct (popped_self w rest) as (Pq & _ & _ & _ & Pr & Pe & Pc).
  rewrite Pq in Sq. rewrite Pr in Sr. rewrite Pe in Se. rewrite Pc in Sc.
  unfold handle, mbind, M_bind in Hb.
  rewrite (on_register_response_200 reg r _ H200), Htok in Hb. simpl in Hb.
  rewrite Sr, Hh in Hb.
  match type of Hb with context [after_exchange r ?w0] =>
    destruct (after_exchange_run r w0) as (w3 & E3 & As & _ & _ & Ac & Aa & At & Ah & Ai) end.
  rewrite E3 in Hb. simpl in *.
  destruct (loop_iter_body _ _ _ Hb) as (_ & _ & _ & _ & _ & _ & Iw).
  rewrite (Iw tt eq_refl), As, Ac, Aa, At, H200, Sc.
  destruct w1 as [[] ? ? ? ?]. simpl in *. repeat split; assumption.
Qed.

(** A registration poll answered 200 that cannot be completed is lost,
    for it is never put back on the queue. Without a [Token] header the
    token and the handler are left alone and the INTERNET flag ends false.
    With a header but a handler that raises, the token is stored all the
    same, the handler has been called once, and the flag that the
    [except] clause writes ends false: TRANSPORT for a [ConnectionError],
    INTERNET for any other failure; for [queue.Empty] the last flag
    written is TOKEN, which ends true. *)
Theorem loop_registration_lost
    (w : World) (req : Request) (r : Response) (reg : Register) (rest : list Item) :
  queue (self w) = IRegister reg :: rest ->
  exchanges (loop_iter w) = (exchanges w ++ [(req, Resp r)])%list ->
  status_code r = 200 ->
  (headers_get "Token" r = None ->
   queue (self (loop_iter w)) = rest /\
   token (self (loop_iter w)) = token (self w) /\
   calls (loop_iter w) = calls w /\
   INTERNET (errors (loop_iter w)) = false) /\
  (forall tok e,
     headers_get "Token" r = Some tok ->
     register_handler (self w) tok = Some e ->
     queue (self (loop_iter w)) = rest /\
     token (self (loop_iter w)) = Some tok /\
     calls (loop_iter w) = (calls w ++ [CRegisterHandler tok])%list /\
     match e with
     | Empty => TOKEN (errors (loop_iter w)) = true
     | ConnectionError _ => HTTP (errors (loop_iter w)) = false
     | RequestException _ | Exception _ => INTERNET (errors (loop_iter w)) = false
     end).
Proof.
  intros Hq Hx H200.
  destruct (loop_iter_sent w req (Resp r) Hx)
    as (item' & rest' & srv & h & w1 & Hq' & _ & _ & _ & E1 & _ & _ & Hb).
  rewrite Hq in Hq'. injection Hq' as <- <-.
  destruct (make_headers_inv _ _ _ _ E1) as (S1 & _).
  destruct S1 as (_ & _ & _ & _ & St & _ & Sq & _ & _ & Sr & Se & _ & Sc).
  destruct (popped_self w rest) as (Pq & Pt & _ & _ & Pr & Pe & Pc).
  rewrite Pq in Sq. rewrite Pt in St. rewrite Pr in Sr. rewrite Pe in Se.
  rewrite Pc in Sc.
  unfold handle, mbind, M_bind in Hb.
  rewrite (on_register_response_200 reg r _ H200) in Hb. split.
  - intros Htok. rewrite Htok in Hb. unfold loop_iter. rewrite Hb. simpl.
    repeat split; assumption.
  - intros tok e Htok Hh. rewrite Htok in Hb. simpl in Hb. rewrite Sr, Hh in Hb.
    unfold loop_iter. rewrite Hb.
    destruct w1 as [[] ? ? ? ?]. simpl in *. subst.
    destruct e; simpl; repeat split.
Qed.

(** Every request of the loop carries the fingerprint, the token when one
    is set, and the item's own timestamp when it is not zero; a sample
    goes by POST to the telemetry endpoint and an event by POST to the
    events endpoint, each as the body of its request, and a registration
    poll goes by GET to the registration endpoint with its code and no
    body. The answer on record is the session's answer to that request. *)
Theorem loop_request_content
    (w : World) (req : Request) (out : HttpResult) (item : Item) (rest : list Item)
    (srv : string) :
  queue (self w) = item :: rest ->
  server (self w) = Some srv ->
  exchanges (loop_iter w) = (exchanges w ++ [(req, out)])%list ->
  out = conn (length (exchanges w)) req /\
  h_Fingerprint (req_headers req) = __fingerprint (self w) /\
  h_Token (req_headers req) =
    (if truthy_str (token (self w)) then token (self w) else None) /\
  (truthy_float (timestamp_of item) = true ->
   Some (h_Timestamp (req_headers req)) = timestamp_of item) /\
  match item with
  | ITelemetry _ =>
      method req = POST /\ url req = srv +:+ "/p/telemetry" /\
      json req = Some item /\ h_Temporary_Code (req_headers req) = None
  | IEvent _ =>
      method req = POST /\ url req = srv +:+ "/p/events" /\
      json req = Some item /\ h_Temporary_Code (req_headers req) = None
  | IRegister reg =>
      method req = GET /\ url req = srv +:+ "/p/register" /\
      json req = None /\ h_Temporary_Code (req_headers req) = Some (code reg)
  end.
Proof.
  intros Hq Hs Hx.
  destruct (loop_iter_sent w req out Hx)
    as (item' & rest' & srv' & h & w1 & Hq' & Hs' & _ & _ & E1 & -> & Hout & _).
  rewrite Hq in Hq'. injection Hq' as <- <-.
  rewrite Hs in Hs'. injection Hs' as <-.
  destruct (make_headers_inv _ _ _ _ E1) as (_ & Hf & Ht & Hc & Hts).
  destruct (popped_self w rest) as (_ & Pt & _ & Pf & _).
  rewrite Pf in Hf. rewrite Pt in Ht.
  split; [exact Hout|].
  destruct item; simpl in *; repeat split; assumption.
Qed.

(** One iteration on an event, with a server and a token: one request for
    it, whatever the outcome, and the printer otherwise as it was. *)
Lemma loop_iter_event (w : World) (ev : Event) (rest : list Item) (srv : string) :
  queue (self w) = IEvent ev :: rest ->
  server (self w) = Some srv -> srv <> "" ->
  truthy_str (token (self w)) = true ->
  exists req out,
    exchanges (loop_iter w) = (exchanges w ++ [(req, out)])%list /\
    method req = POST /\ url req = srv +:+ "/p/events" /\ json req = Some (IEvent ev) /\
    queue (self (loop_iter w)) = rest /\
    server (self (loop_iter w)) = Some srv /\
    token (self (loop_iter w)) = token (self w) /\
    calls (loop_iter w) = calls w.
Proof.
  intros Hq Hs Hne Htok.
  destruct (loop_body_exchange w (IEvent ev) rest srv Hq Hs Hne (or_intror Htok))
    as (h & w1 & E1 & Hb).
  destruct (make_headers_inv _ _ _ _ E1) as (S1 & _).
  destruct S1 as (_ & _ & _ & Ss & St & _ & Sq & _ & _ & _ & _ & Sx & Sc).
  destruct (popped_self w rest) as (Pq & Pt & Ps & _ & _ & _ & Pc).
  rewrite Pq in Sq. rewrite Pt in St. rewrite Ps, Hs in Ss. rewrite Pc in Sc.
  simpl in Sx.
  exists (request_for srv (IEvent ev) h),
         (conn (length (exchanges w)) (request_for srv (IEvent ev) h)).
  destruct (conn (length (exchanges w)) (request_for srv (IEvent ev) h)) as [r|e].
  - unfold handle, mbind, M_bind, mret, M_ret in Hb.
    match type of Hb with context [after_exchange r ?w0] =>
      destruct (after_exchange_run r w0) as (w3 & E3 & As & _ & Ax & Ac & _) end.
    rewrite E3 in Hb.
    destruct (loop_iter_body _ _ _ Hb) as (_ & _ & _ & _ & _ & _ & Iw).
    rewrite (Iw tt eq_refl), As, Ax, Ac. simpl. rewrite Sx.
    repeat split; assumption.
  - destruct (loop_iter_body _ _ _ Hb) as (Is & Ix & Ic & _).
    rewrite Is, Ix, Ic. simpl. rewrite Sx. repeat split; assumption.
Qed.

(** Events leave in the order they were queued, each exactly once: with
    a server and a token, as many iterations as there are events on the
    queue make one POST to the events endpoint per event, in queue order,
    whatever the session answers or raises (a failed event is not sent
    again), and leave the queue empty. *)
Theorem loop_sends_events_in_order (evs : list Event) (w : World) (srv : string) :
  queue (self w) = map IEvent evs ->
  server (self w) = Some srv -> srv <> "" ->
  truthy_str (token (self w)) = true ->
  exists xs,
    exchanges (loop (repeat [] (length evs)) w) = (exchanges w ++ xs)%list /\
    map (fun x => json (fst x)) xs = map (fun e => Some (IEvent e)) evs /\
    Forall (fun x => method (fst x) = POST /\ url (fst x) = srv +:+ "/p/events") xs /\
    queue (self (loop (repeat [] (length evs)) w)) = [] /\
    calls (loop (repeat [] (length evs)) w) = calls w.
Proof.
  intros Hq Hs Hne Htok. revert w Hq Hs Htok.
  induction evs as [|ev evs IH]; intros w Hq Hs Htok.
  - exists []. simpl in *. rewrite app_nil_r. repeat split; [constructor | exact Hq].
  - simpl in Hq. simpl.
    assert (Hp : put_all [] w = w).
    { destruct_world w. unfold put_all, with_self. simpl.
      rewrite app_nil_r. reflexivity. }
    rewrite Hp.
    destruct (loop_iter_event w ev (map IEvent evs) srv Hq Hs Hne Htok)
      as (req & out & Hx & Hm & Hu & Hj & Hq1 & Hs1 & Ht1 & Hc1).
    rewrite <- Ht1 in Htok.
    destruct (IH _ Hq1 Hs1 Htok) as (xs & Ix & Ij & Im & Iq & Ic).
    exists ((req, out) :: xs). repeat split.
    + rewrite Ix, Hx, <- app_assoc. reflexivity.
    + simpl. rewrite Hj, Ij. reflexivity.
    + constructor; [split; assumption | exact Im].
    + exact Iq.
    + congruence.
Qed.

(** Registration and then telemetry: when the poll at the head of the
    queue is answered 200 with a non-empty token and the handler returns,
    the sample queued behind it is posted by the next iteration to the
    telemetry endpoint with that token in its [Token] header. *)
Theorem loop_registration_then_telemetry
    (w : World) (reg : Register) (t : Telemetry) (rest : list Item) (srv tok : string)
    (r : Response) :
  queue (self w) = IRegister reg :: ITelemetry t :: rest ->
  server (self w) = Some srv -> srv <> "" ->
  (forall req, conn (length (exchanges w)) req = Resp r) ->
  status_code r = 200 ->
  headers_get "Token" r = Some tok -> tok <> "" ->
  register_handler (self w) tok = None ->
  exists req1 req2 out2,
    exchanges (loop [[]; []] w) = (exchanges w ++ [(req1, Resp r); (req2, out2)])%list /\
    method req1 = GET /\ url req1 = srv +:+ "/p/register" /\
    method req2 = POST /\ url req2 = srv +:+ "/p/telemetry" /\
    json req2 = Some (ITelemetry t) /\
    h_Token (req_headers req2) = Some tok.
Proof.
  intros Hq Hs Hne Hconn H200 Htok Htne Hh.
  assert (Hp : forall v : World, put_all [] v = v).
  { intros v. destruct_world v. unfold put_all, with_self. simpl.
    rewrite app_nil_r. reflexivity. }
  simpl. rewrite !Hp.
  (* the poll *)
  destruct (loop_body_exchange w (IRegister reg) (ITelemetry t :: rest) srv Hq Hs Hne
              (or_introl eq_refl)) as (h & w1 & E1 & Hb).
  rewrite Hconn in Hb.
  assert (Hx1 : exchanges (loop_iter w)
                = (exchanges w ++ [(request_for srv (IRegister reg) h, Resp r)])%list).
  { destruct (make_headers_inv _ _ _ _ E1) as (S1 & _).
    destruct S1 as (_ & _ & _ & _ & _ & _ & _ & _ & _ & Sr & _ & Sx & _).
    destruct (popped_self w (ITelemetry t :: rest)) as (_ & _ & _ & _ & Pr & _).
    rewrite Pr in Sr. simpl in Sx.
    unfold handle, mbind, M_bind in Hb.
    rewrite (on_register_response_200 reg r _ H200), Htok in Hb. simpl in Hb.
    rewrite Sr, Hh in Hb.
    match type of Hb with context [after_exchange r ?w0] =>
      destruct (after_exchange_run r w0) as (w3 & E3 & _ & _ & Ax & _) end.
    rewrite E3 in Hb.
    destruct (loop_iter_body _ _ _ Hb) as (_ & Ix & _).
    rewrite Ix, Ax. simpl. rewrite Sx. reflexivity. }
  destruct (loop_registration_success_aux w _ r reg (ITelemetry t :: rest) tok
              Hq Hx1 H200 Htok Hh) as (Tt & Tq & Ts).
  (* the sample *)
  assert (Htok2 : truthy_str (token (self (loop_iter w))) = true).
  { rewrite Tt. simpl. apply String.eqb_neq in Htne. rewrite Htne. reflexivity. }
  rewrite Hs in Ts.
  destruct (loop_body_exchange (loop_iter w) (ITelemetry t) rest srv Tq Ts Hne
              (or_intror Htok2)) as (h2 & w2 & E2 & Hb2).
  destruct (make_headers_inv _ _ _ _ E2) as (S2 & _ & Ht2 & _).
  destruct (popped_self (loop_iter w) rest) as (_ & Pt & _).
  rewrite Pt, Htok2, Tt in Ht2.
  destruct S2 as (_ & _ & _ & _ & _ & _ & _ & _ & _ & _ & _ & Sx2 & _). simpl in Sx2.
  exists (request_for srv (IRegister reg) h), (request_for srv (ITelemetry t) h2),
         (conn (length (exchanges (loop_iter w))) (request_for srv (ITelemetry t) h2)).
  split; [|repeat split; assumption].
  destruct (conn (length (exchanges (loop_iter w))) (request_for srv (ITelemetry t) h2))
    as [r2|e2].
  - destruct (handle_run (ITelemetry t) r2
                (with_exchange (request_for srv (ITelemetry t) h2, Resp r2) w2))
      as (o3 & w3 & E3 & X3 & _).
    unfold mbind, M_bind in Hb2. rewrite E3 in Hb2.
    assert (Ho3 : o3 = inr tt).
    { unfold handle, mbind, M_bind in E3.
      destruct (parse_command_run r2
                  (with_exchange (request_for srv (ITelemetry t) h2, Resp r2) w2))
        as (w' & l & E & _).
      rewrite E in E3. injection E3 as <- _. reflexivity. }
    subst o3.
    destruct (after_exchange_run r2 w3) as (w4 & E4 & _ & _ & X4 & _).
    rewrite E4 in Hb2.
    destruct (loop_iter_body _ _ _ Hb2) as (_ & Ix & _).
    rewrite Ix, X4, X3. simpl. rewrite Sx2, Hx1, <- app_assoc. reflexivity.
  - destruct (loop_iter_body _ _ _ Hb2) as (_ & Ix & _).
    rewrite Ix. simpl. rewrite Sx2, Hx1, <- app_assoc. reflexivity.
Qed.

(** ** Identity and registration, composed *)

(** Setting the three identity fields of a printer that has none, to
    non-empty strings and a type, succeeds and initialises it:
    [is_initialised] then returns [True] without touching a flag, and
    each of the three setters raises from then on. *)
Theorem identity_setters_initialise
    (w : World) (s f : string) (t : PrinterType) :
  __sn (self w) = None -> __fingerprint (self w) = None -> __type (self w) = None ->
  s <> "" -> f <> "" ->
  exists w',
    (sn_setter (Some s) ≫= fun _ =>
     fingerprint_setter (Some f) ≫= fun _ =>
     type_setter (Some t) ≫= fun _ => is_initialised) w = (inr true, w') /\
    errors w' = errors w /\
    (forall v, exists e, sn_setter v w' = (inl e, w')) /\
    (forall v, exists e, fingerprint_setter v w' = (inl e, w')) /\
    (forall v, exists e, type_setter v w' = (inl e, w')).
Proof.
  intros Hs Hf Ht Hsne Hfne.
  apply String.eqb_neq in Hsne. apply String.eqb_neq in Hfne.
  unfold sn_setter, fingerprint_setter, type_setter, is_initialised. run.
  destruct_world w. subst. simpl. rewrite Hsne, Hfne. simpl.
  eexists. split; [reflexivity|]. simpl. repeat split; intros; eexists; reflexivity.
Qed.

(** [get_token] makes exactly one request when a server is set, a GET to
    its registration endpoint that carries the temporary code, and
    returns what the session returns or raises; with no server it raises
    at once, without a request and without reading the clock. *)
Theorem get_token_request (tmp_code : string) (w : World) :
  (truthy_str (server (self w)) = false ->
   get_token tmp_code w = (inl (Exception "Server is not set"), w)) /\
  (forall srv, server (self w) = Some srv -> srv <> "" ->
     exists req w',
       exchanges w' = (exchanges w ++ [(req, conn (length (exchanges w)) req)])%list /\
       method req = GET /\ url req = srv +:+ "/p/register" /\ json req = None /\
       h_Temporary_Code (req_headers req) = Some tmp_code /\
       get_token tmp_code w =
         (match conn (length (exchanges w)) req with
          | Resp r => inr r
          | Raise e => inl e
          end, w')).
Proof.
  split.
  - intros Hs. unfold get_token, truthy_str in *. run.
    destruct (server (self w)) as [srv|]; [|reflexivity].
    destruct (srv =? "")%string; [reflexivity | discriminate].
  - intros srv Hs Hne. apply String.eqb_neq in Hne.
    destruct (make_headers_run None w) as (h & w1 & E1 & S1 & _).
    destruct S1 as (_ & _ & _ & _ & _ & _ & _ & _ & _ & _ & _ & Sx & _).
    set (req := {| method := GET; url := srv +:+ "/p/register";
                   req_headers :=
                     {| h_Fingerprint := h_Fingerprint h; h_Timestamp := h_Timestamp h;
                        h_Token := h_Token h; h_Clock_Adjusted := h_Clock_Adjusted h;
                        h_Temporary_Code := Some tmp_code |};
                   json := None; req_timeout := CONNECTION_TIMEOUT |}).
    exists req, (with_exchange (req, conn (length (exchanges w)) req) w1).
    split; [simpl; rewrite Sx; reflexivity|].
    do 4 (split; [reflexivity|]).
    unfold get_token. run. rewrite Hs, Hne, E1.
    unfold conn_get, conn_request, with_exchange. rewrite Sx. fold req.
    destruct (conn (length (exchanges w)) req); reflexivity.
Qed.

(** ** The server URL *)

Lemma string_app_inv_head (a b c : string) : a +:+ b = a +:+ c -> b = c.
Proof. apply (inj (String.app a)). Qed.

Lemma string_app_nil_r (a : string) : a +:+ "" = a.
Proof.
  induction a as [|ch a IH]; [reflexivity|].
  change (String ch (a +:+ "") = String ch a). f_equal. exact IH.
Qed.

Lemma string_app_assoc (a b c : string) : a +:+ (b +:+ c) = (a +:+ b) +:+ c.
Proof.
  induction a as [|ch a IH]; [reflexivity|].
  change (String ch (a +:+ (b +:+ c)) = String ch ((a +:+ b) +:+ c)).
  f_equal. exact IH.
Qed.

Lemma str_int_inj (p q : Z) : str_int p = str_int q -> p = q.
Proof.
  unfold str_int. intros Heq.
  apply (f_equal NilEmpty.int_of_string) in Heq.
  rewrite !NilEmpty.isi in Heq. injection Heq as Heq.
  apply (f_equal Z.of_int) in Heq. rewrite !DecimalZ.of_to in Heq. exact Heq.
Qed.

(** For one host, [connect_url] tells all settings apart: two URLs are
    equal only when the scheme flags and the ports are equal. In
    particular port [0] is the only port left out of the URL. *)
Theorem connect_url_injective (host : string) (tls tls' : bool) (port port' : Z) :
  connect_url host tls port = connect_url host tls' port' ->
  tls = tls' /\ port = port'.
Proof.
  unfold connect_url. intros Heq.
  assert (Ht : tls = tls').
  { destruct tls, tls'; try reflexivity;
      destruct (port =? 0), (port' =? 0); simpl negb in Heq; cbv iota in Heq;
      cbv [String.append] in Heq; discriminate. }
  subst tls'. split; [reflexivity|].
  destruct (Z.eqb_spec port 0) as [Hp|Hp]; destruct (Z.eqb_spec port' 0) as [Hq|Hq];
    simpl negb in Heq; cbv iota in Heq; apply string_app_inv_head in Heq.
  - congruence.
  - rewrite <- (string_app_nil_r host) in Heq at 1.
    do 2 apply string_app_inv_head in Heq. discriminate.
  - rewrite <- (string_app_nil_r host) in Heq at 2.
    do 2 apply string_app_inv_head in Heq. discriminate.
  - do 2 apply string_app_inv_head in Heq. injection Heq as Heq.
    apply str_int_inj. exact Heq.
Qed.
End Properties.

(** * Properties of the camera driver base class *)

Section CameraProperties.
Context `{camera_driver.DriverClass}.
Import camera_driver.

Lemma is_config_valid_true (config : Config) :
  is_config_valid config = inr true <-> get_required_settings ⊆ dom config.
Proof.
  unfold is_config_valid. destruct (decide (get_required_settings ∖ dom config = ∅))
    as [He|Hne].
  - split; [|reflexivity]. intros _ k Hk.
    destruct (decide (k ∈ dom config)) as [Hin|Hout]; [exact Hin|].
    assert (Hd : k ∈ get_required_settings ∖ dom config)
      by (apply elem_of_difference; split; assumption).
    rewrite He in Hd. destruct (not_elem_of_empty (C:=gset string) k Hd).
  - split.
    + destruct name; discriminate.
    + intros Hsub. destruct Hne. apply leibniz_equiv, elem_of_equiv_empty.
      intros k Hk. apply elem_of_difference in Hk as [Hk Hout]. auto.
Qed.

(** A config is valid exactly when every setting that is always required
    or that the driver requires is one of its keys; the values play no
    part. Hence a valid config stays valid when an entry is added or
    overwritten, and [set_name] stores the name and keeps a valid config
    valid, with every other entry as it was. *)
Theorem config_validity_by_keys (config : Config) :
  (is_config_valid config = inr true <->
   forall k, k ∈ ALWAYS_REQURIED \/ is_Some (REQUIRES_SETTINGS !! k) ->
             is_Some (config !! k)) /\
  (is_config_valid config = inr true ->
   forall k v, is_config_valid (<[k := v]> config) = inr true) /\
  (forall d new_name,
     _config (set_name new_name d) !! "name" = Some new_name /\
     (forall k, k <> "name" -> _config (set_name new_name d) !! k = _config d !! k) /\
     (is_config_valid (_config d) = inr true ->
      is_config_valid (_config (set_name new_name d)) = inr true)).
Proof.
  assert (Hgrow : forall c k v, is_config_valid c = inr true ->
                                is_config_valid (<[k := v]> c) = inr true).
  { intros c k v Hv. apply is_config_valid_true. apply is_config_valid_true in Hv.
    rewrite dom_insert_L. intros x Hx. apply elem_of_union. right. auto. }
  split; [|split].
  - rewrite is_config_valid_true. unfold get_required_settings. split.
    + intros Hsub k Hk. apply elem_of_dom. apply Hsub.
      apply elem_of_union. destruct Hk as [Hk|Hk]; [left; exact Hk|].
      right. apply elem_of_dom. exact Hk.
    + intros Hall k Hk. apply elem_of_dom. apply Hall.
      apply elem_of_union in Hk as [Hk|Hk]; [left; exact Hk|].
      right. apply elem_of_dom. exact Hk.
  - intros Hv k v. apply Hgrow. exact Hv.
  - intros d new_name. simpl. split; [apply lookup_insert_eq|]. split.
    + intros k Hk. apply lookup_insert_ne. congruence.
    + apply Hgrow.
Qed.

Lemma scan_from_sound (rest : list (string * Config)) :
  forall (done : list (string * Config)) (acc valid : gmap string Config),
    scanned_from done acc ->
    scan_from rest acc = inr valid ->
    scanned_from (done ++ rest) valid.
Proof.
  induction rest as [|[pid c0] rest IH]; intros done acc valid Hacc Hscan.
  - simpl in Hscan. injection Hscan as <-. rewrite app_nil_r. exact Hacc.
  - simpl in Hscan.
    destruct (hash_id pid) as [e|id] eqn:Hid; [discriminate|].
    assert (Hmono : scanned_from (done ++ [(pid, c0)]) acc).
    { intros id' c' Hl. destruct (Hacc id' c' Hl) as (V & D & p' & c0' & Hin & Hrest).
      repeat split; try assumption. exists p', c0'. split; [|exact Hrest].
      apply in_or_app. left. exact Hin. }
    replace (done ++ (pid, c0) :: rest)%list
      with ((done ++ [(pid, c0)]) ++ rest)%list
      by (rewrite <- app_assoc; reflexivity).
    set (filled := if decide ("driver" ∈ dom c0) then inr c0
                   else match name with
                        | Some n => inr (<["driver" := n]> c0)
                        | None => inl AttributeError
                        end) in *.
    destruct filled as [e|c] eqn:Hfill; [discriminate|].
    destruct (is_config_valid c) as [e|[|]] eqn:Hvalid; [discriminate| |].
    + apply (IH (done ++ [(pid, c0)])%list (<[id := c]> acc) valid); [|exact Hscan].
      intros id' c' Hl. destruct (decide (id = id')) as [<-|Hne].
      * rewrite lookup_insert_eq in Hl. injection Hl as <-.
        subst filled.
        assert (Hc : (forall k, k <> "driver" -> c !! k = c0 !! k) /\
                     c !! "driver" = match c0 !! "driver" with
                                     | Some v => Some v
                                     | None => name
                                     end /\
                     is_Some (c !! "driver")).
        { destruct (decide ("driver" ∈ dom c0)) as [Hd|Hd].
          - injection Hfill as <-. apply elem_of_dom in Hd as [v Hv].
            rewrite Hv. repeat split; eauto.
          - apply not_elem_of_dom in Hd. rewrite Hd.
            destruct name as [n|]; [|discriminate]. injection Hfill as <-.
            split; [|split].
            + intros k Hk. apply lookup_insert_ne. congruence.
            + apply lookup_insert_eq.
            + rewrite lookup_insert_eq. eauto. }
        destruct Hc as (Hk & Hd & Hs).
        split; [exact Hvalid|]. split; [exact Hs|].
        exists pid, c0. split; [apply in_or_app; right; left; reflexivity|].
        repeat split; assumption.
      * rewrite lookup_insert_ne in Hl by exact Hne. apply Hmono. exact Hl.
    + apply (IH _ _ _ Hmono Hscan).
Qed.

(** Every config that [scan] returns is valid and names a driver, and it
    is a scanned config, stored under the hash of its plain id, with
    nothing changed but the driver filled in where none was given. *)
Theorem scan_returns_valid_configs
    (valid : gmap string Config) (id : string) (c : Config) :
  scan = inr valid ->
  valid !! id = Some c ->
  is_config_valid c = inr true /\
  is_Some (c !! "driver") /\
  exists plaintext_id c0,
    In (plaintext_id, c0) _scan /\
    hash_id plaintext_id = inr id /\
    (forall k, k <> "driver" -> c !! k = c0 !! k) /\
    (c !! "driver" = match c0 !! "driver" with Some v => Some v | None => name end).
Proof.
  intros Hscan Hl.
  assert (H0 : scanned_from [] ∅).
  { intros id' c' Hl'. rewrite lookup_empty in Hl'. discriminate. }
  exact (scan_from_sound _scan [] ∅ valid H0 Hscan id c Hl).
Qed.

(** For a driver class with a name, what [scan] returns can be used to
    instance the driver as it is: [__init__] accepts each returned config
    under its id, and the new driver is disconnected and has no photo. *)
Theorem scan_configs_instance_driver
    (valid : gmap string Config) (id : string) (c : Config) :
  is_Some name ->
  scan = inr valid ->
  valid !! id = Some c ->
  init id c =
    inr {| _camera_id := id; _config := c; _connected := false;
           _last_photo := None; _last_photo_timestamp := None |}.
Proof.
  intros [n Hn] Hscan Hl.
  assert (H0 : scanned_from [] ∅).
  { intros id' c' Hl'. rewrite lookup_empty in Hl'. discriminate. }
  destruct (scan_from_sound _scan [] ∅ valid H0 Hscan id c Hl) as (Hv & _).
  unfold init. rewrite Hn, Hv. reflexivity.
Qed.

Lemma filled_valid (n : string) (c0 : Config) :
  name = Some n ->
  exists c,
    (if decide ("driver" ∈ dom c0) then inr c0
     else match name with
          | Some n => inr (<["driver" := n]> c0)
          | None => inl AttributeError
          end) = inr c /\
    exists b, is_config_valid c = inr b /\
      (b = true <->
       forall k, k ∈ get_required_settings -> k = "driver" \/ is_Some (c0 !! k)).
Proof.
  intros Hn. rewrite Hn.
  assert (Hb : forall c, exists b, is_config_valid c = inr b /\
                                   (b = true <-> get_required_settings ⊆ dom c)).
  { intros c. destruct (is_config_valid c) as [e|b] eqn:Hv.
    - unfold is_config_valid in Hv. rewrite Hn in Hv.
      destruct (decide _); discriminate.
    - exists b. split; [reflexivity|]. rewrite <- is_config_valid_true, Hv.
      split; congruence. }
  destruct (decide ("driver" ∈ dom c0)) as [Hd|Hd].
  - exists c0. split; [reflexivity|]. destruct (Hb c0) as (b & Hv & Hiff).
    exists b. split; [exact Hv|]. rewrite Hiff. split.
    + intros Hsub k Hk. right. apply elem_of_dom. auto.
    + intros Hall k Hk. destruct (Hall k Hk) as [->|Hs]; [exact Hd|].
      apply elem_of_dom. exact Hs.
  - exists (<["driver" := n]> c0). split; [reflexivity|].
    destruct (Hb (<["driver" := n]> c0)) as (b & Hv & Hiff).
    exists b. split; [exact Hv|]. rewrite Hiff, dom_insert_L. split.
    + intros Hsub k Hk. apply Hsub in Hk. apply elem_of_union in Hk as [Hk|Hk].
      * left. apply elem_of_singleton in Hk. exact Hk.
      * right. apply elem_of_dom. exact Hk.
    + intros Hall k Hk. apply elem_of_union. destruct (Hall k Hk) as [->|Hs].
      * left. apply elem_of_singleton. reflexivity.
      * right. apply elem_of_dom. exact Hs.
Qed.

Lemma scan_from_complete (n : string) (rest : list (string * Config)) :
  name = Some n ->
  Forall (fun x => is_ascii (fst x) = true) rest ->
  forall acc : gmap string Config,
  exists valid,
    scan_from rest acc = inr valid /\
    forall id,
      is_Some (valid !! id) <->
      is_Some (acc !! id) \/
      exists plaintext_id c0,
        In (plaintext_id, c0) rest /\ digest plaintext_id = id /\
        forall k, k ∈ get_required_settings -> k = "driver" \/ is_Some (c0 !! k).
Proof.
  intros Hn Hascii. induction Hascii as [|[pid c0] rest Hpid Hrest IH]; intros acc.
  - exists acc. split; [reflexivity|]. intros id. split; [auto|].
    intros [Hs|(p & c & [] & _)]. exact Hs.
  - simpl in Hpid. simpl. unfold hash_id. rewrite Hpid.
    destruct (filled_valid n c0 Hn) as (c & -> & b & -> & Hb).
    destruct b.
    + destruct (IH (<[digest pid := c]> acc)) as (valid & Hscan & Hiff).
      exists valid. split; [exact Hscan|]. intros id. rewrite Hiff. split.
      * intros [Hs|(p & c' & Hin & Hd & Hk)].
        -- destruct (decide (digest pid = id)) as [<-|Hne].
           ++ right. exists pid, c0. split; [left; reflexivity|].
              split; [reflexivity|]. apply Hb. reflexivity.
           ++ left. rewrite lookup_insert_ne in Hs by exact Hne. exact Hs.
        -- right. exists p, c'. split; [right; exact Hin|]. split; assumption.
      * intros [Hs|(p & c' & [[= <- <-]|Hin] & Hd & Hk)].
        -- left. destruct (decide (digest pid = id)) as [<-|Hne].
           ++ rewrite lookup_insert_eq. eauto.
           ++ rewrite lookup_insert_ne by exact Hne. exact Hs.
        -- left. rewrite <- Hd, lookup_insert_eq. eauto.
        -- right. exists p, c'. repeat split; assumption.
    + destruct (IH acc) as (valid & Hscan & Hiff).
      exists valid. split; [exact Hscan|]. intros id. rewrite Hiff. split.
      * intros [Hs|(p & c' & Hin & Hd & Hk)]; [left; exact Hs|].
        right. exists p, c'. split; [right; exact Hin|]. split; assumption.
      * intros [Hs|(p & c' & [[= <- <-]|Hin] & Hd & Hk)].
        -- left. exact Hs.
        -- apply Hb in Hk. discriminate.
        -- right. exists p, c'. repeat split; assumption.
Qed.

(** For a driver class with a name whose scanned ids are all ASCII,
    [scan] returns, and it lists a camera id exactly when some scanned
    entry hashes to it and has every required setting among its keys,
    ["driver"] aside, which the base class fills in. *)
Theorem scan_lists_complete_configs (n : string) :
  name = Some n ->
  Forall (fun x => is_ascii (fst x) = true) _scan ->
  exists valid,
    scan = inr valid /\
    forall id,
      is_Some (valid !! id) <->
      exists plaintext_id c0,
        In (plaintext_id, c0) _scan /\ digest plaintext_id = id /\
        forall k, k ∈ ALWAYS_REQURIED \/ is_Some (REQUIRES_SETTINGS !! k) ->
                  k = "driver" \/ is_Some (c0 !! k).
Proof.
  intros Hn Hascii.
  destruct (scan_from_complete n _scan Hn Hascii ∅) as (valid & Hscan & Hiff).
  exists valid. split; [exact Hscan|]. intros id. rewrite Hiff. split.
  - intros [[c Hc]|(p & c0 & Hin & Hd & Hk)].
    + rewrite lookup_empty in Hc. discriminate.
    + exists p, c0. repeat split; try assumption. intros k Hr. apply Hk.
      unfold get_required_settings. apply elem_of_union.
      destruct Hr as [Hr|Hr]; [left; exact Hr | right; apply elem_of_dom; exact Hr].
  - intros (p & c0 & Hin & Hd & Hk). right. exists p, c0.
    repeat split; try assumption. intros k Hr. apply Hk.
    unfold get_required_settings in Hr. apply elem_of_union in Hr as [Hr|Hr];
      [left; exact Hr | right; apply elem_of_dom; exact Hr].
Qed.

(** If any scanned id is not ASCII, [scan] raises, whatever else was
    scanned and wherever the id stands: it returns no listing. *)
Theorem scan_non_ascii_id_raises (plaintext_id : string) (c0 : Config) :
  In (plaintext_id, c0) _scan ->
  is_ascii plaintext_id = false ->
  exists e, scan = inl e.
Proof.
  intros Hin Hna. unfold scan. generalize (∅ : gmap string Config).
  induction _scan as [|[pid c] rest IH]; intros acc; [destruct Hin|].
  simpl. destruct Hin as [[= -> ->]|Hin].
  - unfold hash_id. rewrite Hna. eauto.
  - destruct (hash_id pid); [eauto|].
    destruct (if decide ("driver" ∈ dom c) then _ else _); [eauto|].
    destruct (is_config_valid _) as [e|[|]]; eauto.
Qed.

(** A photo that fails never replaces the last good one: the driver is
    marked disconnected, [disconnected_cb] is called once with it, and the
    last photo and its timestamp stay. A photo that succeeds is stored
    with the timestamp read, [photo_cb] is called once with it, and the
    connection state stays. In both cases the config and the id stay, and
    the outcome is that of the callback. *)
Theorem photo_taker_outcomes (now : Q) (d : CameraDriver) :
  (forall e, take_a_photo d = inl e ->
     exists d',
       _photo_taker now d =
         (match disconnected_cb d' with Some x => inl x | None => inr tt end,
          d', [DisconnectedCb d']) /\
       _connected d' = false /\
       _last_photo d' = _last_photo d /\
       _last_photo_timestamp d' = _last_photo_timestamp d /\
       _config d' = _config d /\ _camera_id d' = _camera_id d) /\
  (forall photo, take_a_photo d = inr photo ->
     exists d',
       _photo_taker now d =
         (match photo_cb photo with Some x => inl x | None => inr tt end,
          d', [PhotoCb photo]) /\
       _connected d' = _connected d /\
       _last_photo d' = Some photo /\
       _last_photo_timestamp d' = Some now /\
       _config d' = _config d /\ _camera_id d' = _camera_id d).
Proof.
  unfold _photo_taker, disconnect. split.
  - intros e He. rewrite He. eexists. split; [reflexivity|]. repeat split.
  - intros photo Hp. rewrite Hp. eexists. split; [reflexivity|]. repeat split.
Qed.

End CameraProperties.

(** * Worked examples *)



(** A 200 response without [Command-Id], and one with [Command-Id: 7]
    reaching a printer whose fingerprint was never set. *)
Lemma parse_command_rejects_before_parsing_witness :
  status_code Demo.no_command_id = 200 /\
  headers_get "Command-Id" Demo.no_command_id = None /\
  (exists w',
     parse_command Demo.no_command_id Demo.parsing = (inr Demo.no_command_id, w') /\
     calls w' =
       [CParseCommand Demo.no_command_id;
        CEventCb (rejected const.Source.CONNECT None "Invalid Command-Id header")]) /\
  status_code Demo.send_info = 200 /\
  headers_get "Command-Id" Demo.send_info = Some "7" /\
  initialised (self Demo.uninitialised) = false /\
  (exists w',
     parse_command Demo.send_info Demo.uninitialised = (inr Demo.send_info, w') /\
     calls w' =
       [CParseCommand Demo.send_info;
        CEventCb (rejected const.Source.WUI (Some 7) NOT_INITIALISED_MSG)]).
Proof.
  assert (H200 : status_code Demo.no_command_id = 200) by reflexivity.
  assert (Hid : headers_get "Command-Id" Demo.no_command_id = None)
    by (vm_compute; reflexivity).
  assert (H200' : status_code Demo.send_info = 200) by reflexivity.
  assert (Hid' : headers_get "Command-Id" Demo.send_info = Some "7")
    by (vm_compute; reflexivity).
  assert (Hi : initialised (self Demo.uninitialised) = false) by reflexivity.
  split; [exact H200|]. split; [exact Hid|]. split; [|split; [exact H200'|]].
  - destruct (parse_command_rejects_before_parsing Demo.parsing Demo.no_command_id H200)
      as [Hbad _].
    destruct (Hbad (or_introl Hid)) as (w' & E & C & _).
    exists w'. split; [exact E | exact C].
  - split; [exact Hid'|]. split; [exact Hi|].
    destruct (parse_command_rejects_before_parsing Demo.uninitialised Demo.send_info
                H200') as [_ Hun].
    destruct (Hun "7" 7 Hid' eq_refl Hi) as (w' & E & C & _).
    exists w'. split; [exact E | exact C].
Defined.

(** C3 fails as stated: the response has status 200, [Command-Id: 7] and
    content type [application/json], the printer is initialised and
    [check_state(7)] is true, yet [accept] is not called, because the
    body decodes to a list. *)
Lemma parse_command_json_list_counterexample :
  status_code Demo.json_list = 200 /\
  command_id_of (H:=Demo.idle) Demo.json_list = Some 7 /\
  initialised (self Demo.parsing) = true /\
  headers_get "content-type" Demo.json_list = Some "application/json" /\
  check_passes 7 Demo.parsing = true /\
  List.filter is_accept (calls (snd (parse_command Demo.json_list Demo.parsing))) = [].
Proof. vm_compute. repeat split. Qed.

(** The branches of the dispatch: a JSON command, a G-code command with
    [Force: 1], an HTML body, and a response without a content type. *)
Lemma parse_command_dispatch_witness :
  status_code Demo.send_info = 200 /\
  command_id_of (H:=Demo.idle) Demo.send_info = Some 7 /\
  initialised (self Demo.parsing) = true /\
  headers_get "content-type" Demo.send_info = Some "application/json" /\
  (exists w' l,
     parse_command Demo.send_info Demo.parsing = (inr Demo.send_info, w') /\
     calls w' = CParseCommand Demo.send_info :: l /\
     List.filter is_accept l =
       [CAccept {| a_command_id := 7; a_command := VStr "SEND_INFO"; a_args := VNone;
                   a_kwargs := Some VNone; a_force := None |}]) /\
  (exists w' l,
     parse_command Demo.gcode Demo.parsing = (inr Demo.gcode, w') /\
     calls w' = CParseCommand Demo.gcode :: l /\
     List.filter is_accept l =
       [CAccept {| a_command_id := 8; a_command := VStr "GCODE";
                   a_args := VList [VStr "G28"]; a_kwargs := None;
                   a_force := Some true |}]) /\
  (exists w',
     parse_command Demo.html Demo.parsing = (inr Demo.html, w') /\
     calls w' =
       [CParseCommand Demo.html;
        CEventCb (rejected const.Source.CONNECT (Some 9)
                    "Invalid command content type")]) /\
  (exists w',
     parse_command Demo.bare Demo.parsing = (inr Demo.bare, w') /\
     calls w' =
       [CParseCommand Demo.bare;
        CEventCb (rejected const.Source.CONNECT (Some 7)
                    "'NoneType' object has no attribute 'startswith'")]).
Proof.
  assert (H200 : status_code Demo.send_info = 200) by reflexivity.
  assert (Hid : command_id_of (H:=Demo.idle) Demo.send_info = Some 7)
    by (vm_compute; reflexivity).
  assert (Hi : initialised (self Demo.parsing) = true) by reflexivity.
  assert (Hct : headers_get "content-type" Demo.send_info = Some "application/json")
    by (vm_compute; reflexivity).
  do 4 (split; [assumption|]). split; [|split; [|split]].
  - destruct (parse_command_dispatch Demo.parsing Demo.send_info 7 H200 Hid Hi)
      as (w' & l & E & C & Hsome & _).
    destruct (Hsome _ Hct) as (Hj & _).
    destruct (Hj eq_refl) as [Hd _].
    exists w', l. split; [exact E|]. split; [exact C|].
    exact (Hd _ eq_refl).
  - assert (Hid8 : command_id_of (H:=Demo.idle) Demo.gcode = Some 8)
      by (vm_compute; reflexivity).
    assert (Hct8 : headers_get "content-type" Demo.gcode = Some "text/x.gcode")
      by (vm_compute; reflexivity).
    destruct (parse_command_dispatch Demo.parsing Demo.gcode 8 eq_refl Hid8 Hi)
      as (w' & l & E & C & Hsome & _).
    destruct (Hsome _ Hct8) as (_ & Hg & _).
    exists w', l. split; [exact E|]. split; [exact C|].
    rewrite (Hg eq_refl). vm_compute. reflexivity.
  - assert (Hid9 : command_id_of (H:=Demo.idle) Demo.html = Some 9)
      by (vm_compute; reflexivity).
    assert (Hct9 : headers_get "content-type" Demo.html = Some "text/html")
      by (vm_compute; reflexivity).
    destruct (parse_command_dispatch Demo.parsing Demo.html 9 eq_refl Hid9 Hi)
      as (w' & l & E & C & Hsome & _).
    destruct (Hsome _ Hct9) as (_ & _ & Ho).
    destruct Ho as (Hl & _); [reflexivity | discriminate |].
    exists w'. split; [exact E|]. rewrite C, Hl. reflexivity.
  - assert (Hid7 : command_id_of (H:=Demo.idle) Demo.bare = Some 7)
      by (vm_compute; reflexivity).
    destruct (parse_command_dispatch Demo.parsing Demo.bare 7 eq_refl Hid7 Hi)
      as (w' & l & E & C & _ & Hnone).
    destruct Hnone as (Hl & _); [vm_compute; reflexivity|].
    exists w'. split; [exact E|]. rewrite C, Hl. reflexivity.
Defined.

(** A poll created at clock reading 1000 has deadline 2800; answered 202
    at reading 1001 it is put back, while a poll with deadline 1000 is
    dropped. *)
Lemma register_poll_deadline_witness :
  (exists w', Register_init "CODE" (Demo.polling Demo.pending Demo.poll true)
              = (inr Demo.poll, w')) /\
  queue (self (loop_iter (Demo.polling Demo.pending Demo.poll true)))
  = [IRegister Demo.poll] /\
  queue (self (loop_iter (Demo.polling Demo.pending Demo.stale_poll true))) = [].
Proof.
  split; [|split].
  - destruct (register_poll_deadline (Demo.polling Demo.pending Demo.poll true))
      as [Hinit _].
    destruct (Hinit "CODE") as (w' & E & _). exists w'. exact E.
  - destruct (register_poll_deadline (Demo.polling Demo.pending Demo.poll true))
      as [_ Hloop].
    refine (proj1 (Hloop Demo.poll [] "http://connect" _ Demo.pending
                     eq_refl eq_refl _ _ eq_refl) _).
    + discriminate.
    + vm_compute. reflexivity.
    + vm_compute. reflexivity.
  - destruct (register_poll_deadline (Demo.polling Demo.pending Demo.stale_poll true))
      as [_ Hloop].
    refine (proj2 (Hloop Demo.stale_poll [] "http://connect" _ Demo.pending
                     eq_refl eq_refl _ _ eq_refl) _).
    + discriminate.
    + vm_compute. reflexivity.
    + vm_compute. discriminate.
Defined.

(** C5 fails as stated: a registration poll gets the answer 200 with no
    [Token] header; the exchange is complete and the status is below 400,
    but the API flag, false before, is still false afterwards. *)
Lemma loop_flags_after_exchange_counterexample :
  API (errors (Demo.polling Demo.ok_without_token Demo.poll false)) = false /\
  (exists req,
     exchanges (loop_iter (Demo.polling Demo.ok_without_token Demo.poll false))
     = [(req, Resp Demo.ok_without_token)]) /\
  (status_code Demo.ok_without_token <? 400) = true /\
  API (errors (loop_iter (Demo.polling Demo.ok_without_token Demo.poll false))) = false.
Proof.
  split; [reflexivity|]. split; [eexists; vm_compute; reflexivity|].
  split; vm_compute; reflexivity.
Qed.

(** A telemetry sample answered 401: API and TOKEN end false, HTTP
    stays true. *)
Lemma loop_flags_after_exchange_witness :
  (exists req,
     exchanges (loop_iter (Demo.reporting Demo.unauthorized (ITelemetry Demo.sample)))
     = [(req, Resp Demo.unauthorized)]) /\
  API (errors (loop_iter (Demo.reporting Demo.unauthorized (ITelemetry Demo.sample))))
  = false /\
  TOKEN (errors (loop_iter (Demo.reporting Demo.unauthorized (ITelemetry Demo.sample))))
  = false /\
  HTTP (errors (loop_iter (Demo.reporting Demo.unauthorized (ITelemetry Demo.sample))))
  = true.
Proof.
  assert (Hx : exists req,
             exchanges (loop_iter (Demo.reporting Demo.unauthorized
                                     (ITelemetry Demo.sample)))
             = [(req, Resp Demo.unauthorized)])
    by (eexists; vm_compute; reflexivity).
  split; [exact Hx|]. destruct Hx as [req Hx].
  destruct (loop_flags_after_exchange
              (Demo.reporting Demo.unauthorized (ITelemetry Demo.sample))
              req Demo.unauthorized Hx) as (Ha & Ht & Hh).
  - intros reg rest Hq. discriminate Hq.
  - split; [exact Ha|]. split; [exact (Ht eq_refl) | exact Hh].
Defined.

(** The serial number is set and cannot be set again; the fingerprint is
    [None] and takes the value given. *)
Lemma identity_fields_write_once_witness :
  __sn (self Demo.uninitialised) = Some "SN1" /\
  __fingerprint (self Demo.uninitialised) = None /\
  sn_setter (Some "SN2") Demo.uninitialised
  = (inl (Exception "Serial number is already set."), Demo.uninitialised) /\
  exists w',
    fingerprint_setter (Some "FP1") Demo.uninitialised = (inr tt, w') /\
    __fingerprint (self w') = Some "FP1".
Proof.
  destruct (identity_fields_write_once Demo.uninitialised) as (_ & Hf & Hs & _).
  split; [reflexivity|]. split; [reflexivity|]. split.
  - exact (Hs (Some "SN2") "SN1" eq_refl).
  - exact (Hf (Some "FP1") eq_refl).
Defined.


(** Without a server a registration poll is dropped like any item. *)
Lemma loop_without_server_drops_item_witness :
  truthy_str (server (self (Demo.offline [IRegister Demo.poll; ITelemetry Demo.sample])))
  = false /\
  queue (self (loop_iter (Demo.offline [IRegister Demo.poll; ITelemetry Demo.sample])))
  = [ITelemetry Demo.sample] /\
  exchanges (loop_iter (Demo.offline [IRegister Demo.poll; ITelemetry Demo.sample])) = [] /\
  calls (loop_iter (Demo.offline [IRegister Demo.poll; ITelemetry Demo.sample])) = [].
Proof.
  destruct (loop_without_server_drops_item
              (Demo.offline [IRegister Demo.poll; ITelemetry Demo.sample])
              (IRegister Demo.poll) [ITelemetry Demo.sample] eq_refl eq_refl)
    as (_ & _ & Hq & Hx & Hc & _).
  split; [reflexivity|]. split; [exact Hq|]. split; [exact Hx | exact Hc].
Defined.

(** C9 fails as stated: the serial number (the empty string), the
    fingerprint and the printer type are all set, none of them is [None],
    yet [is_initialised] returns [False] and clears the API flag. *)
Lemma is_initialised_blank_sn_counterexample :
  __sn (self Demo.blank_sn) <> None /\
  __fingerprint (self Demo.blank_sn) <> None /\
  __type (self Demo.blank_sn) <> None /\
  API (errors Demo.blank_sn) = true /\
  fst (is_initialised Demo.blank_sn) = inr false /\
  API (errors (snd (is_initialised Demo.blank_sn))) = false.
Proof. vm_compute. repeat split; discriminate. Qed.

(** An initialised printer, and one whose fingerprint is [None]. *)
Lemma is_initialised_effect_witness :
  is_initialised Demo.parsing = (inr true, Demo.parsing) /\
  __fingerprint (self Demo.uninitialised) = None /\
  exists w',
    is_initialised Demo.uninitialised = (inr false, w') /\
    API (errors w') = false.
Proof.
  split; [|split; [reflexivity|]].
  - destruct (is_initialised_effect Demo.parsing) as [Hyes _].
    apply Hyes. split; [exists "SN1" | split; [exists "FP1" | exists (1, 3, 0)]];
      try split; try reflexivity; discriminate.
  - destruct (is_initialised_effect Demo.uninitialised) as [_ Hno].
    destruct Hno as (w' & E & Ha & _).
    + right. right. left. reflexivity.
    + exists w'. split; [exact E | exact Ha].
Defined.

(** A sample with an extra field, from a printer without fingerprint. *)
Lemma telemetry_not_initialised_drops_fields_witness :
  truthy_str (token (self Demo.uninitialised)) = true /\
  initialised (self Demo.uninitialised) = false /\
  exists w',
    telemetry const.State.BUSY (Some (1234 # 1)) {[ "axis_x" := VInt 3 ]}
      Demo.uninitialised = (inr tt, w') /\
    queue (self w') =
      [ITelemetry {| state := const.State.BUSY; timestamp := 1234 # 1; kwargs := ∅ |}].
Proof.
  split; [reflexivity|]. split; [reflexivity|].
  destruct (telemetry_not_initialised_drops_fields Demo.uninitialised const.State.BUSY
              (Some (1234 # 1)) {[ "axis_x" := VInt 3 ]} eq_refl eq_refl)
    as (w' & E & Hq).
  exists w'. split; [exact E | exact Hq].
Defined.

(** * Worked examples of the further properties *)

(** An event offered to a printer without a token. *)
Lemma event_cb_without_token_witness :
  truthy_str (token (self Demo.tokenless)) = false /\
  exists w',
    event_cb Demo.info_args Demo.tokenless = (inr tt, w') /\
    self w' = self Demo.tokenless /\ errors w' = errors Demo.tokenless.
Proof.
  split; [reflexivity|].
  destruct (event_cb_without_token Demo.info_args Demo.tokenless eq_refl)
    as (w' & E & Hs & He & _).
  exists w'. repeat split; assumption.
Defined.

(** An event with its own ["job_id"], from a printer on job 42. *)
Lemma event_cb_with_token_witness :
  truthy_str (token (self Demo.busy)) = true /\
  exists w' e,
    event_cb Demo.info_args Demo.busy = (inr tt, w') /\
    queue (self w') = [IEvent e] /\
    ev_kwargs e !! "job_id" = Some (VInt 42) /\
    API (errors w') = true.
Proof.
  split; [reflexivity|].
  destruct (event_cb_with_token Demo.info_args Demo.busy eq_refl)
    as (w' & e & E & Hq & _ & _ & _ & Hj & _ & Ha & _).
  exists w', e. repeat split; assumption.
Defined.

(** A sample offered by a printer without a token. *)
Lemma telemetry_without_token_witness :
  truthy_str (token (self Demo.tokenless)) = false /\
  telemetry const.State.READY None ∅ Demo.tokenless = (inr tt, Demo.tokenless).
Proof.
  split; [reflexivity|].
  exact (telemetry_without_token const.State.READY None ∅ Demo.tokenless eq_refl).
Defined.

(** A sample from a printer on job 42 with a download under way. *)
Lemma telemetry_initialised_fields_witness :
  truthy_str (token (self Demo.busy)) = true /\
  initialised (self Demo.busy) = true /\
  exists w' t,
    telemetry const.State.PRINTING None {[ "temp_nozzle" := VInt 215 ]} Demo.busy
    = (inr tt, w') /\
    queue (self w') = [ITelemetry t] /\
    kwargs t !! "job_id" = Some (VInt 42) /\
    kwargs t !! "download_bytes" = Some (VInt 1024) /\
    kwargs t !! "temp_nozzle" = Some (VInt 215).
Proof.
  split; [reflexivity|]. split; [reflexivity|].
  destruct (telemetry_initialised_fields const.State.PRINTING None
              {[ "temp_nozzle" := VInt 215 ]} Demo.busy eq_refl eq_refl)
    as (w' & t & E & Hq & _ & _ & Hj & _ & _ & Hb & Hk).
  exists w', t. split; [exact E|]. split; [exact Hq|]. split; [exact Hj|].
  split; [exact Hb|]. rewrite Hk by discriminate. reflexivity.
Defined.

(** Headers for a timestamp that is given, and for the timestamp zero. *)
Lemma make_headers_fields_witness :
  (exists h w',
     make_headers (Some (5 # 1)) Demo.parsing = (inr h, w') /\
     h_Timestamp h = 5 # 1 /\ h_Token h = Some "token" /\ ticks w' = 0%nat) /\
  (exists h w',
     make_headers (Some (0 # 1)) Demo.parsing = (inr h, w') /\
     h_Timestamp h = (inject_Z 10000 * (1 # 10))%Q /\ ticks w' = 1%nat).
Proof.
  split.
  - destruct (make_headers_fields (Some (5 # 1)) Demo.parsing)
      as (h & w' & E & _ & Ht & _ & Hyes & _).
    destruct (Hyes eq_refl) as [Hticks [= Hts]].
    exists h, w'. repeat split; assumption.
  - destruct (make_headers_fields (Some (0 # 1)) Demo.parsing)
      as (h & w' & E & _ & _ & _ & _ & Hno).
    destruct (Hno eq_refl) as [Hticks Hts].
    exists h, w'. repeat split; assumption.
Defined.

(** Two sets of headers after one clock adjustment. *)
Lemma make_headers_clock_adjusted_once_witness :
  clock_adjusted (clock_watcher (self Demo.busy)) = true /\
  exists h w' h' w'',
    make_headers None Demo.busy = (inr h, w') /\ h_Clock_Adjusted h = Some "1" /\
    make_headers None w' = (inr h', w'') /\ h_Clock_Adjusted h' = None.
Proof.
  split; [reflexivity|].
  destruct (make_headers_clock_adjusted_once None None Demo.busy)
    as (h & w' & E & Hyes & _).
  destruct (Hyes eq_refl) as (Hh & _ & Hnext).
  destruct (Hnext eq_refl) as (h' & w'' & E' & Hh').
  exists h, w', h', w''. repeat split; assumption.
Defined.

(** The answer 204. *)
Lemma parse_command_other_status_witness :
  status_code Demo.no_content <> 200 /\
  exists w',
    parse_command Demo.no_content Demo.parsing = (inr Demo.no_content, w') /\
    self w' = self Demo.parsing /\ errors w' = errors Demo.parsing.
Proof.
  assert (Hs : status_code Demo.no_content <> 200) by discriminate.
  split; [exact Hs|].
  destruct (parse_command_other_status Demo.no_content Demo.parsing Hs)
    as (w' & E & Hself & He & _).
  exists w'. repeat split; assumption.
Defined.

(** A command without a content type. *)
Lemma parse_command_missing_content_type_witness :
  status_code Demo.bare = 200 /\
  command_id_of (H:=Demo.idle) Demo.bare = Some 7 /\
  initialised (self Demo.parsing) = true /\
  headers_get "content-type" Demo.bare = None /\
  exists w',
    parse_command Demo.bare Demo.parsing = (inr Demo.bare, w') /\
    calls w' =
      [CParseCommand Demo.bare;
       CEventCb (rejected const.Source.CONNECT (Some 7)
                   "'NoneType' object has no attribute 'startswith'")].
Proof.
  assert (Hid : command_id_of (H:=Demo.idle) Demo.bare = Some 7)
    by (vm_compute; reflexivity).
  assert (Hct : headers_get "content-type" Demo.bare = None)
    by (vm_compute; reflexivity).
  split; [reflexivity|]. split; [exact Hid|]. split; [reflexivity|].
  split; [exact Hct|].
  destruct (parse_command_missing_content_type Demo.bare 7 Demo.parsing
              eq_refl Hid eq_refl Hct) as (w' & E & C & _).
  exists w'. split; [exact E | exact C].
Defined.

(** A JSON command whose body is cut short. *)
Lemma parse_command_json_decode_error_witness :
  status_code Demo.bad_json = 200 /\
  command_id_of (H:=Demo.idle) Demo.bad_json = Some 7 /\
  initialised (self Demo.parsing) = true /\
  headers_get "content-type" Demo.bad_json = Some "application/json" /\
  res_json Demo.bad_json = inl (Exception "Expecting value") /\
  exists w',
    parse_command Demo.bad_json Demo.parsing = (inr Demo.bad_json, w') /\
    calls w' =
      [CParseCommand Demo.bad_json; CResJson Demo.bad_json;
       CEventCb (rejected const.Source.CONNECT (Some 7) "Expecting value")].
Proof.
  assert (Hid : command_id_of (H:=Demo.idle) Demo.bad_json = Some 7)
    by (vm_compute; reflexivity).
  assert (Hct : headers_get "content-type" Demo.bad_json = Some "application/json")
    by (vm_compute; reflexivity).
  split; [reflexivity|]. split; [exact Hid|]. split; [reflexivity|].
  split; [exact Hct|]. split; [reflexivity|].
  destruct (parse_command_json_decode_error Demo.bad_json 7 "application/json"
              (Exception "Expecting value") Demo.parsing
              eq_refl Hid eq_refl Hct eq_refl eq_refl) as (w' & E & C & _).
  exists w'. split; [exact E | exact C].
Defined.

(** A G-code command run to its end by the sample command object. *)
Lemma parse_command_gcode_course_witness :
  status_code Demo.gcode = 200 /\
  command_id_of (H:=Demo.idle) Demo.gcode = Some 8 /\
  initialised (self Demo.parsing) = true /\
  headers_get "content-type" Demo.gcode = Some "text/x.gcode" /\
  exists w',
    parse_command Demo.gcode Demo.parsing = (inr Demo.gcode, w') /\
    length (calls w') = 4%nat /\
    command (self w') = None.
Proof.
  assert (Hid : command_id_of (H:=Demo.idle) Demo.gcode = Some 8)
    by (vm_compute; reflexivity).
  assert (Hct : headers_get "content-type" Demo.gcode = Some "text/x.gcode")
    by (vm_compute; reflexivity).
  split; [reflexivity|]. split; [exact Hid|]. split; [reflexivity|].
  split; [exact Hct|].
  destruct (parse_command_gcode_course Demo.gcode 8 Demo.parsing
              eq_refl Hid eq_refl Hct) as (w' & E & C & K).
  exists w'. split; [exact E|]. split.
  - rewrite C. reflexivity.
  - rewrite K. reflexivity.
Defined.

(** A sample lost to a session that cannot connect. *)
Lemma loop_exchange_failure_witness :
  (exists req,
     exchanges (loop_iter Demo.unreachable)
     = [(req, Raise (ConnectionError "unreachable"))]) /\
  queue (self (loop_iter Demo.unreachable)) = [] /\
  HTTP (errors (loop_iter Demo.unreachable)) = false.
Proof.
  assert (Hx : exists req,
             exchanges (loop_iter Demo.unreachable)
             = [(req, Raise (ConnectionError "unreachable"))])
    by (eexists; vm_compute; reflexivity).
  split; [exact Hx|]. destruct Hx as [req Hx].
  destruct (loop_exchange_failure Demo.unreachable req (ConnectionError "unreachable")
              (ITelemetry Demo.sample) [] eq_refl Hx) as (Hq & _ & _ & He).
  split; [exact Hq | exact He].
Defined.

(** A poll answered with a token. *)
Lemma loop_registration_success_witness :
  (exists req,
     exchanges (loop_iter (Demo.polling Demo.granted Demo.poll false))
     = [(req, Resp Demo.granted)]) /\
  headers_get "Token" Demo.granted = Some "NEWTOKEN" /\
  token (self (loop_iter (Demo.polling Demo.granted Demo.poll false)))
  = Some "NEWTOKEN" /\
  queue (self (loop_iter (Demo.polling Demo.granted Demo.poll false))) = [] /\
  API (errors (loop_iter (Demo.polling Demo.granted Demo.poll false))) = true.
Proof.
  assert (Hx : exists req,
             exchanges (loop_iter (Demo.polling Demo.granted Demo.poll false))
             = [(req, Resp Demo.granted)])
    by (eexists; vm_compute; reflexivity).
  assert (Ht : headers_get "Token" Demo.granted = Some "NEWTOKEN")
    by (vm_compute; reflexivity).
  split; [exact Hx|]. split; [exact Ht|]. destruct Hx as [req Hx].
  destruct (loop_registration_success (Demo.polling Demo.granted Demo.poll false)
              req Demo.granted Demo.poll [] "NEWTOKEN" eq_refl Hx eq_refl Ht eq_refl)
    as (Htok & Hq & _ & _ & Ha).
  repeat split; assumption.
Defined.

(** A poll answered 200 without a token, and one answered with an empty
    token, which the default handler refuses. *)
Lemma loop_registration_lost_witness :
  (exists req,
     exchanges (loop_iter (Demo.polling Demo.ok_without_token Demo.poll true))
     = [(req, Resp Demo.ok_without_token)]) /\
  queue (self (loop_iter (Demo.polling Demo.ok_without_token Demo.poll true))) = [] /\
  INTERNET (errors (loop_iter (Demo.polling Demo.ok_without_token Demo.poll true)))
  = false /\
  (exists req,
     exchanges (loop_iter (Demo.polling Demo.granted_empty Demo.poll false))
     = [(req, Resp Demo.granted_empty)]) /\
  token (self (loop_iter (Demo.polling Demo.granted_empty Demo.poll false))) = Some "" /\
  INTERNET (errors (loop_iter (Demo.polling Demo.granted_empty Demo.poll false)))
  = false.
Proof.
  assert (Hx : exists req,
             exchanges (loop_iter (Demo.polling Demo.ok_without_token Demo.poll true))
             = [(req, Resp Demo.ok_without_token)])
    by (eexists; vm_compute; reflexivity).
  assert (Hy : exists req,
             exchanges (loop_iter (Demo.polling Demo.granted_empty Demo.poll false))
             = [(req, Resp Demo.granted_empty)])
    by (eexists; vm_compute; reflexivity).
  split; [exact Hx|]. destruct Hx as [req Hx].
  destruct (loop_registration_lost (Demo.polling Demo.ok_without_token Demo.poll true)
              req Demo.ok_without_token Demo.poll [] eq_refl Hx eq_refl) as [Hnone _].
  destruct Hnone as (Hq & _ & _ & He); [vm_compute; reflexivity|].
  split; [exact Hq|]. split; [exact He|].
  split; [exact Hy|]. destruct Hy as [req' Hy].
  destruct (loop_registration_lost (Demo.polling Demo.granted_empty Demo.poll false)
              req' Demo.granted_empty Demo.poll [] eq_refl Hy eq_refl) as [_ Hsome].
  destruct (Hsome "" (Exception "")) as (_ & Ht & _ & He');
    [vm_compute; reflexivity | reflexivity |].
  split; [exact Ht | exact He'].
Defined.

(** The request made for a sample. *)
Lemma loop_request_content_witness :
  exists req out,
    exchanges (loop_iter (Demo.reporting Demo.no_content (ITelemetry Demo.sample)))
    = [(req, out)] /\
    url req = "http://connect/p/telemetry" /\
    h_Token (req_headers req) = Some "token" /\
    h_Fingerprint (req_headers req) = Some "FP1" /\
    h_Timestamp (req_headers req) = 1000 # 1.
Proof.
  assert (Hx : exists req out,
             exchanges (loop_iter (Demo.reporting Demo.no_content
                                     (ITelemetry Demo.sample)))
             = [(req, out)])
    by (do 2 eexists; vm_compute; reflexivity).
  destruct Hx as (req & out & Hx). exists req, out. split; [exact Hx|].
  destruct (loop_request_content
              (Demo.reporting Demo.no_content (ITelemetry Demo.sample))
              req out (ITelemetry Demo.sample) [] "http://connect" eq_refl eq_refl Hx)
    as (_ & Hf & Ht & Hts & _ & Hu & _).
  pose proof (Hts eq_refl) as Hts'. simpl in Hts'. injection Hts' as Hts'.
  repeat split; assumption.
Defined.

(** Two events, the second of which cannot be delivered. *)
Lemma loop_sends_events_in_order_witness :
  queue (self Demo.two_events) = map IEvent [Demo.changed; Demo.finished] /\
  exists xs,
    exchanges (loop [[]; []] Demo.two_events) = xs /\
    map (fun x => json (fst x)) xs
    = [Some (IEvent Demo.changed); Some (IEvent Demo.finished)] /\
    queue (self (loop [[]; []] Demo.two_events)) = [].
Proof.
  split; [reflexivity|].
  destruct (loop_sends_events_in_order [Demo.changed; Demo.finished] Demo.two_events
              "http://connect" eq_refl eq_refl) as (xs & Hx & Hj & _ & Hq & _);
    [discriminate | reflexivity |].
  exists xs. split; [exact Hx|]. split; [exact Hj | exact Hq].
Defined.

(** Registration followed by the first sample. *)
Lemma loop_registration_then_telemetry_witness :
  headers_get "Token" Demo.granted = Some "NEWTOKEN" /\
  exists req1 req2 out2,
    exchanges (loop [[]; []] Demo.registering)
    = [(req1, Resp Demo.granted); (req2, out2)] /\
    url req2 = "http://connect/p/telemetry" /\
    h_Token (req_headers req2) = Some "NEWTOKEN".
Proof.
  assert (Ht : headers_get "Token" Demo.granted = Some "NEWTOKEN")
    by (vm_compute; reflexivity).
  split; [exact Ht|].
  destruct (loop_registration_then_telemetry Demo.registering Demo.poll Demo.sample []
              "http://connect" "NEWTOKEN" Demo.granted eq_refl eq_refl)
    as (req1 & req2 & out2 & Hx & _ & _ & _ & Hu & _ & Htok);
    [discriminate | reflexivity | reflexivity | exact Ht | discriminate | reflexivity |].
  exists req1, req2, out2. repeat split; assumption.
Defined.

(** A fresh printer given its identity. *)
Lemma identity_setters_initialise_witness :
  __sn (self Demo.fresh) = None /\
  exists w',
    (sn_setter (Some "SN1") ≫= fun _ =>
     fingerprint_setter (Some "FP1") ≫= fun _ =>
     type_setter (Some (1, 3, 0)) ≫= fun _ => is_initialised) Demo.fresh
    = (inr true, w') /\
    exists e, sn_setter (Some "SN2") w' = (inl e, w').
Proof.
  split; [reflexivity|].
  destruct (identity_setters_initialise Demo.fresh "SN1" "FP1" (1, 3, 0)
              eq_refl eq_refl eq_refl) as (w' & E & _ & Hs & _);
    [discriminate | discriminate |].
  exists w'. split; [exact E | exact (Hs (Some "SN2"))].
Defined.

(** Asking for a token with and without a server. *)
Lemma get_token_request_witness :
  get_token "CODE" (Demo.offline []) = (inl (Exception "Server is not set"), Demo.offline []) /\
  exists req w',
    exchanges w' = [(req, Raise (ConnectionError "unreachable"))] /\
    url req = "http://connect/p/register" /\
    get_token "CODE" Demo.parsing = (inl (ConnectionError "unreachable"), w').
Proof.
  split.
  - destruct (get_token_request "CODE" (Demo.offline [])) as [Hno _].
    exact (Hno eq_refl).
  - destruct (get_token_request "CODE" Demo.parsing) as [_ Hyes].
    destruct (Hyes "http://connect" eq_refl) as (req & w' & Hx & _ & Hu & _ & _ & E);
      [discriminate|].
    exists req, w'. split; [exact Hx|]. split; [exact Hu | exact E].
Defined.

(** The examples of the docstring of [connect_url] differ pairwise. *)
Lemma connect_url_injective_witness :
  connect_url "connect" false 8000 = connect_url "connect" false (7999 + 1) /\
  false = false /\ 8000 = 7999 + 1.
Proof.
  assert (Heq : connect_url "connect" false 8000 = connect_url "connect" false (7999 + 1))
    by reflexivity.
  split; [exact Heq|].
  exact (connect_url_injective "connect" false false 8000 (7999 + 1) Heq).
Defined.

(** The docstring of [connect_url]. *)
Example connect_url_doctest :
  connect_url "connect" true 0 = "https://connect" /\
  connect_url "connect" false 0 = "http://connect" /\
  connect_url "connect" false 8000 = "http://connect:8000".
Proof. repeat split. Qed.

(** The config of the front camera, with a setting added. *)
Lemma config_validity_by_keys_witness :
  @camera_driver.is_config_valid Demo.v4l2 Demo.front_config = inr true /\
  @camera_driver.is_config_valid Demo.v4l2 (<["rotation" := "90"]> Demo.front_config)
  = inr true /\
  @camera_driver.is_config_valid Demo.v4l2
    (camera_driver._config (camera_driver.set_name "Side" (Demo.front true)))
  = inr true.
Proof.
  assert (Hv : @camera_driver.is_config_valid Demo.v4l2 Demo.front_config = inr true)
    by (vm_compute; reflexivity).
  split; [exact Hv|].
  destruct (@config_validity_by_keys Demo.v4l2 Demo.front_config) as (_ & Hadd & Hname).
  split; [exact (Hadd Hv "rotation" "90")|].
  destruct (Hname (Demo.front true) "Side") as (_ & _ & Hkeep).
  exact (Hkeep Hv).
Defined.

(** What the scan of the two devices returns. *)
Lemma scan_returns_valid_configs_witness :
  @camera_driver.scan Demo.v4l2 = inr {[ "id-video0" := Demo.front_config ]} /\
  @camera_driver.is_config_valid Demo.v4l2 Demo.front_config = inr true /\
  is_Some (Demo.front_config !! "driver").
Proof.
  assert (E : @camera_driver.scan Demo.v4l2 = inr {[ "id-video0" := Demo.front_config ]})
    by (vm_compute; reflexivity).
  split; [exact E|].
  destruct (@scan_returns_valid_configs Demo.v4l2 _ "id-video0" Demo.front_config
              E eq_refl) as (Hv & Hd & _).
  split; [exact Hv | exact Hd].
Defined.

(** The scanned front camera instanced. *)
Lemma scan_configs_instance_driver_witness :
  @camera_driver.scan Demo.v4l2 = inr {[ "id-video0" := Demo.front_config ]} /\
  @camera_driver.init Demo.v4l2 "id-video0" Demo.front_config
  = inr {| camera_driver._camera_id := "id-video0";
           camera_driver._config := Demo.front_config;
           camera_driver._connected := false;
           camera_driver._last_photo := None;
           camera_driver._last_photo_timestamp := None |}.
Proof.
  assert (E : @camera_driver.scan Demo.v4l2 = inr {[ "id-video0" := Demo.front_config ]})
    by (vm_compute; reflexivity).
  split; [exact E|].
  exact (@scan_configs_instance_driver Demo.v4l2 _ "id-video0" Demo.front_config
           (ex_intro _ "V4L2" eq_refl) E eq_refl).
Defined.

(** The device with a path is listed, the one without is not. *)
Lemma scan_lists_complete_configs_witness :
  exists valid,
    @camera_driver.scan Demo.v4l2 = inr valid /\
    is_Some (valid !! "id-video0") /\
    (is_Some (valid !! "id-video1") ->
     exists plaintext_id c0,
       In (plaintext_id, c0) (@camera_driver._scan Demo.v4l2) /\
       "id-" +:+ plaintext_id = "id-video1" /\
       is_Some (c0 !! "path")).
Proof.
  destruct (@scan_lists_complete_configs Demo.v4l2 "V4L2" eq_refl)
    as (valid & E & Hiff).
  { repeat constructor. }
  exists valid. split; [exact E|]. split.
  - apply Hiff.
    exists "video0", {[ "path" := "/dev/video0"; "name" := "Front" ]}.
    split; [left; reflexivity|]. split; [reflexivity|].
    intros k [Hk|[v Hk]].
    + apply elem_of_union in Hk as [Hk|Hk]; apply elem_of_singleton in Hk; subst k.
      * right. eexists. vm_compute. reflexivity.
      * left. reflexivity.
    + change (({[ "path" := "Path to the device" ]} : gmap string string) !! k
              = Some v) in Hk.
      apply lookup_singleton_Some in Hk as [<- _].
      right. eexists. vm_compute. reflexivity.
  - intros Hs. apply Hiff in Hs as (pid & c0 & Hin & Hd & Hk).
    exists pid, c0. split; [exact Hin|]. split; [exact Hd|].
    destruct (Hk "path") as [Hp|Hp]; [right; eexists; vm_compute; reflexivity
                                      | discriminate | exact Hp].
Defined.

(** A device whose id starts with an accented letter. *)
Lemma scan_non_ascii_id_raises_witness :
  camera_driver.is_ascii (String (Ascii.ascii_of_nat 233) "cam") = false /\
  exists e, @camera_driver.scan Demo.v4l2_latin = inl e.
Proof.
  split; [reflexivity|].
  apply (@scan_non_ascii_id_raises Demo.v4l2_latin
           (String (Ascii.ascii_of_nat 233) "cam") {[ "name" := "Back" ]}).
  - right. left. reflexivity.
  - reflexivity.
Defined.

(** The front camera disconnected, and connected. *)
Lemma photo_taker_outcomes_witness :
  (exists d',
     @camera_driver._photo_taker Demo.v4l2 (1000 # 1) (Demo.front false)
     = (inr tt, d', [camera_driver.DisconnectedCb d']) /\
     camera_driver._last_photo d' = Some [Byte.x00] /\
     camera_driver._last_photo_timestamp d' = Some (999 # 1)) /\
  (exists d',
     @camera_driver._photo_taker Demo.v4l2 (1000 # 1) (Demo.front true)
     = (inr tt, d', [camera_driver.PhotoCb [Byte.xff; Byte.xd8]]) /\
     camera_driver._last_photo d' = Some [Byte.xff; Byte.xd8] /\
     camera_driver._last_photo_timestamp d' = Some (1000 # 1)).
Proof.
  split.
  - destruct (@photo_taker_outcomes Demo.v4l2 (1000 # 1) (Demo.front false))
      as [Hfail _].
    destruct (Hfail (camera_driver.Raised "no device") eq_refl)
      as (d' & E & _ & Hp & Ht & _).
    exists d'. split; [exact E|]. split; [exact Hp | exact Ht].
  - destruct (@photo_taker_outcomes Demo.v4l2 (1000 # 1) (Demo.front true))
      as [_ Hok].
    destruct (Hok [Byte.xff; Byte.xd8] eq_refl) as (d' & E & _ & Hp & Ht & _).
    exists d'. split; [exact E|]. split; [exact Hp | exact Ht].
Defined.
